(** * BreadedGBA: the ARM7 core, the memory bus and the interrupt registers

    A shallow embedding of [cpu/arm7_cpu.cpp], [memory/memory.cpp],
    [ppu/ppu.cpp] and [system.cpp].  Machine integers are [Z] with the
    wrap-around of the C++ type written out; [std::array]s of the CPU are
    lists updated in place; the byte arrays behind the bus and the frame
    buffer are maps from offsets to values. *)

From Stdlib Require Import ZArith Lia Bool.
From stdpp Require Import base list numbers.

Local Open Scope Z_scope.

(** ** Fixed-width arithmetic *)

Definition u8 (x : Z) : Z := x mod 2 ^ 8.
Definition u16 (x : Z) : Z := x mod 2 ^ 16.
Definition u32 (x : Z) : Z := x mod 2 ^ 32.

(** [~x] at type [uint32_t]. *)
Definition not32 (x : Z) : Z := u32 (Z.lnot x).

(** Conversion of an integer to [bool], as in [if (x)] and [!x]. *)
Definition nz (x : Z) : bool := negb (x =? 0).

(** The values of an [int].  Signed overflow is undefined in C++, so an
    [int] counter is carried as a [Z] and a statement about its value holds
    under the hypothesis that the count stays inside this range. *)
Definition INT_MAX : Z := 2 ^ 31 - 1.
Definition int_range (x : Z) : Prop := - 2 ^ 31 <= x <= INT_MAX.

(** A counted loop [for (int i = 0; i < n; i++) body(i)]. *)
Definition for_loop {S : Type} (n : nat) (body : nat -> S -> S) (s : S) : S :=
  fold_left (fun acc i => body i acc) (seq 0 n) s.

(** ** cpu/arm7_cpu.h *)

(** [enum class CpuMode : uint32_t].  [get_current_mode] casts the low five
    bits of the status register to the enumeration, so a mode is carried as
    its underlying integer. *)
Definition CpuMode := Z.
Definition USER : CpuMode := 0x10.
Definition FIQ : CpuMode := 0x11.
Definition IRQ : CpuMode := 0x12.
Definition SUPERVISOR : CpuMode := 0x13.
Definition ABORT : CpuMode := 0x17.
Definition UNDEFINED : CpuMode := 0x1B.
Definition SYSTEM : CpuMode := 0x1F.

(** The seven enumerators. *)
Definition is_enumerator (m : CpuMode) : bool :=
  (m =? USER) || (m =? FIQ) || (m =? IRQ) || (m =? SUPERVISOR)
  || (m =? ABORT) || (m =? UNDEFINED) || (m =? SYSTEM).

Definition FLAG_N : Z := Z.shiftl 1 31.
Definition FLAG_Z : Z := Z.shiftl 1 30.
Definition FLAG_C : Z := Z.shiftl 1 29.
Definition FLAG_V : Z := Z.shiftl 1 28.
Definition FLAG_I : Z := Z.shiftl 1 7.
Definition FLAG_F : Z := Z.shiftl 1 6.
Definition FLAG_T : Z := Z.shiftl 1 5.

Definition VECTOR_RESET : Z := 0x00000000.
Definition VECTOR_UNDEFINED : Z := 0x00000004.
Definition VECTOR_SWI : Z := 0x00000008.
Definition VECTOR_PREFETCH_ABORT : Z := 0x0000000C.
Definition VECTOR_DATA_ABORT : Z := 0x00000010.
Definition VECTOR_IRQ : Z := 0x00000018.
Definition VECTOR_FIQ : Z := 0x0000001C.

Record ARM7CPU := mkCPU {
  registers : list Z;      (* std::array<uint32_t, 16> *)
  cpsr : Z;                (* uint32_t *)
  spsr : list Z;           (* std::array<uint32_t, 5> *)
  banked_r13 : list Z;     (* std::array<uint32_t, 6> *)
  banked_r14 : list Z;     (* std::array<uint32_t, 6> *)
  banked_r8_r12 : list Z;  (* std::array<uint32_t, 10> *)
  thumb_mode : bool;
  cycles : Z               (* int; it only counts up, see [int_range] *)
}.

Definition set_registers (f : list Z -> list Z) (c : ARM7CPU) : ARM7CPU :=
  mkCPU (f (registers c)) (cpsr c) (spsr c) (banked_r13 c) (banked_r14 c)
        (banked_r8_r12 c) (thumb_mode c) (cycles c).
Definition set_cpsr (f : Z -> Z) (c : ARM7CPU) : ARM7CPU :=
  mkCPU (registers c) (f (cpsr c)) (spsr c) (banked_r13 c) (banked_r14 c)
        (banked_r8_r12 c) (thumb_mode c) (cycles c).
Definition set_spsr (f : list Z -> list Z) (c : ARM7CPU) : ARM7CPU :=
  mkCPU (registers c) (cpsr c) (f (spsr c)) (banked_r13 c) (banked_r14 c)
        (banked_r8_r12 c) (thumb_mode c) (cycles c).
Definition set_banked_r13 (f : list Z -> list Z) (c : ARM7CPU) : ARM7CPU :=
  mkCPU (registers c) (cpsr c) (spsr c) (f (banked_r13 c)) (banked_r14 c)
        (banked_r8_r12 c) (thumb_mode c) (cycles c).
Definition set_banked_r14 (f : list Z -> list Z) (c : ARM7CPU) : ARM7CPU :=
  mkCPU (registers c) (cpsr c) (spsr c) (banked_r13 c) (f (banked_r14 c))
        (banked_r8_r12 c) (thumb_mode c) (cycles c).
Definition set_banked_r8_r12 (f : list Z -> list Z) (c : ARM7CPU) : ARM7CPU :=
  mkCPU (registers c) (cpsr c) (spsr c) (banked_r13 c) (banked_r14 c)
        (f (banked_r8_r12 c)) (thumb_mode c) (cycles c).
Definition set_thumb_mode (b : bool) (c : ARM7CPU) : ARM7CPU :=
  mkCPU (registers c) (cpsr c) (spsr c) (banked_r13 c) (banked_r14 c)
        (banked_r8_r12 c) b (cycles c).
Definition set_cycles (f : Z -> Z) (c : ARM7CPU) : ARM7CPU :=
  mkCPU (registers c) (cpsr c) (spsr c) (banked_r13 c) (banked_r14 c)
        (banked_r8_r12 c) (thumb_mode c) (f (cycles c)).

(** The array sizes the C++ types fix. *)
Definition wf_cpu (c : ARM7CPU) : Prop :=
  length (registers c) = 16%nat /\ length (spsr c) = 5%nat
  /\ length (banked_r13 c) = 6%nat /\ length (banked_r14 c) = 6%nat
  /\ length (banked_r8_r12 c) = 10%nat.

(** ** cpu/arm7_cpu.cpp: modes and register banks *)

Definition get_current_mode (c : ARM7CPU) : CpuMode := Z.land (cpsr c) 0x1F.

Definition get_mode_index (mode : CpuMode) : nat :=
  if (mode =? USER) || (mode =? SYSTEM) then 0
  else if mode =? FIQ then 1
  else if mode =? IRQ then 2
  else if mode =? SUPERVISOR then 3
  else if mode =? ABORT then 4
  else if mode =? UNDEFINED then 5
  else 0.

Definition ARM7CPU_reset (c : ARM7CPU) : ARM7CPU :=
  let c := set_registers (fun _ => replicate 16 0) c in
  let c := set_registers <[15%nat := 0x08000000]> c in
  let c := set_cpsr (fun _ => SYSTEM) c in
  let c := set_spsr (fun _ => replicate 5 0) c in
  let c := set_banked_r13 (fun _ => replicate 6 0) c in
  let c := set_banked_r14 (fun _ => replicate 6 0) c in
  let c := set_banked_r8_r12 (fun _ => replicate 10 0) c in
  let c := set_thumb_mode false c in
  let c := set_cycles (fun _ => 0) c in
  let c := set_banked_r13 <[get_mode_index USER := 0x03007F00]> c in
  let c := set_banked_r13 <[get_mode_index IRQ := 0x03007FA0]> c in
  let c := set_banked_r13 <[get_mode_index FIQ := 0x03007FE0]> c in
  let c := set_banked_r13 <[get_mode_index SUPERVISOR := 0x03007FE0]> c in
  let c := set_banked_r13 <[get_mode_index ABORT := 0x03007FE0]> c in
  let c := set_banked_r13 <[get_mode_index UNDEFINED := 0x03007FE0]> c in
  c.

Definition save_banked_registers (prior_mode : CpuMode) (c : ARM7CPU)
    : ARM7CPU :=
  let mode_index := get_mode_index prior_mode in
  let c := set_banked_r13 <[mode_index := registers c !!! 13%nat]> c in
  let c := set_banked_r14 <[mode_index := registers c !!! 14%nat]> c in
  if prior_mode =? FIQ then
    for_loop 5 (fun i c =>
      set_banked_r8_r12 <[i := registers c !!! (8 + i)%nat]> c) c
  else c.

Definition restore_banked_registers (new_mode : CpuMode) (c : ARM7CPU)
    : ARM7CPU :=
  let mode_index := get_mode_index new_mode in
  let c := set_registers <[13%nat := banked_r13 c !!! mode_index]> c in
  let c := set_registers <[14%nat := banked_r14 c !!! mode_index]> c in
  if new_mode =? FIQ then
    for_loop 5 (fun i c =>
      set_registers <[(8 + i)%nat := banked_r8_r12 c !!! i]> c) c
  else
    for_loop 5 (fun i c =>
      set_registers <[(8 + i)%nat := banked_r8_r12 c !!! (5 + i)%nat]> c) c.

Definition switch_mode (new_mode : CpuMode) (c : ARM7CPU) : ARM7CPU :=
  let prior_mode := get_current_mode c in
  if prior_mode =? new_mode then c
  else
    let c := save_banked_registers prior_mode c in
    let c := set_cpsr (fun v => Z.lor (Z.land v (not32 0x1F)) new_mode) c in
    restore_banked_registers new_mode c.

(** [// TODO: Actually flush the pipeline] *)
Definition flush_pipeline (c : ARM7CPU) : ARM7CPU := c.

Definition set_flags (result : Z) (carry overflow : bool) (c : ARM7CPU)
    : ARM7CPU :=
  let c := set_cpsr (fun v =>
    Z.land v (not32 (Z.lor (Z.lor (Z.lor FLAG_N FLAG_Z) FLAG_C) FLAG_V))) c in
  let c := if result =? 0 then set_cpsr (fun v => Z.lor v FLAG_Z) c else c in
  let c := if nz (Z.land result 0x80000000)
           then set_cpsr (fun v => Z.lor v FLAG_N) c else c in
  let c := if carry then set_cpsr (fun v => Z.lor v FLAG_C) c else c in
  let c := if overflow then set_cpsr (fun v => Z.lor v FLAG_V) c else c in
  c.

Definition check_condition (c : ARM7CPU) (condition : Z) : bool :=
  let f := fun flag => Z.land (cpsr c) flag in
  match condition with
  | 0x0 => negb (f FLAG_Z =? 0)
  | 0x1 => f FLAG_Z =? 0
  | 0x2 => negb (f FLAG_C =? 0)
  | 0x3 => f FLAG_C =? 0
  | 0x4 => negb (f FLAG_N =? 0)
  | 0x5 => f FLAG_N =? 0
  | 0x6 => negb (f FLAG_V =? 0)
  | 0x7 => f FLAG_V =? 0
  | 0x8 => nz (f FLAG_C) && negb (nz (f FLAG_Z))
  | 0x9 => negb (nz (f FLAG_C)) || nz (f FLAG_Z)
  | 0xA => Bool.eqb (nz (f FLAG_N)) (nz (f FLAG_V))
  | 0xB => negb (Bool.eqb (nz (f FLAG_N)) (nz (f FLAG_V)))
  | 0xC => negb (nz (f FLAG_Z)) && Bool.eqb (nz (f FLAG_N)) (nz (f FLAG_V))
  | 0xD => nz (f FLAG_Z) || negb (Bool.eqb (nz (f FLAG_N)) (nz (f FLAG_V)))
  | 0xE => true
  | 0xF => false
  | _ => false
  end.

(** ** memory/memory.h *)

Definition BIOS_SIZE : Z := 0x4000.
Definition EWRAM_SIZE : Z := 0x40000.
Definition IWRAM_SIZE : Z := 0x8000.
Definition IO_SIZE : Z := 0x400.
Definition PALETTE_SIZE : Z := 0x400.
Definition VRAM_SIZE : Z := 0x18000.
Definition OAM_SIZE : Z := 0x400.
Definition ROM_SIZE : Z := 0x2000000.

Definition BIOS_START : Z := 0x00000000.
Definition EWRAM_START : Z := 0x02000000.
Definition IWRAM_START : Z := 0x03000000.
Definition IO_START : Z := 0x04000000.
Definition PALETTE_START : Z := 0x05000000.
Definition VRAM_START : Z := 0x06000000.
Definition OAM_START : Z := 0x07000000.
Definition ROM_START : Z := 0x08000000.

(** A [std::array<uint8_t, N>] is carried as the map from an offset to the
    byte stored there; the bus only ever indexes it below [N]. *)
Definition byte_array := Z -> Z.

Record GBAMemory := mkMem {
  bios : byte_array;
  ewram : byte_array;
  iwram : byte_array;
  io_registers : byte_array;
  palette : byte_array;
  vram : byte_array;
  oam : byte_array;
  rom : list Z             (* std::vector<uint8_t> *)
}.

Definition set_ewram (f : byte_array -> byte_array) (m : GBAMemory) :=
  mkMem (bios m) (f (ewram m)) (iwram m) (io_registers m) (palette m)
        (vram m) (oam m) (rom m).
Definition set_iwram (f : byte_array -> byte_array) (m : GBAMemory) :=
  mkMem (bios m) (ewram m) (f (iwram m)) (io_registers m) (palette m)
        (vram m) (oam m) (rom m).
Definition set_io_registers (f : byte_array -> byte_array) (m : GBAMemory) :=
  mkMem (bios m) (ewram m) (iwram m) (f (io_registers m)) (palette m)
        (vram m) (oam m) (rom m).
Definition set_palette (f : byte_array -> byte_array) (m : GBAMemory) :=
  mkMem (bios m) (ewram m) (iwram m) (io_registers m) (f (palette m))
        (vram m) (oam m) (rom m).
Definition set_vram (f : byte_array -> byte_array) (m : GBAMemory) :=
  mkMem (bios m) (ewram m) (iwram m) (io_registers m) (palette m)
        (f (vram m)) (oam m) (rom m).
Definition set_oam (f : byte_array -> byte_array) (m : GBAMemory) :=
  mkMem (bios m) (ewram m) (iwram m) (io_registers m) (palette m)
        (vram m) (f (oam m)) (rom m).

(** [rom[i]]; the vector is only indexed below [rom.size()] rounded up to a
    word, and the bytes of a last partial word read as zero here. *)
Definition rom_bytes (r : list Z) : byte_array :=
  fun off => default 0 (r !! Z.to_nat off).

(** [*reinterpret_cast<const uint32_t*>(&a[off])] on a little-endian host. *)
Definition load32 (a : byte_array) (off : Z) : Z :=
  Z.lor (a off)
    (Z.lor (Z.shiftl (a (off + 1)) 8)
       (Z.lor (Z.shiftl (a (off + 2)) 16) (Z.shiftl (a (off + 3)) 24))).

(** [*reinterpret_cast<uint32_t*>(&a[off]) = value] on a little-endian host. *)
Definition store32 (off value : Z) (a : byte_array) : byte_array :=
  fun o =>
    if o =? off then Z.land value 0xFF
    else if o =? off + 1 then Z.land (Z.shiftr value 8) 0xFF
    else if o =? off + 2 then Z.land (Z.shiftr value 16) 0xFF
    else if o =? off + 3 then Z.land (Z.shiftr value 24) 0xFF
    else a o.

(** [address >= START && address < START + SIZE] *)
Definition in_region (address start size : Z) : bool :=
  (start <=? address) && (address <? start + size).

(** ** memory/memory.cpp *)

Definition read32 (m : GBAMemory) (address : Z) : Z :=
  let address := Z.land address (not32 3) in
  if in_region address BIOS_START BIOS_SIZE then
    load32 (bios m) address
  else if in_region address EWRAM_START EWRAM_SIZE then
    load32 (ewram m) (address - EWRAM_START)
  else if in_region address IWRAM_START IWRAM_SIZE then
    load32 (iwram m) (address - IWRAM_START)
  else if in_region address IO_START IO_SIZE then
    load32 (io_registers m) (address - IO_START)
  else if in_region address PALETTE_START PALETTE_SIZE then
    load32 (palette m) (address - PALETTE_START)
  else if in_region address VRAM_START VRAM_SIZE then
    load32 (vram m) (address - VRAM_START)
  else if in_region address OAM_START OAM_SIZE then
    load32 (oam m) (address - OAM_START)
  else if in_region address ROM_START (Z.of_nat (length (rom m))) then
    load32 (rom_bytes (rom m)) (address - ROM_START)
  else 0.

Definition read16 (m : GBAMemory) (address : Z) : Z :=
  let word := read32 m (Z.land address (not32 3)) in
  u16 (if nz (Z.land address 2) then Z.shiftr word 16 else Z.land word 0xFFFF).

Definition read8 (m : GBAMemory) (address : Z) : Z :=
  let word := read32 m (Z.land address (not32 3)) in
  u8 (Z.land (Z.shiftr word (Z.land address 3 * 8)) 0xFF).

Definition write32 (address value : Z) (m : GBAMemory) : GBAMemory :=
  let address := Z.land address (not32 3) in
  if in_region address EWRAM_START EWRAM_SIZE then
    set_ewram (store32 (address - EWRAM_START) value) m
  else if in_region address IWRAM_START IWRAM_SIZE then
    set_iwram (store32 (address - IWRAM_START) value) m
  else if in_region address IO_START IO_SIZE then
    set_io_registers (store32 (address - IO_START) value) m
  else if in_region address PALETTE_START PALETTE_SIZE then
    set_palette (store32 (address - PALETTE_START) value) m
  else if in_region address VRAM_START VRAM_SIZE then
    set_vram (store32 (address - VRAM_START) value) m
  else if in_region address OAM_START OAM_SIZE then
    set_oam (store32 (address - OAM_START) value) m
  else m.

(** The shifts of [0xFFFF] and [0xFF] are done at type [int] and converted
    to [uint32_t]: the bits shifted past bit 31 are dropped. *)
Definition write16 (address value : Z) (m : GBAMemory) : GBAMemory :=
  if nz (Z.land address 1) then
    let aligned_addr := Z.land address (not32 3) in
    let old_value := read32 m aligned_addr in
    let shift := Z.land address 3 * 8 in
    let mask := u32 (Z.shiftl 0xFFFF shift) in
    let new_value :=
      Z.lor (Z.land old_value (not32 mask)) (u32 (Z.shiftl value shift)) in
    write32 aligned_addr new_value m
  else
    let aligned_addr := Z.land address (not32 3) in
    let old_value := read32 m aligned_addr in
    if nz (Z.land address 2) then
      write32 aligned_addr
        (Z.lor (Z.land old_value 0xFFFF) (u32 (Z.shiftl value 16))) m
    else
      write32 aligned_addr (Z.lor (Z.land old_value 0xFFFF0000) value) m.

Definition write8 (address value : Z) (m : GBAMemory) : GBAMemory :=
  let aligned_addr := Z.land address (not32 3) in
  let old_value := read32 m aligned_addr in
  let shift := Z.land address 3 * 8 in
  let mask := u32 (Z.shiftl 0xFF shift) in
  let new_value :=
    Z.lor (Z.land old_value (not32 mask)) (u32 (Z.shiftl value shift)) in
  write32 aligned_addr new_value m.

Definition GBAMemory_reset (m : GBAMemory) : GBAMemory :=
  let m := set_ewram (fun _ _ => 0) m in
  let m := set_iwram (fun _ _ => 0) m in
  let m := set_io_registers (fun _ _ => 0) m in
  let m := set_palette (fun _ _ => 0) m in
  let m := set_vram (fun _ _ => 0) m in
  let m := set_oam (fun _ _ => 0) m in
  m.

Definition is_readable (m : GBAMemory) (address : Z) : bool :=
  in_region address BIOS_START BIOS_SIZE
  || in_region address EWRAM_START EWRAM_SIZE
  || in_region address IWRAM_START IWRAM_SIZE
  || in_region address IO_START IO_SIZE
  || in_region address PALETTE_START PALETTE_SIZE
  || in_region address VRAM_START VRAM_SIZE
  || in_region address OAM_START OAM_SIZE
  || in_region address ROM_START (Z.of_nat (length (rom m))).

Definition is_writable (m : GBAMemory) (address : Z) : bool :=
  in_region address EWRAM_START EWRAM_SIZE
  || in_region address IWRAM_START IWRAM_SIZE
  || in_region address IO_START IO_SIZE
  || in_region address PALETTE_START PALETTE_SIZE
  || in_region address VRAM_START VRAM_SIZE
  || in_region address OAM_START OAM_SIZE.

(** ** ppu/ppu.h: the registers of the picture unit that [system.cpp] maps
    into the I/O space (the scanline counters and the frame buffer follow
    further down, as [Display]). *)

Record GBAPPU := mkPPU {
  dispcnt : Z;             (* uint16_t *)
  dispstat : Z;            (* uint16_t *)
  vcount : Z;              (* uint16_t *)
  bg_control : list Z;     (* std::array<uint16_t, 4> *)
  bg_scroll_x : list Z;    (* std::array<uint16_t, 4> *)
  bg_scroll_y : list Z     (* std::array<uint16_t, 4> *)
}.

Definition set_dispcnt (f : Z -> Z) (p : GBAPPU) : GBAPPU :=
  mkPPU (f (dispcnt p)) (dispstat p) (vcount p) (bg_control p)
        (bg_scroll_x p) (bg_scroll_y p).
Definition set_dispstat (f : Z -> Z) (p : GBAPPU) : GBAPPU :=
  mkPPU (dispcnt p) (f (dispstat p)) (vcount p) (bg_control p)
        (bg_scroll_x p) (bg_scroll_y p).
Definition set_bg_control (f : list Z -> list Z) (p : GBAPPU) : GBAPPU :=
  mkPPU (dispcnt p) (dispstat p) (vcount p) (f (bg_control p))
        (bg_scroll_x p) (bg_scroll_y p).
Definition set_bg_scroll_x (f : list Z -> list Z) (p : GBAPPU) : GBAPPU :=
  mkPPU (dispcnt p) (dispstat p) (vcount p) (bg_control p)
        (f (bg_scroll_x p)) (bg_scroll_y p).
Definition set_bg_scroll_y (f : list Z -> list Z) (p : GBAPPU) : GBAPPU :=
  mkPPU (dispcnt p) (dispstat p) (vcount p) (bg_control p)
        (bg_scroll_x p) (f (bg_scroll_y p)).

(** ** system.h *)

Definition REG_IE : Z := 0x04000200.
Definition REG_IF : Z := 0x04000202.
Definition REG_IME : Z := 0x04000208.

(** What the program prints on [std::cout] and [std::cerr]. *)
Inductive LogLine :=
| LogSWP (instruction : Z)
| LogSWI (instruction : Z)
| LogARM (instruction : Z)
| LogThumbSWI (instruction : Z)
| LogThumb (instruction : Z)
| LogInvalidInterrupt (interrupt_type : Z).

(** The machine.  The CPU is a member of the system, so a CPU method called
    with [GBASystem& gba] works on [cpu gba].  The system's own [cycles]
    counter, zeroed by the constructor and never touched again, is left
    out; [console] stands for the output streams of the process. *)
Record GBASystem := mkSys {
  cpu : ARM7CPU;
  memory : GBAMemory;
  ppu : GBAPPU;
  running : bool;
  interrupt_enable : Z;    (* uint16_t *)
  interrupt_flags : Z;     (* uint16_t *)
  interrupt_master : Z;    (* uint32_t *)
  console : list LogLine   (* the output streams, oldest line first *)
}.

Definition set_cpu (f : ARM7CPU -> ARM7CPU) (g : GBASystem) : GBASystem :=
  mkSys (f (cpu g)) (memory g) (ppu g) (running g) (interrupt_enable g)
        (interrupt_flags g) (interrupt_master g) (console g).
Definition set_memory (f : GBAMemory -> GBAMemory) (g : GBASystem)
    : GBASystem :=
  mkSys (cpu g) (f (memory g)) (ppu g) (running g) (interrupt_enable g)
        (interrupt_flags g) (interrupt_master g) (console g).
Definition set_ppu (f : GBAPPU -> GBAPPU) (g : GBASystem) : GBASystem :=
  mkSys (cpu g) (memory g) (f (ppu g)) (running g) (interrupt_enable g)
        (interrupt_flags g) (interrupt_master g) (console g).
Definition set_interrupt_enable (f : Z -> Z) (g : GBASystem) : GBASystem :=
  mkSys (cpu g) (memory g) (ppu g) (running g) (f (interrupt_enable g))
        (interrupt_flags g) (interrupt_master g) (console g).
Definition set_interrupt_flags (f : Z -> Z) (g : GBASystem) : GBASystem :=
  mkSys (cpu g) (memory g) (ppu g) (running g) (interrupt_enable g)
        (f (interrupt_flags g)) (interrupt_master g) (console g).
Definition set_interrupt_master (f : Z -> Z) (g : GBASystem) : GBASystem :=
  mkSys (cpu g) (memory g) (ppu g) (running g) (interrupt_enable g)
        (interrupt_flags g) (f (interrupt_master g)) (console g).
Definition print (l : LogLine) (g : GBASystem) : GBASystem :=
  mkSys (cpu g) (memory g) (ppu g) (running g) (interrupt_enable g)
        (interrupt_flags g) (interrupt_master g) (console g ++ [l]).

(** ** system.cpp: the interrupt controller *)

Definition request_interrupt (interrupt_type : Z) (g : GBASystem) : GBASystem :=
  if (interrupt_type <? 0) || (interrupt_type >? 13) then
    print (LogInvalidInterrupt interrupt_type) g
  else
    set_interrupt_flags (fun v => u16 (Z.lor v (Z.shiftl 1 interrupt_type))) g.

Definition has_pending_interrupts (g : GBASystem) : bool :=
  if negb (nz (Z.land (interrupt_master g) 1)) then false
  else negb (Z.land (interrupt_flags g) (interrupt_enable g) =? 0).

(** [uint8_t value]; the operands of [~] and [<<] are promoted to [int]. *)
Definition write_io_register (address value : Z) (g : GBASystem) : GBASystem :=
  if address =? REG_IE then
    set_interrupt_enable (fun v => u16 (Z.lor (Z.land v 0xFF00) value)) g
  else if address =? REG_IE + 1 then
    set_interrupt_enable
      (fun v => u16 (Z.lor (Z.land v 0x00FF) (Z.shiftl value 8))) g
  else if address =? REG_IF then
    set_interrupt_flags (fun v => u16 (Z.land v (Z.lnot value))) g
  else if address =? REG_IF + 1 then
    set_interrupt_flags (fun v => u16 (Z.land v (Z.lnot (Z.shiftl value 8)))) g
  else if address =? REG_IME then
    set_interrupt_master (fun v => u32 (Z.lor (Z.land v 0xFFFFFF00) value)) g
  else if (address =? REG_IME + 1) || (address =? REG_IME + 2)
          || (address =? REG_IME + 3) then
    let shift := (address - REG_IME) * 8 in
    let mask := u32 (Z.lnot (Z.shiftl 0xFF shift)) in
    set_interrupt_master
      (fun v => u32 (Z.lor (Z.land v mask) (Z.shiftl value shift))) g
  else if address =? 0x04000000 then
    set_ppu (set_dispcnt (fun v => u16 (Z.lor (Z.land v 0xFF00) value))) g
  else if address =? 0x04000001 then
    set_ppu (set_dispcnt
      (fun v => u16 (Z.lor (Z.land v 0x00FF) (Z.shiftl value 8)))) g
  else if address =? 0x04000004 then
    set_ppu (set_dispstat
      (fun v => u16 (Z.lor (Z.land v 0xFF00) (Z.land value 0xF8)))) g
  else if address =? 0x04000005 then
    set_ppu (set_dispstat
      (fun v => u16 (Z.lor (Z.land v 0x00FF) (Z.shiftl value 8)))) g
  else g.

(** [uint16_t value] *)
Definition write_io_register16 (address value : Z) (g : GBASystem)
    : GBASystem :=
  if address =? REG_IE then set_interrupt_enable (fun _ => value) g
  else if address =? REG_IF then
    set_interrupt_flags (fun v => u16 (Z.land v (Z.lnot value))) g
  else if address =? REG_IME then
    set_interrupt_master (fun v => u32 (Z.lor (Z.land v 0xFFFF0000) value)) g
  else if address =? 0x04000000 then set_ppu (set_dispcnt (fun _ => value)) g
  else if address =? 0x04000004 then
    set_ppu (set_dispstat
      (fun v => u16 (Z.lor (Z.land v 0x0007) (Z.land value 0xFFF8)))) g
  else if address =? 0x04000008 then
    set_ppu (set_bg_control <[0%nat := value]>) g
  else if address =? 0x0400000A then
    set_ppu (set_bg_control <[1%nat := value]>) g
  else if address =? 0x0400000C then
    set_ppu (set_bg_control <[2%nat := value]>) g
  else if address =? 0x0400000E then
    set_ppu (set_bg_control <[3%nat := value]>) g
  else if address =? 0x04000010 then
    set_ppu (set_bg_scroll_x <[0%nat := value]>) g
  else if address =? 0x04000012 then
    set_ppu (set_bg_scroll_y <[0%nat := value]>) g
  else if address =? 0x04000014 then
    set_ppu (set_bg_scroll_x <[1%nat := value]>) g
  else if address =? 0x04000016 then
    set_ppu (set_bg_scroll_y <[1%nat := value]>) g
  else if address =? 0x04000018 then
    set_ppu (set_bg_scroll_x <[2%nat := value]>) g
  else if address =? 0x0400001A then
    set_ppu (set_bg_scroll_y <[2%nat := value]>) g
  else if address =? 0x0400001C then
    set_ppu (set_bg_scroll_x <[3%nat := value]>) g
  else if address =? 0x0400001E then
    set_ppu (set_bg_scroll_y <[3%nat := value]>) g
  else
    let g := write_io_register address (Z.land value 0xFF) g in
    write_io_register (u32 (address + 1)) (Z.land (Z.shiftr value 8) 0xFF) g.

Definition write_io_register32 (address value : Z) (g : GBASystem)
    : GBASystem :=
  if address =? REG_IME then set_interrupt_master (fun _ => value) g
  else
    let g := write_io_register16 address (Z.land value 0xFFFF) g in
    write_io_register16 (u32 (address + 2))
      (Z.land (Z.shiftr value 16) 0xFFFF) g.

(** ** cpu/arm7_cpu.cpp: exception entry, decode and step *)

Definition handle_irq (g : GBASystem) : GBASystem :=
  let c := cpu g in
  let c := set_spsr <[get_mode_index IRQ := cpsr c]> c in
  let return_address :=
    if thumb_mode c then u32 (registers c !!! 15%nat - 2)
    else u32 (registers c !!! 15%nat - 4) in
  let c := set_banked_r14 <[get_mode_index IRQ := return_address]> c in
  let c := switch_mode IRQ c in
  let c := set_cpsr (fun v => Z.lor v FLAG_I) c in
  let c := set_cpsr (fun v => Z.land v (not32 FLAG_T)) c in
  let c := set_thumb_mode false c in
  let c := set_registers <[15%nat := VECTOR_IRQ]> c in
  let c := flush_pipeline c in
  let c := set_cycles (fun n => n + 3) c in
  set_cpu (fun _ => c) g.

Definition handle_fiq (g : GBASystem) : GBASystem :=
  let c := cpu g in
  let c := set_spsr <[get_mode_index FIQ := cpsr c]> c in
  let return_address :=
    if thumb_mode c then u32 (registers c !!! 15%nat - 2)
    else u32 (registers c !!! 15%nat - 4) in
  let c := set_banked_r14 <[get_mode_index FIQ := return_address]> c in
  let c := switch_mode FIQ c in
  let c := set_cpsr (fun v => Z.lor v (Z.lor FLAG_F FLAG_I)) c in
  let c := set_cpsr (fun v => Z.land v (not32 FLAG_T)) c in
  let c := set_thumb_mode false c in
  let c := set_registers <[15%nat := VECTOR_FIQ]> c in
  let c := flush_pipeline c in
  let c := set_cycles (fun n => n + 3) c in
  set_cpu (fun _ => c) g.

Definition execute_arm (instruction : Z) (g : GBASystem) : GBASystem :=
  let condition := Z.land (Z.shiftr instruction 28) 0xF in
  if negb (check_condition (cpu g) condition) then g
  else if Z.land instruction 0x0FB00FF0 =? 0x01000090 then
    print (LogSWP instruction) g
  else if Z.land instruction 0x0F000000 =? 0x0F000000 then
    print (LogSWI instruction) g
  else
    print (LogARM instruction) g.

Definition execute_thumb (instruction : Z) (g : GBASystem) : GBASystem :=
  if Z.land instruction 0xFF00 =? 0xDF00 then
    print (LogThumbSWI instruction) g
  else
    print (LogThumb instruction) g.

Definition step (g : GBASystem) : GBASystem :=
  if negb (nz (Z.land (cpsr (cpu g)) FLAG_I)) && has_pending_interrupts g then
    handle_irq g
  else
    let g :=
      if thumb_mode (cpu g) then
        let instruction := read16 (memory g) (registers (cpu g) !!! 15%nat) in
        let g :=
          set_cpu (set_registers (alter (fun pc => u32 (pc + 2)) 15%nat)) g in
        execute_thumb instruction g
      else
        let instruction := read32 (memory g) (registers (cpu g) !!! 15%nat) in
        let g :=
          set_cpu (set_registers (alter (fun pc => u32 (pc + 4)) 15%nat)) g in
        execute_arm instruction g in
    set_cpu (set_cycles (fun n => n + 1)) g.

(** ** ppu/ppu.cpp and system.cpp: construction and reset *)

Definition GBAPPU_init (p : GBAPPU) : GBAPPU :=
  let p := set_dispcnt (fun _ => 0) p in
  let p := set_dispstat (fun _ => 0) p in
  let p := mkPPU (dispcnt p) (dispstat p) 0 (bg_control p)
                 (bg_scroll_x p) (bg_scroll_y p) in
  let p := set_bg_control (fun _ => replicate 4 0) p in
  let p := set_bg_scroll_x (fun _ => replicate 4 0) p in
  let p := set_bg_scroll_y (fun _ => replicate 4 0) p in
  p.

(** [GBASystem::reset]: the interrupt registers are left as they are. *)
Definition GBASystem_reset (g : GBASystem) : GBASystem :=
  let g := set_cpu ARM7CPU_reset g in
  let g := set_ppu GBAPPU_init g in
  let g := set_memory GBAMemory_reset g in
  g.

(** The constructor [GBASystem::GBASystem()] with the member initialisers of
    the three classes, followed by [GBASystem::init()]. *)
Definition GBASystem_new : GBASystem :=
  let zeros : byte_array := fun _ => 0 in
  let g :=
    mkSys (mkCPU (replicate 16 0) 0 (replicate 5 0) (replicate 6 0)
                 (replicate 6 0) (replicate 10 0) false 0)
          (mkMem zeros zeros zeros zeros zeros zeros zeros [])
          (mkPPU 0 0 0 (replicate 4 0) (replicate 4 0) (replicate 4 0))
          false 0 0 0 [] in
  let g := GBASystem_reset g in
  mkSys (cpu g) (memory g) (ppu g) false (interrupt_enable g)
        (interrupt_flags g) (interrupt_master g) (console g).

(** ** system.cpp: register reads and the interrupt check *)

(** The result is a [uint8_t]. *)
Definition read_io_register (address : Z) (g : GBASystem) : Z :=
  if address =? REG_IE then Z.land (interrupt_enable g) 0xFF
  else if address =? REG_IE + 1 then
    Z.land (Z.shiftr (interrupt_enable g) 8) 0xFF
  else if address =? REG_IF then Z.land (interrupt_flags g) 0xFF
  else if address =? REG_IF + 1 then
    Z.land (Z.shiftr (interrupt_flags g) 8) 0xFF
  else if address =? REG_IME then Z.land (interrupt_master g) 0xFF
  else if (address =? REG_IME + 1) || (address =? REG_IME + 2)
          || (address =? REG_IME + 3) then
    Z.land (Z.shiftr (interrupt_master g) ((address - REG_IME) * 8)) 0xFF
  else if address =? 0x04000000 then Z.land (dispcnt (ppu g)) 0xFF
  else if address =? 0x04000001 then
    Z.land (Z.shiftr (dispcnt (ppu g)) 8) 0xFF
  else if address =? 0x04000004 then Z.land (dispstat (ppu g)) 0xFF
  else if address =? 0x04000005 then
    Z.land (Z.shiftr (dispstat (ppu g)) 8) 0xFF
  else if address =? 0x04000006 then Z.land (vcount (ppu g)) 0xFF
  else if address =? 0x04000007 then
    Z.land (Z.shiftr (vcount (ppu g)) 8) 0xFF
  else 0.

(** The result is a [uint16_t]. *)
Definition read_io_register16 (address : Z) (g : GBASystem) : Z :=
  if address =? REG_IE then interrupt_enable g
  else if address =? REG_IF then interrupt_flags g
  else if address =? REG_IME then Z.land (interrupt_master g) 0xFFFF
  else if address =? 0x04000000 then dispcnt (ppu g)
  else if address =? 0x04000004 then dispstat (ppu g)
  else if address =? 0x04000006 then vcount (ppu g)
  else if address =? 0x04000008 then bg_control (ppu g) !!! 0%nat
  else if address =? 0x0400000A then bg_control (ppu g) !!! 1%nat
  else if address =? 0x0400000C then bg_control (ppu g) !!! 2%nat
  else if address =? 0x0400000E then bg_control (ppu g) !!! 3%nat
  else if address =? 0x04000010 then bg_scroll_x (ppu g) !!! 0%nat
  else if address =? 0x04000012 then bg_scroll_y (ppu g) !!! 0%nat
  else if address =? 0x04000014 then bg_scroll_x (ppu g) !!! 1%nat
  else if address =? 0x04000016 then bg_scroll_y (ppu g) !!! 1%nat
  else if address =? 0x04000018 then bg_scroll_x (ppu g) !!! 2%nat
  else if address =? 0x0400001A then bg_scroll_y (ppu g) !!! 2%nat
  else if address =? 0x0400001C then bg_scroll_x (ppu g) !!! 3%nat
  else if address =? 0x0400001E then bg_scroll_y (ppu g) !!! 3%nat
  else
    u16 (Z.lor (read_io_register address g)
               (Z.shiftl (read_io_register (u32 (address + 1)) g) 8)).

(** The result is a [uint32_t]. *)
Definition read_io_register32 (address : Z) (g : GBASystem) : Z :=
  if address =? REG_IME then interrupt_master g
  else
    u32 (Z.lor (read_io_register16 address g)
               (Z.shiftl (read_io_register16 (u32 (address + 2)) g) 16)).

Definition handle_interrupt (g : GBASystem) : GBASystem := handle_irq g.

Definition check_interrupts (g : GBASystem) : GBASystem :=
  if negb (nz (Z.land (interrupt_master g) 1)) then g
  else
    let pending := u16 (Z.land (interrupt_flags g) (interrupt_enable g)) in
    if negb (pending =? 0) then handle_interrupt g else g.

(** [GBASystem::init] *)
Definition GBASystem_init (g : GBASystem) : GBASystem :=
  let g := set_cpu ARM7CPU_reset g in
  let g := set_ppu GBAPPU_init g in
  let g := set_memory GBAMemory_reset g in
  mkSys (cpu g) (memory g) (ppu g) false (interrupt_enable g)
        (interrupt_flags g) (interrupt_master g) (console g).

(** ** ppu/ppu.cpp: colour conversion *)

(** [uint8_t] components; the result is a [uint32_t]. *)
Definition convert_color (gba_color : Z) : Z :=
  let r := u8 (Z.shiftl (Z.land gba_color 0x001F) 3) in
  let g := u8 (Z.shiftl (Z.shiftr (Z.land gba_color 0x03E0) 5) 3) in
  let b := u8 (Z.shiftl (Z.shiftr (Z.land gba_color 0x7C00) 10) 3) in
  let r := u8 (Z.lor r (Z.shiftr r 5)) in
  let g := u8 (Z.lor g (Z.shiftr g 5)) in
  let b := u8 (Z.lor b (Z.shiftr b 5)) in
  u32 (Z.lor (Z.lor (Z.lor (Z.shiftl 0xFF 24) (Z.shiftl b 16))
                    (Z.shiftl g 8)) r).

(** ** ppu/ppu.h and ppu/ppu.cpp: display timing and the scanline renderer *)

Definition GBA_SCREEN_WIDTH : Z := 240.
Definition GBA_SCREEN_HEIGHT : Z := 160.
Definition DOTS_PER_SCANLINE : Z := 308.
Definition TOTAL_SCANLINES : Z := 228.

Definition DISPCNT_BG_MODE_MASK : Z := 0x0007.
Definition DISPCNT_DISPLAY_FRAME : Z := 0x0010.
Definition DISPCNT_FORCED_BLANK : Z := 0x0080.
Definition DISPCNT_SCREEN_DISPLAY_BG0 : Z := 0x0100.
Definition DISPCNT_SCREEN_DISPLAY_BG1 : Z := 0x0200.
Definition DISPCNT_SCREEN_DISPLAY_BG2 : Z := 0x0400.
Definition DISPCNT_SCREEN_DISPLAY_BG3 : Z := 0x0800.
Definition DISPCNT_SCREEN_DISPLAY_OBJ : Z := 0x1000.

Definition DISPSTAT_VBLANK : Z := 0x0001.
Definition DISPSTAT_HBLANK : Z := 0x0002.
Definition DISPSTAT_VCOUNT_MATCH : Z := 0x0004.
Definition DISPSTAT_VBLANK_IRQ_ENABLE : Z := 0x0008.
Definition DISPSTAT_HBLANK_IRQ_ENABLE : Z := 0x0010.
Definition DISPSTAT_VCOUNT_IRQ_ENABLE : Z := 0x0020.
Definition DISPSTAT_VCOUNT_SETTING_MASK : Z := 0xFF00.

Definition VRAM_BASE : Z := 0x06000000.
Definition PALETTE_RAM_BASE : Z := 0x05000000.
Definition OAM_BASE : Z := 0x07000000.

(** The members of [GBAPPU] that are not I/O registers: the two [int]
    counters and the frame buffer, a [std::array<uint32_t, 240 * 160>]
    carried as the map from an index to the pixel stored there. *)
Record Display := mkDisplay {
  scanline : Z;
  dot : Z;
  framebuffer : Z -> Z
}.

(** The machine with its display: the [GBASystem] object in full. *)
Record Machine := mkMachine {
  system : GBASystem;
  display : Display
}.

Definition set_vcount (f : Z -> Z) (p : GBAPPU) : GBAPPU :=
  mkPPU (dispcnt p) (dispstat p) (f (vcount p)) (bg_control p)
        (bg_scroll_x p) (bg_scroll_y p).

(** [framebuffer[index] = pixel] *)
Definition put_pixel (index pixel : Z) (fb : Z -> Z) : Z -> Z :=
  fun i => if i =? index then pixel else fb i.

(** The [int] divisions and remainders of C++ truncate: [Z.quot], [Z.rem]. *)
Definition render_text_background (g : GBASystem) (bg_num : nat) (line : Z)
    (fb : Z -> Z) : Z -> Z :=
  let bg_cnt := bg_control (ppu g) !!! bg_num in
  let char_base := Z.land (Z.shiftr bg_cnt 2) 3 in
  let palette_mode := Z.land (Z.shiftr bg_cnt 7) 1 in
  let screen_base := Z.land (Z.shiftr bg_cnt 8) 0x1F in
  let screen_size := Z.land (Z.shiftr bg_cnt 14) 3 in
  let map_width := if nz (Z.land screen_size 1) then 64 else 32 in
  let map_height := if nz (Z.land screen_size 2) then 64 else 32 in
  let scroll_x := Z.land (bg_scroll_x (ppu g) !!! bg_num) 0x1FF in
  let scroll_y := Z.land (bg_scroll_y (ppu g) !!! bg_num) 0x1FF in
  let bg_line := Z.rem (line + scroll_y) (map_height * 8) in
  let tile_y := Z.quot bg_line 8 in
  let pixel_y := Z.rem bg_line 8 in
  let char_base_addr := u32 (VRAM_BASE + char_base * 0x4000) in
  let screen_base_addr := u32 (VRAM_BASE + screen_base * 0x800) in
  for_loop 240 (fun i fb =>
    let x := Z.of_nat i in
    let bg_x := Z.rem (x + scroll_x) (map_width * 8) in
    let tile_x := Z.quot bg_x 8 in
    let pixel_x := Z.rem bg_x 8 in
    let screen_entry_addr :=
      u32 (screen_base_addr + (tile_y * map_width + tile_x) * 2) in
    let screen_entry := read16 (memory g) screen_entry_addr in
    let tile_num := Z.land screen_entry 0x3FF in
    let h_flip := Z.land (Z.shiftr screen_entry 10) 1 in
    let v_flip := Z.land (Z.shiftr screen_entry 11) 1 in
    let palette_num := Z.land (Z.shiftr screen_entry 12) 0xF in
    let final_pixel_x := if nz h_flip then 7 - pixel_x else pixel_x in
    let final_pixel_y := if nz v_flip then 7 - pixel_y else pixel_y in
    let pixel_data :=
      if nz palette_mode then
        let tile_addr :=
          u32 (char_base_addr + tile_num * 64 + final_pixel_y * 8
               + final_pixel_x) in
        read8 (memory g) tile_addr
      else
        let tile_addr :=
          u32 (char_base_addr + tile_num * 32 + final_pixel_y * 4
               + Z.quot final_pixel_x 2) in
        let byte_data := read8 (memory g) tile_addr in
        u8 (if nz (Z.land final_pixel_x 1) then Z.shiftr byte_data 4
            else Z.land byte_data 0xF) in
    if pixel_data =? 0 then fb
    else
      let palette_addr :=
        if nz palette_mode then u32 (PALETTE_RAM_BASE + pixel_data * 2)
        else u32 (PALETTE_RAM_BASE + (palette_num * 16 + pixel_data) * 2) in
      let color := read16 (memory g) palette_addr in
      put_pixel (line * GBA_SCREEN_WIDTH + x) (convert_color color) fb) fb.

Definition render_affine_background (g : GBASystem) (bg_num : nat) (line : Z)
    (fb : Z -> Z) : Z -> Z :=
  render_text_background g bg_num line fb.

(** [for (int bg = 3; bg >= 0; bg--)] *)
Definition render_background_mode0 (g : GBASystem) (line : Z) (fb : Z -> Z)
    : Z -> Z :=
  for_loop 4 (fun i fb =>
    let bg := (3 - i)%nat in
    if nz (Z.land (dispcnt (ppu g))
                  (Z.shiftl DISPCNT_SCREEN_DISPLAY_BG0 (Z.of_nat bg)))
    then render_text_background g bg line fb else fb) fb.

Definition render_background_mode1 (g : GBASystem) (line : Z) (fb : Z -> Z)
    : Z -> Z :=
  let fb := if nz (Z.land (dispcnt (ppu g)) DISPCNT_SCREEN_DISPLAY_BG2)
            then render_affine_background g 2 line fb else fb in
  let fb := if nz (Z.land (dispcnt (ppu g)) DISPCNT_SCREEN_DISPLAY_BG1)
            then render_text_background g 1 line fb else fb in
  if nz (Z.land (dispcnt (ppu g)) DISPCNT_SCREEN_DISPLAY_BG0)
  then render_text_background g 0 line fb else fb.

Definition render_background_mode2 (g : GBASystem) (line : Z) (fb : Z -> Z)
    : Z -> Z :=
  let fb := if nz (Z.land (dispcnt (ppu g)) DISPCNT_SCREEN_DISPLAY_BG3)
            then render_affine_background g 3 line fb else fb in
  if nz (Z.land (dispcnt (ppu g)) DISPCNT_SCREEN_DISPLAY_BG2)
  then render_affine_background g 2 line fb else fb.

Definition render_background_mode3 (g : GBASystem) (line : Z) (fb : Z -> Z)
    : Z -> Z :=
  let vram_offset := u32 (line * GBA_SCREEN_WIDTH * 2) in
  for_loop 240 (fun i fb =>
    let x := Z.of_nat i in
    let pixel := read16 (memory g) (u32 (VRAM_BASE + vram_offset + x * 2)) in
    put_pixel (line * GBA_SCREEN_WIDTH + x) (convert_color pixel) fb) fb.

Definition render_background_mode4 (g : GBASystem) (line : Z) (fb : Z -> Z)
    : Z -> Z :=
  let frame_base :=
    if nz (Z.land (dispcnt (ppu g)) DISPCNT_DISPLAY_FRAME) then 0xA000 else 0 in
  let vram_offset := u32 (frame_base + line * GBA_SCREEN_WIDTH) in
  for_loop 240 (fun i fb =>
    let x := Z.of_nat i in
    let palette_index :=
      read8 (memory g) (u32 (VRAM_BASE + vram_offset + x)) in
    let color :=
      read16 (memory g) (u32 (PALETTE_RAM_BASE + palette_index * 2)) in
    put_pixel (line * GBA_SCREEN_WIDTH + x) (convert_color color) fb) fb.

(** [x < 160 && x < GBA_SCREEN_WIDTH] is [x < 160]. *)
Definition render_background_mode5 (g : GBASystem) (line : Z) (fb : Z -> Z)
    : Z -> Z :=
  if line >=? 128 then fb
  else
    let frame_base :=
      if nz (Z.land (dispcnt (ppu g)) DISPCNT_DISPLAY_FRAME) then 0xA000
      else 0 in
    let vram_offset := u32 (frame_base + line * 160 * 2) in
    for_loop 160 (fun i fb =>
      let x := Z.of_nat i in
      let pixel := read16 (memory g) (u32 (VRAM_BASE + vram_offset + x * 2)) in
      put_pixel (line * GBA_SCREEN_WIDTH + x) (convert_color pixel) fb) fb.

Definition render_sprites (g : GBASystem) (line : Z) (fb : Z -> Z) : Z -> Z :=
  for_loop 128 (fun sprite fb =>
    let oam_offset := Z.of_nat sprite * 8 in
    let attr0 := read16 (memory g) (u32 (OAM_BASE + oam_offset)) in
    let attr1 := read16 (memory g) (u32 (OAM_BASE + oam_offset + 2)) in
    if Z.land attr0 0x0300 =? 0x0200 then fb
    else
      let sprite_y := Z.land attr0 0xFF in
      let sprite_y := if sprite_y >=? 160 then sprite_y - 256 else sprite_y in
      let sprite_size := Z.land (Z.shiftr attr0 14) 3 in
      let sprite_shape := Z.land (Z.shiftr attr1 14) 3 in
      let dimension :=
        if sprite_size =? 0 then
          (if sprite_shape =? 0 then 8 else if sprite_shape =? 1 then 8 else 8)
        else if sprite_size =? 1 then
          (if sprite_shape =? 0 then 16 else if sprite_shape =? 1 then 16
           else 16)
        else if sprite_size =? 2 then
          (if sprite_shape =? 0 then 32 else if sprite_shape =? 1 then 32
           else 32)
        else if sprite_size =? 3 then
          (if sprite_shape =? 0 then 64 else if sprite_shape =? 1 then 64
           else 64)
        else 8 in
      let sprite_height := dimension in
      let sprite_width := dimension in
      if (line <? sprite_y) || (line >=? sprite_y + sprite_height) then fb
      else
        let sprite_x := Z.land attr1 0x1FF in
        let sprite_x := if sprite_x >=? 240 then sprite_x - 512 else sprite_x in
        for_loop (Z.to_nat sprite_width) (fun px fb =>
          let screen_x := sprite_x + Z.of_nat px in
          if (screen_x <? 0) || (screen_x >=? GBA_SCREEN_WIDTH) then fb
          else
            let pixel_data := 1 in
            let palette_base := u32 (PALETTE_RAM_BASE + 0x200) in
            let color :=
              read16 (memory g) (u32 (palette_base + pixel_data * 2)) in
            put_pixel (line * GBA_SCREEN_WIDTH + screen_x)
                      (convert_color color) fb) fb) fb.

(** [render_scanline] draws the line the [scanline] counter names. *)
Definition render_scanline (g : GBASystem) (d : Display) : Display :=
  let line := scanline d in
  let fb := framebuffer d in
  let fb :=
    if nz (Z.land (dispcnt (ppu g)) DISPCNT_FORCED_BLANK) then
      for_loop 240 (fun i fb =>
        put_pixel (line * GBA_SCREEN_WIDTH + Z.of_nat i) 0xFFFFFFFF fb) fb
    else
      let backdrop_color := read16 (memory g) PALETTE_RAM_BASE in
      let backdrop_rgb := convert_color backdrop_color in
      let fb :=
        for_loop 240 (fun i fb =>
          put_pixel (line * GBA_SCREEN_WIDTH + Z.of_nat i) backdrop_rgb fb)
          fb in
      let bg_mode := Z.land (dispcnt (ppu g)) DISPCNT_BG_MODE_MASK in
      let fb :=
        if bg_mode =? 0 then render_background_mode0 g line fb
        else if bg_mode =? 1 then render_background_mode1 g line fb
        else if bg_mode =? 2 then render_background_mode2 g line fb
        else if bg_mode =? 3 then render_background_mode3 g line fb
        else if bg_mode =? 4 then render_background_mode4 g line fb
        else if bg_mode =? 5 then render_background_mode5 g line fb
        else fb in
      if nz (Z.land (dispcnt (ppu g)) DISPCNT_SCREEN_DISPLAY_OBJ)
      then render_sprites g line fb else fb in
  mkDisplay (scanline d) (dot d) fb.

(** The rest of [GBAPPU::init]:
    [scanline = 0; dot = 0; framebuffer.fill(0)]. *)
Definition GBAPPU_init_display (d : Display) : Display :=
  mkDisplay 0 0 (fun _ => 0).

(** [GBAPPU::step] *)
Definition GBAPPU_step (m : Machine) : Machine :=
  let g := system m in
  let d := display m in
  let d := mkDisplay (scanline d) (dot d + 1) (framebuffer d) in
  let g :=
    if dot d =? 240 then
      let g :=
        set_ppu (set_dispstat (fun v => u16 (Z.lor v DISPSTAT_HBLANK))) g in
      if nz (Z.land (dispstat (ppu g)) DISPSTAT_HBLANK_IRQ_ENABLE)
      then request_interrupt 1 g else g
    else g in
  if dot d >=? DOTS_PER_SCANLINE then
    let d := mkDisplay (scanline d + 1) 0 (framebuffer d) in
    let g := set_ppu (set_vcount (fun _ => u16 (scanline d))) g in
    let g :=
      set_ppu (set_dispstat
                 (fun v => u16 (Z.land v (Z.lnot DISPSTAT_HBLANK)))) g in
    let vcount_setting :=
      u8 (Z.shiftr (Z.land (dispstat (ppu g)) DISPSTAT_VCOUNT_SETTING_MASK) 8)
      in
    let g :=
      if vcount (ppu g) =? vcount_setting then
        let g :=
          set_ppu (set_dispstat
                     (fun v => u16 (Z.lor v DISPSTAT_VCOUNT_MATCH))) g in
        if nz (Z.land (dispstat (ppu g)) DISPSTAT_VCOUNT_IRQ_ENABLE)
        then request_interrupt 2 g else g
      else
        set_ppu (set_dispstat
                   (fun v => u16 (Z.land v (Z.lnot DISPSTAT_VCOUNT_MATCH))))
                g in
    let g :=
      if scanline d =? GBA_SCREEN_HEIGHT then
        let g :=
          set_ppu (set_dispstat (fun v => u16 (Z.lor v DISPSTAT_VBLANK))) g in
        if nz (Z.land (dispstat (ppu g)) DISPSTAT_VBLANK_IRQ_ENABLE)
        then request_interrupt 0 g else g
      else g in
    let '(g, d) :=
      if scanline d >=? TOTAL_SCANLINES then
        let d := mkDisplay 0 (dot d) (framebuffer d) in
        let g := set_ppu (set_vcount (fun _ => 0)) g in
        let g :=
          set_ppu (set_dispstat
                     (fun v => u16 (Z.land v (Z.lnot DISPSTAT_VBLANK)))) g in
        (g, d)
      else (g, d) in
    let d :=
      if scanline d <? GBA_SCREEN_HEIGHT then render_scanline g d else d in
    mkMachine g d
  else mkMachine g d.

(** [while] a condition holds, at most [n] times:
    [for (int i = 0; i < n && cond; i++) body]. *)
Fixpoint loop_while {S : Type} (n : nat) (cond : S -> bool) (body : S -> S)
    (s : S) : S :=
  match n with
  | O => s
  | Datatypes.S n' => if cond s then loop_while n' cond body (body s) else s
  end.

(** [GBASystem::init] on the whole machine. *)
Definition Machine_init (m : Machine) : Machine :=
  mkMachine (GBASystem_init (system m)) (GBAPPU_init_display (display m)).

(** [GBASystem::run_frame]; the CPU steps on the system, the picture unit
    on the whole machine. *)
Definition run_frame (m : Machine) : Machine :=
  loop_while (Z.to_nat 280896) (fun m => running (system m))
    (fun m =>
       let m := mkMachine (step (system m)) (display m) in
       GBAPPU_step m) m.

(** ** Vocabulary of the specification *)

(** The condition flags and control bits of a status register value. *)
Definition flag_N (v : Z) : bool := Z.testbit v 31.
Definition flag_Z (v : Z) : bool := Z.testbit v 30.
Definition flag_C (v : Z) : bool := Z.testbit v 29.
Definition flag_V (v : Z) : bool := Z.testbit v 28.
Definition bit_I (v : Z) : bool := Z.testbit v 7.
Definition bit_F (v : Z) : bool := Z.testbit v 6.
Definition bit_T (v : Z) : bool := Z.testbit v 5.

(** The condition table as the specification words it. *)
Definition condition_table (condition : Z) (N Zf C V : bool) : bool :=
  match condition with
  | 0 => Zf                            (* EQ *)
  | 1 => negb Zf                       (* NE *)
  | 2 => C                             (* CS *)
  | 3 => negb C                        (* CC *)
  | 4 => N                             (* MI *)
  | 5 => negb N                        (* PL *)
  | 6 => V                             (* VS *)
  | 7 => negb V                        (* VC *)
  | 8 => C && negb Zf                  (* HI *)
  | 9 => negb C || Zf                  (* LS *)
  | 10 => Bool.eqb N V                 (* GE *)
  | 11 => negb (Bool.eqb N V)          (* LT *)
  | 12 => negb Zf && Bool.eqb N V      (* GT *)
  | 13 => Zf || negb (Bool.eqb N V)    (* LE *)
  | 14 => true                         (* AL *)
  | _ => false                         (* NV *)
  end.

(** A status register value with the given flags over the mode bits [low]. *)
Definition cpsr_of_flags (N Zf C V : bool) (low : Z) : Z :=
  Z.lor (if N then FLAG_N else 0)
    (Z.lor (if Zf then FLAG_Z else 0)
       (Z.lor (if C then FLAG_C else 0)
          (Z.lor (if V then FLAG_V else 0) low))).

(** The redundant instruction-set bit agrees with the status register. *)
Definition thumb_consistent (c : ARM7CPU) : Prop :=
  thumb_mode c = bit_T (cpsr c).

(** The interrupt request is taken by [step]: pending and not disabled. *)
Definition irq_eligible (g : GBASystem) : bool :=
  negb (bit_I (cpsr (cpu g))) && has_pending_interrupts g.

(** The return address of the entry sequence: the program counter minus one
    instruction width. *)
Definition return_address (c : ARM7CPU) : Z :=
  if thumb_mode c then u32 (registers c !!! 15%nat - 2)
  else u32 (registers c !!! 15%nat - 4).

(** The CPU once the entry sequence has saved the status register and the
    return address, before it switches mode. *)
Definition entry_saved (mode : CpuMode) (c : ARM7CPU) : ARM7CPU :=
  set_banked_r14 <[get_mode_index mode := return_address c]>
    (set_spsr <[get_mode_index mode := cpsr c]> c).

(** The uniform entry sequence of the specification: save the status
    register into the SPSR slot of the destination mode, store the return
    address into its banked R14, switch mode, set the disable bits, force
    ARM state and jump to the vector. *)
Definition exception_entry (mode : CpuMode) (disable vector : Z)
    (c : ARM7CPU) : ARM7CPU :=
  let ret := return_address c in
  let c := set_spsr <[get_mode_index mode := cpsr c]> c in
  let c := set_banked_r14 <[get_mode_index mode := ret]> c in
  let c := switch_mode mode c in
  let c := set_cpsr (fun v => Z.lor v disable) c in
  let c := set_cpsr (fun v => Z.land v (not32 FLAG_T)) c in
  let c := set_thumb_mode false c in
  let c := set_registers <[15%nat := vector]> c in
  set_cycles (fun n => n + 3) c.

(** The public operations that drive the CPU, and runs of them. *)
Inductive CpuOp := OpReset | OpStep | OpHandleIrq | OpHandleFiq.

Definition run_op (op : CpuOp) (g : GBASystem) : GBASystem :=
  match op with
  | OpReset => set_cpu ARM7CPU_reset g
  | OpStep => step g
  | OpHandleIrq => handle_irq g
  | OpHandleFiq => handle_fiq g
  end.

Definition run_ops (ops : list CpuOp) (g : GBASystem) : GBASystem :=
  fold_left (fun acc op => run_op op acc) ops g.

(** The program counter advanced past a fetched instruction. *)
Definition advance_pc (c : ARM7CPU) : ARM7CPU :=
  set_registers
    (alter (fun pc => u32 (pc + (if thumb_mode c then 2 else 4))) 15%nat) c.

(** Every bit set in [a] is set in [b]: no pending flag was raised. *)
Definition bits_subset (a b : Z) : Prop :=
  forall i, Z.testbit a i = true -> Z.testbit b i = true.

(** Bit [i] of a word after a lane of [width] bits at bit [shift] has been
    replaced by [value] and the other lanes kept. *)
Definition lane_merge (old value shift width i : Z) : bool :=
  if (shift <=? i) && (i <? shift + width) then Z.testbit value (i - shift)
  else Z.testbit old i.

(** The write operations of the bus, and sequences of them. *)
Inductive BusWrite :=
| Write8 (address value : Z)
| Write16 (address value : Z)
| Write32 (address value : Z).

Definition bus_write (w : BusWrite) (m : GBAMemory) : GBAMemory :=
  match w with
  | Write8 address value => write8 address value m
  | Write16 address value => write16 address value m
  | Write32 address value => write32 address value m
  end.

Definition bus_writes (ws : list BusWrite) (m : GBAMemory) : GBAMemory :=
  fold_left (fun acc w => bus_write w acc) ws m.

(** The array sizes of the picture unit's register file. *)
Definition wf_ppu (p : GBAPPU) : Prop :=
  length (bg_control p) = 4%nat /\ length (bg_scroll_x p) = 4%nat
  /\ length (bg_scroll_y p) = 4%nat.

(** The halfword registers that [write_io_register16] stores as given:
    interrupt enable, display control, and the background control and
    scroll registers. *)
Definition stored_halfword_registers : list Z :=
  [REG_IE; 0x04000000;
   0x04000008; 0x0400000A; 0x0400000C; 0x0400000E;
   0x04000010; 0x04000012; 0x04000014; 0x04000016;
   0x04000018; 0x0400001A; 0x0400001C; 0x0400001E].

(** The interrupt registers hold values of their C++ types. *)
Definition wf_interrupts (g : GBASystem) : Prop :=
  0 <= interrupt_enable g < 2 ^ 16 /\ 0 <= interrupt_flags g < 2 ^ 16
  /\ 0 <= interrupt_master g < 2 ^ 32.

(** [n] steps of the CPU. *)
Definition steps (n : nat) (g : GBASystem) : GBASystem :=
  Nat.iter n step g.

(** A 5-bit colour component stretched to 8 bits: 0 goes to 0, 31 to 255. *)
Definition expand5 (x : Z) : Z := 8 * x + x / 4.

(** The display counters are inside a frame. *)
Definition wf_display (d : Display) : Prop :=
  0 <= dot d < DOTS_PER_SCANLINE /\ 0 <= scanline d < TOTAL_SCANLINES.

(** The number of dots since the start of the frame, and of a frame. *)
Definition position (d : Display) : Z :=
  scanline d * DOTS_PER_SCANLINE + dot d.
Definition frame_dots : Z := DOTS_PER_SCANLINE * TOTAL_SCANLINES.

(** The blanking flags of the status register and the line counter follow
    the display counters. *)
Definition status_tracks (m : Machine) : Prop :=
  Z.testbit (dispstat (ppu (system m))) 1 = (240 <=? dot (display m))
  /\ Z.testbit (dispstat (ppu (system m))) 0 = (160 <=? scanline (display m))
  /\ vcount (ppu (system m)) = scanline (display m).

(** The frame buffer indices of one line, and a pixel with full alpha. *)
Definition in_row (line index : Z) : Prop :=
  line * GBA_SCREEN_WIDTH <= index < line * GBA_SCREEN_WIDTH + GBA_SCREEN_WIDTH.
Definition opaque (pixel : Z) : Prop := Z.shiftr pixel 24 = 0xFF.

(** One iteration of the loop of [run_frame], and [n] of them. *)
Definition machine_step (m : Machine) : Machine :=
  GBAPPU_step (mkMachine (step (system m)) (display m)).
Definition machine_steps (n : nat) (m : Machine) : Machine :=
  Nat.iter n machine_step m.

(** What a pass of the renderer may do to a pixel of the frame buffer:
    leave it, or store a pixel of class [P] on the line. *)
Definition paints (line : Z) (P : Z -> Prop) (f : (Z -> Z) -> Z -> Z) : Prop :=
  forall fb index,
    f fb index = fb index \/ (in_row line index /\ P (f fb index)).

(** ** Sample machine states *)

(** The CPU after power-on with the carry and zero flags set. *)
Definition cpu_carry_zero : ARM7CPU :=
  set_cpsr (fun _ => cpsr_of_flags false true true false SYSTEM)
           (cpu GBASystem_new).

(** The CPU after power-on, in System mode, with the stack pointer of the
    specification's round-trip scenario and live values in R8 and R14. *)
Definition cpu_system_loaded : ARM7CPU :=
  set_registers
    (fun r => <[8%nat := 0xCAFE]> (<[14%nat := 0x08000200]>
                (<[13%nat := 0x03007F00]> r)))
    (cpu GBASystem_new).

(** The power-on machine with the program counter at 0x08000100 and the
    V-blank interrupt (type 0) enabled, requested and master-enabled. *)
Definition sys_irq_pending : GBASystem :=
  let g := GBASystem_new in
  let g := set_cpu (set_registers <[15%nat := 0x08000100]>) g in
  let g := write_io_register16 REG_IE 1 g in
  let g := write_io_register16 REG_IME 1 g in
  request_interrupt 0 g.

(** The same machine inside a handler: the IRQ-disable bit is set. *)
Definition sys_irq_masked : GBASystem :=
  set_cpu (set_cpsr (fun v => Z.lor v FLAG_I)) sys_irq_pending.

(** The power-on machine with a four-byte image holding 0xE7F000F0, a word
    of the architecturally undefined instruction space, condition AL. *)
Definition sys_undefined_word : GBASystem :=
  set_memory (fun m => mkMem (bios m) (ewram m) (iwram m) (io_registers m)
                             (palette m) (vram m) (oam m)
                             [0xF0; 0x00; 0xF0; 0xE7])
             GBASystem_new.

(** The machine as [main] has it after [gba.init()]. *)
Definition machine_new : Machine :=
  mkMachine GBASystem_new (GBAPPU_init_display (mkDisplay 0 0 (fun _ => 0))).

(** The same machine after [gba.running = true], without a cartridge. *)
Definition machine_running : Machine :=
  let g := GBASystem_new in
  mkMachine
    (mkSys (cpu g) (memory g) (ppu g) true (interrupt_enable g)
           (interrupt_flags g) (interrupt_master g) (console g))
    (display machine_new).


(** The running machine on the last dot of the last line of the frame, with
    V-count setting 0. *)
Definition machine_before_wrap : Machine :=
  mkMachine
    (set_ppu (set_dispstat (fun _ => 0x0001)) (system machine_running))
    (mkDisplay 227 307 (fun _ => 0)).

(** * Properties *)

(** ** Proof automation *)

(** Rewriting of array reads after in-place updates. *)
Ltac array_simpl :=
  repeat match goal with
  | |- context [<[?i := ?x]> ?l !!! ?j] =>
      first
        [ rewrite (list_lookup_total_insert_ne l i j x) by lia
        | rewrite (list_lookup_total_insert_eq l i x)
            by (rewrite ?length_insert; lia) ]
  end.

(** Case analysis on the address tests of a register dispatch. *)
Ltac case_address :=
  repeat match goal with
         | |- context [?a =? ?b] =>
             destruct (Z.eqb_spec a b); [subst; try reflexivity; try lia|]
         end.

(** Case analysis on the comparisons of a bit index. *)
Ltac case_bounds :=
  repeat match goal with
         | |- context [?a <=? ?b] => destruct (Z.leb_spec a b); try lia
         | |- context [?a <? ?b] => destruct (Z.ltb_spec a b); try lia
         end.

(** The memory map, as numbers. *)
Ltac unfold_regions :=
  unfold in_region, BIOS_START, BIOS_SIZE, EWRAM_START, EWRAM_SIZE,
    IWRAM_START, IWRAM_SIZE, IO_START, IO_SIZE, PALETTE_START, PALETTE_SIZE,
    VRAM_START, VRAM_SIZE, OAM_START, OAM_SIZE, ROM_START in *.

(** ** Bits of machine words *)

Module Bits.

Lemma land_pow2_eqb (x k : Z) :
  0 <= k -> (Z.land x (Z.shiftl 1 k) =? 0) = negb (Z.testbit x k).
Proof.
  intros Hk. rewrite Z.shiftl_1_l.
  destruct (Z.testbit x k) eqn:Hb; simpl.
  - apply Z.eqb_neq. intros H0.
    assert (Hc : Z.testbit (Z.land x (2 ^ k)) k = true).
    { rewrite Z.land_spec, Hb, Z.pow2_bits_true by lia. reflexivity. }
    rewrite H0, Z.bits_0 in Hc. discriminate.
  - apply Z.eqb_eq. apply Z.bits_inj'. intros n Hn.
    rewrite Z.land_spec, Z.bits_0, Z.pow2_bits_eqb by lia.
    destruct (Z.eqb_spec k n) as [->|]; [rewrite Hb|]; auto using andb_false_r.
Qed.

Lemma nz_land_pow2 (x k : Z) :
  0 <= k -> nz (Z.land x (Z.shiftl 1 k)) = Z.testbit x k.
Proof. intros Hk. unfold nz. rewrite land_pow2_eqb, negb_involutive; auto. Qed.

Lemma testbit_u32 (x i : Z) :
  Z.testbit (u32 x) i = (i <? 32) && Z.testbit x i.
Proof.
  unfold u32. destruct (Z.ltb_spec i 32).
  - destruct (Z.le_gt_cases 0 i).
    + rewrite Z.mod_pow2_bits_low by lia. reflexivity.
    + rewrite !Z.testbit_neg_r by lia. reflexivity.
  - rewrite Z.mod_pow2_bits_high by lia. reflexivity.
Qed.

Lemma testbit_u16 (x i : Z) :
  Z.testbit (u16 x) i = (i <? 16) && Z.testbit x i.
Proof.
  unfold u16. destruct (Z.ltb_spec i 16).
  - destruct (Z.le_gt_cases 0 i).
    + rewrite Z.mod_pow2_bits_low by lia. reflexivity.
    + rewrite !Z.testbit_neg_r by lia. reflexivity.
  - rewrite Z.mod_pow2_bits_high by lia. reflexivity.
Qed.

Lemma testbit_not32 (x i : Z) :
  0 <= i -> Z.testbit (not32 x) i = (i <? 32) && negb (Z.testbit x i).
Proof.
  intros Hi. unfold not32. rewrite testbit_u32, Z.lnot_spec by lia.
  reflexivity.
Qed.

End Bits.

(** ** The condition evaluator *)

Section Conditions.

Variable c : ARM7CPU.

Lemma flag_tests :
  (Z.land (cpsr c) FLAG_N =? 0) = negb (flag_N (cpsr c))
  /\ (Z.land (cpsr c) FLAG_Z =? 0) = negb (flag_Z (cpsr c))
  /\ (Z.land (cpsr c) FLAG_C =? 0) = negb (flag_C (cpsr c))
  /\ (Z.land (cpsr c) FLAG_V =? 0) = negb (flag_V (cpsr c)).
Proof.
  unfold FLAG_N, FLAG_Z, FLAG_C, FLAG_V, flag_N, flag_Z, flag_C, flag_V.
  repeat split; apply Bits.land_pow2_eqb; lia.
Qed.

(** C4.  For every condition code 0..15 and every status register value, the
    evaluator [check_condition] returns the entry of the documented table at
    the register's (N,Z,C,V); this covers all sixteen flag combinations, and
    the row of NV is [false] throughout. *)
Theorem check_condition_matches_table (condition : Z) :
  0 <= condition < 16 ->
  check_condition c condition =
  condition_table condition (flag_N (cpsr c)) (flag_Z (cpsr c))
                  (flag_C (cpsr c)) (flag_V (cpsr c)).
Proof.
  intros Hc.
  destruct flag_tests as (HN & HZ & HC & HV).
  assert (Hcases : condition = 0 \/ condition = 1 \/ condition = 2
    \/ condition = 3 \/ condition = 4 \/ condition = 5 \/ condition = 6
    \/ condition = 7 \/ condition = 8 \/ condition = 9 \/ condition = 10
    \/ condition = 11 \/ condition = 12 \/ condition = 13 \/ condition = 14
    \/ condition = 15) by lia.
  repeat (destruct Hcases as [-> | Hcases]); try subst condition;
    cbn [check_condition condition_table]; unfold nz;
    rewrite ?HN, ?HZ, ?HC, ?HV, ?negb_involutive; reflexivity.
Qed.

End Conditions.

(** Every combination of the four flags is the flags of some register value. *)
Lemma cpsr_of_flags_flags (N Zf C V : bool) :
  let v := cpsr_of_flags N Zf C V SYSTEM in
  (flag_N v, flag_Z v, flag_C v, flag_V v) = (N, Zf, C, V).
Proof. destruct N, Zf, C, V; reflexivity. Qed.

Lemma check_condition_matches_table_witness :
  0 <= 8 < 16 /\
  check_condition cpu_carry_zero 8 =
  condition_table 8 (flag_N (cpsr cpu_carry_zero)) (flag_Z (cpsr cpu_carry_zero))
                  (flag_C (cpsr cpu_carry_zero)) (flag_V (cpsr cpu_carry_zero)).
Proof.
  split; [lia | apply (check_condition_matches_table cpu_carry_zero 8); lia].
Defined.

(** ** Mode switching and the register banks *)

Lemma mode_bits_small (m : CpuMode) :
  is_enumerator m = true -> 0 <= m < 32.
Proof.
  unfold is_enumerator, USER, FIQ, IRQ, SUPERVISOR, ABORT, UNDEFINED, SYSTEM.
  rewrite !orb_true_iff, !Z.eqb_eq. lia.
Qed.

Lemma testbit_small (m i : Z) : 0 <= m < 32 -> 5 <= i -> Z.testbit m i = false.
Proof.
  intros Hm Hi. rewrite <- (Z.mod_small m (2 ^ 5)) by lia.
  apply Z.mod_pow2_bits_high. lia.
Qed.

(** Bits 5..31 of the status register survive the rewrite of the mode field. *)
Lemma mode_field_high_bits (v m i : Z) :
  0 <= m < 32 -> 5 <= i < 32 ->
  Z.testbit (Z.lor (Z.land v (not32 0x1F)) m) i = Z.testbit v i.
Proof.
  intros Hm Hi.
  rewrite Z.lor_spec, Z.land_spec, Bits.testbit_not32 by lia.
  rewrite (testbit_small m i), (testbit_small 0x1F i) by lia.
  destruct (Z.ltb_spec i 32); [|lia].
  simpl. rewrite orb_false_r, andb_true_r. reflexivity.
Qed.

(** The mode field reads back the mode written into it. *)
Lemma mode_field_low_bits (v m : Z) :
  0 <= m < 32 -> Z.land (Z.lor (Z.land v (not32 0x1F)) m) 0x1F = m.
Proof.
  intros Hm. apply Z.bits_inj'. intros n Hn.
  rewrite Z.land_spec, Z.lor_spec, Z.land_spec, Bits.testbit_not32 by lia.
  change 0x1F with (Z.ones 5).
  destruct (Z.ltb_spec n 5).
  - rewrite Z.ones_spec_low by lia.
    destruct (Z.ltb_spec n 32); [|lia].
    simpl. rewrite andb_false_r, andb_true_r. reflexivity.
  - rewrite Z.ones_spec_high by lia.
    change (Z.ones 5) with 0x1F. rewrite (testbit_small m n) by lia.
    apply andb_false_r.
Qed.

Section SwitchMode.

Variable c : ARM7CPU.
Variable new_mode : CpuMode.

Lemma save_banked_registers_frame (prior : CpuMode) :
  let c' := save_banked_registers prior c in
  registers c' = registers c /\ cpsr c' = cpsr c /\ spsr c' = spsr c
  /\ thumb_mode c' = thumb_mode c /\ cycles c' = cycles c.
Proof.
  unfold save_banked_registers, for_loop.
  destruct (prior =? FIQ); cbn; repeat split; reflexivity.
Qed.

Lemma restore_banked_registers_frame :
  let c' := restore_banked_registers new_mode c in
  cpsr c' = cpsr c /\ spsr c' = spsr c
  /\ banked_r13 c' = banked_r13 c /\ banked_r14 c' = banked_r14 c
  /\ banked_r8_r12 c' = banked_r8_r12 c
  /\ thumb_mode c' = thumb_mode c /\ cycles c' = cycles c.
Proof.
  unfold restore_banked_registers, for_loop.
  destruct (new_mode =? FIQ); cbn; repeat split; reflexivity.
Qed.

Lemma switch_mode_same :
  get_current_mode c = new_mode -> switch_mode new_mode c = c.
Proof. intros H. unfold switch_mode. rewrite H, Z.eqb_refl. reflexivity. Qed.

Lemma switch_mode_cpsr :
  cpsr (switch_mode new_mode c) =
  if get_current_mode c =? new_mode then cpsr c
  else Z.lor (Z.land (cpsr c) (not32 0x1F)) new_mode.
Proof.
  unfold switch_mode. destruct (get_current_mode c =? new_mode); [reflexivity|].
  unfold restore_banked_registers, save_banked_registers, for_loop.
  destruct (new_mode =? FIQ), (get_current_mode c =? FIQ); reflexivity.
Qed.

Lemma switch_mode_frame :
  let c' := switch_mode new_mode c in
  spsr c' = spsr c /\ thumb_mode c' = thumb_mode c /\ cycles c' = cycles c.
Proof.
  unfold switch_mode. destruct (get_current_mode c =? new_mode); [auto|].
  unfold restore_banked_registers, save_banked_registers, for_loop.
  destruct (new_mode =? FIQ), (get_current_mode c =? FIQ); cbn; auto.
Qed.

Lemma switch_mode_lengths :
  let c' := switch_mode new_mode c in
  length (registers c') = length (registers c)
  /\ length (banked_r13 c') = length (banked_r13 c)
  /\ length (banked_r14 c') = length (banked_r14 c)
  /\ length (banked_r8_r12 c') = length (banked_r8_r12 c).
Proof.
  unfold switch_mode. destruct (get_current_mode c =? new_mode); [auto|].
  unfold restore_banked_registers, save_banked_registers, for_loop.
  destruct (new_mode =? FIQ), (get_current_mode c =? FIQ); cbn;
    rewrite ?length_insert; auto.
Qed.

Lemma switch_mode_wf : wf_cpu c -> wf_cpu (switch_mode new_mode c).
Proof.
  unfold wf_cpu. intros (H1 & H2 & H3 & H4 & H5).
  destruct switch_mode_lengths as (L1 & L3 & L4 & L5).
  destruct switch_mode_frame as (F2 & _).
  cbv zeta in *. rewrite L1, L3, L4, L5, F2. auto.
Qed.

Lemma switch_mode_current :
  is_enumerator new_mode = true ->
  get_current_mode (switch_mode new_mode c) = new_mode.
Proof.
  intros He. unfold get_current_mode at 1. rewrite switch_mode_cpsr.
  destruct (Z.eqb_spec (get_current_mode c) new_mode) as [E|E]; [exact E|].
  apply mode_field_low_bits, mode_bits_small, He.
Qed.

(** The registers a mode switch does not bank. *)
Lemma switch_mode_low_registers (i : nat) :
  (i < 8 \/ i = 15)%nat ->
  registers (switch_mode new_mode c) !!! i = registers c !!! i.
Proof.
  intros Hi. unfold switch_mode.
  destruct (get_current_mode c =? new_mode); [reflexivity|].
  unfold restore_banked_registers, save_banked_registers, for_loop.
  destruct (new_mode =? FIQ), (get_current_mode c =? FIQ); cbn;
    array_simpl; reflexivity.
Qed.

End SwitchMode.

(** C8.  For every CPU state and every target mode of the enumeration,
    [switch_mode] leaves the condition flags N, Z, C, V and the
    instruction-set bit of the status register (and the [thumb_mode] flag)
    unchanged; when the target is the current mode, the whole CPU state is
    unchanged. *)
Theorem switch_mode_keeps_flags (c : ARM7CPU) (target : CpuMode) :
  is_enumerator target = true ->
  flag_N (cpsr (switch_mode target c)) = flag_N (cpsr c)
  /\ flag_Z (cpsr (switch_mode target c)) = flag_Z (cpsr c)
  /\ flag_C (cpsr (switch_mode target c)) = flag_C (cpsr c)
  /\ flag_V (cpsr (switch_mode target c)) = flag_V (cpsr c)
  /\ bit_T (cpsr (switch_mode target c)) = bit_T (cpsr c)
  /\ thumb_mode (switch_mode target c) = thumb_mode c
  /\ (get_current_mode c = target -> switch_mode target c = c).
Proof.
  intros He. pose proof (mode_bits_small target He) as Hm.
  assert (Hbit : forall i, 5 <= i < 32 ->
            Z.testbit (cpsr (switch_mode target c)) i = Z.testbit (cpsr c) i).
  { intros i Hi. rewrite switch_mode_cpsr.
    destruct (get_current_mode c =? target); [reflexivity|].
    apply mode_field_high_bits; assumption. }
  unfold flag_N, flag_Z, flag_C, flag_V, bit_T.
  rewrite !Hbit by lia.
  repeat split; try apply switch_mode_frame.
  apply switch_mode_same.
Qed.

Lemma switch_mode_keeps_flags_witness :
  is_enumerator IRQ = true
  /\ flag_C (cpsr (switch_mode IRQ cpu_carry_zero)) = flag_C (cpsr cpu_carry_zero)
  /\ cpsr (switch_mode IRQ cpu_carry_zero) <> cpsr cpu_carry_zero.
Proof.
  split; [reflexivity|]. split.
  - apply (switch_mode_keeps_flags cpu_carry_zero IRQ). reflexivity.
  - vm_compute. discriminate.
Defined.

(** What a switch to a different mode does to R13, R14 and their banks. *)
Lemma switch_mode_banks (c : ARM7CPU) (new_mode : CpuMode) :
  wf_cpu c -> get_current_mode c <> new_mode ->
  banked_r13 (switch_mode new_mode c) =
    <[get_mode_index (get_current_mode c) := registers c !!! 13%nat]> (banked_r13 c)
  /\ banked_r14 (switch_mode new_mode c) =
    <[get_mode_index (get_current_mode c) := registers c !!! 14%nat]> (banked_r14 c)
  /\ registers (switch_mode new_mode c) !!! 13%nat =
       banked_r13 (switch_mode new_mode c) !!! get_mode_index new_mode
  /\ registers (switch_mode new_mode c) !!! 14%nat =
       banked_r14 (switch_mode new_mode c) !!! get_mode_index new_mode.
Proof.
  intros (H1 & _) Hne. unfold switch_mode.
  destruct (Z.eqb_spec (get_current_mode c) new_mode); [contradiction|].
  unfold restore_banked_registers, save_banked_registers, for_loop.
  destruct (new_mode =? FIQ), (get_current_mode c =? FIQ); cbn;
    array_simpl; auto.
Qed.

(** A bank slot other than slot 0 belongs to one mode. *)
Lemma get_mode_index_own (m : CpuMode) :
  get_mode_index m <> 0%nat ->
  (m = FIQ /\ get_mode_index m = 1%nat)
  \/ (m = IRQ /\ get_mode_index m = 2%nat)
  \/ (m = SUPERVISOR /\ get_mode_index m = 3%nat)
  \/ (m = ABORT /\ get_mode_index m = 4%nat)
  \/ (m = UNDEFINED /\ get_mode_index m = 5%nat).
Proof.
  unfold get_mode_index.
  destruct (Z.eqb_spec m USER); [cbn; congruence|].
  destruct (Z.eqb_spec m SYSTEM); [cbn; congruence|]. cbn [orb].
  destruct (Z.eqb_spec m FIQ); [tauto|].
  destruct (Z.eqb_spec m IRQ); [tauto|].
  destruct (Z.eqb_spec m SUPERVISOR); [tauto|].
  destruct (Z.eqb_spec m ABORT); [tauto|].
  destruct (Z.eqb_spec m UNDEFINED); [tauto|].
  congruence.
Qed.

Lemma get_mode_index_bound (m : CpuMode) : (get_mode_index m < 6)%nat.
Proof.
  unfold get_mode_index.
  repeat match goal with |- context [if ?b then _ else _] => destruct b end; lia.
Qed.

(** Leaving a mode and coming back restores R13 and R14, whatever the two
    modes are, as long as they do not share a bank slot. *)
Lemma mode_round_trip_r13_r14 (c : ARM7CPU) (via : CpuMode) :
  wf_cpu c -> is_enumerator via = true ->
  get_mode_index via <> get_mode_index (get_current_mode c) ->
  registers (switch_mode (get_current_mode c) (switch_mode via c)) !!! 13%nat
    = registers c !!! 13%nat
  /\ registers (switch_mode (get_current_mode c) (switch_mode via c)) !!! 14%nat
    = registers c !!! 14%nat.
Proof.
  intros Hwf Hvia Hidx.
  assert (Hne : get_current_mode c <> via) by (intros E; rewrite E in Hidx; auto).
  pose proof (switch_mode_banks c via Hwf Hne) as (B13 & B14 & _ & _).
  pose proof (switch_mode_wf c via Hwf) as Hwf'.
  pose proof (switch_mode_current c via Hvia) as Hcur.
  assert (Hne' : get_current_mode (switch_mode via c) <> get_current_mode c)
    by (rewrite Hcur; auto).
  pose proof (switch_mode_banks _ _ Hwf' Hne') as (C13 & C14 & R13 & R14).
  rewrite R13, R14, C13, C14, Hcur, B13, B14.
  destruct Hwf as (_ & _ & L13 & L14 & _).
  pose proof (get_mode_index_bound (get_current_mode c)).
  array_simpl. auto.
Qed.

(** The second half of the R8-R12 bank is never written by a mode switch. *)
Lemma switch_mode_second_half (c : ARM7CPU) (new_mode : CpuMode) (i : nat) :
  (i < 5)%nat ->
  banked_r8_r12 (switch_mode new_mode c) !!! (5 + i)%nat
    = banked_r8_r12 c !!! (5 + i)%nat.
Proof.
  intros Hi. unfold switch_mode.
  destruct (get_current_mode c =? new_mode); [reflexivity|].
  unfold restore_banked_registers, save_banked_registers, for_loop.
  destruct (new_mode =? FIQ), (get_current_mode c =? FIQ); cbn;
    array_simpl; reflexivity.
Qed.

(** A switch into a mode other than FIQ loads R8..R12 from that half. *)
Lemma switch_mode_loads_second_half (c : ARM7CPU) (new_mode : CpuMode)
    (i : nat) :
  wf_cpu c -> get_current_mode c <> new_mode -> new_mode <> FIQ ->
  (i < 5)%nat ->
  registers (switch_mode new_mode c) !!! (8 + i)%nat
    = banked_r8_r12 c !!! (5 + i)%nat.
Proof.
  intros (H1 & _ & _ & _ & H5) Hne Hfiq Hi. unfold switch_mode.
  destruct (Z.eqb_spec (get_current_mode c) new_mode); [contradiction|].
  unfold restore_banked_registers, save_banked_registers, for_loop.
  destruct (Z.eqb_spec new_mode FIQ); [contradiction|].
  assert (Hc : (i = 0 \/ i = 1 \/ i = 2 \/ i = 3 \/ i = 4)%nat) by lia.
  destruct (get_current_mode c =? FIQ);
    destruct Hc as [-> | [-> | [-> | [-> | ->]]]]; cbn; array_simpl; reflexivity.
Qed.

(** Entering FIQ from System mode and leaving it again loads R8..R12 from
    the second half of the R8-R12 bank, which no code path ever writes. *)
Lemma fiq_round_trip_r8_r12 (c : ARM7CPU) (i : nat) :
  wf_cpu c -> get_current_mode c = SYSTEM -> (i < 5)%nat ->
  registers (switch_mode SYSTEM (switch_mode FIQ c)) !!! (8 + i)%nat
    = banked_r8_r12 c !!! (5 + i)%nat.
Proof.
  intros Hwf Hcur Hi.
  rewrite switch_mode_loads_second_half; try assumption.
  - apply switch_mode_second_half, Hi.
  - apply switch_mode_wf, Hwf.
  - rewrite switch_mode_current by reflexivity. discriminate.
  - discriminate.
Qed.

(** C3.  From the System-mode state with R13 = 0x03007F00, the round trip
    through IRQ restores R13 and R14, and so does the round trip through
    FIQ; but the round trip through FIQ does not give R8 back: the code
    reloads it from a bank slot that was never saved. *)
Theorem mode_round_trip_at_sample :
  get_current_mode cpu_system_loaded = SYSTEM
  /\ registers cpu_system_loaded !!! 13%nat = 0x03007F00
  /\ registers (switch_mode SYSTEM (switch_mode IRQ cpu_system_loaded)) !!! 13%nat
     = 0x03007F00
  /\ registers (switch_mode SYSTEM (switch_mode IRQ cpu_system_loaded)) !!! 14%nat
     = registers cpu_system_loaded !!! 14%nat
  /\ registers (switch_mode SYSTEM (switch_mode FIQ cpu_system_loaded)) !!! 13%nat
     = 0x03007F00
  /\ registers cpu_system_loaded !!! 8%nat = 0xCAFE
  /\ registers (switch_mode SYSTEM (switch_mode FIQ cpu_system_loaded)) !!! 8%nat
     = 0.
Proof. vm_compute. repeat split. Qed.

(** ** Exception entry *)

Lemma handle_irq_entry (g : GBASystem) :
  cpu (handle_irq g) = exception_entry IRQ FLAG_I VECTOR_IRQ (cpu g).
Proof. reflexivity. Qed.

Lemma handle_fiq_entry (g : GBASystem) :
  cpu (handle_fiq g) =
  exception_entry FIQ (Z.lor FLAG_F FLAG_I) VECTOR_FIQ (cpu g).
Proof. reflexivity. Qed.

Lemma handle_irq_frame (g : GBASystem) :
  memory (handle_irq g) = memory g /\ ppu (handle_irq g) = ppu g
  /\ interrupt_enable (handle_irq g) = interrupt_enable g
  /\ interrupt_flags (handle_irq g) = interrupt_flags g
  /\ interrupt_master (handle_irq g) = interrupt_master g
  /\ console (handle_irq g) = console g.
Proof. repeat split. Qed.

Lemma handle_fiq_frame (g : GBASystem) :
  memory (handle_fiq g) = memory g /\ ppu (handle_fiq g) = ppu g
  /\ interrupt_enable (handle_fiq g) = interrupt_enable g
  /\ interrupt_flags (handle_fiq g) = interrupt_flags g
  /\ interrupt_master (handle_fiq g) = interrupt_master g
  /\ console (handle_fiq g) = console g.
Proof. repeat split. Qed.

(** The status register after the disable bits are set and T is cleared. *)
Lemma entry_status_bit (x disable i : Z) :
  0 <= i ->
  Z.testbit (Z.land (Z.lor x disable) (not32 FLAG_T)) i =
  (Z.testbit x i || Z.testbit disable i) && (i <? 32) && negb (i =? 5).
Proof.
  intros Hi. rewrite Z.land_spec, Z.lor_spec, Bits.testbit_not32 by lia.
  unfold FLAG_T. rewrite Z.shiftl_1_l, Z.pow2_bits_eqb by lia.
  rewrite (Z.eqb_sym 5 i), andb_assoc. reflexivity.
Qed.

Section Entry.

Variables (mode : CpuMode) (disable vector : Z) (c : ARM7CPU).

Hypothesis Hwf : wf_cpu c.
Hypothesis Hmode : is_enumerator mode = true.
(** The destination has a bank slot of its own and an SPSR slot. *)
Hypothesis Hslot : (0 < get_mode_index mode < 5)%nat.
(** The disable mask lies above the instruction-set bit. *)
Hypothesis Hdisable : forall i, 0 <= i < 6 -> Z.testbit disable i = false.

Local Lemma entry_unfold :
  exception_entry mode disable vector c =
  set_cycles (fun n => n + 3)
    (set_registers <[15%nat := vector]>
       (set_thumb_mode false
          (set_cpsr (fun v => Z.land v (not32 FLAG_T))
             (set_cpsr (fun v => Z.lor v disable)
                (switch_mode mode (entry_saved mode c)))))).
Proof using Type. reflexivity. Qed.

Local Lemma entry_saved_wf : wf_cpu (entry_saved mode c).
Proof using Hwf.
  destruct Hwf as (H1 & H2 & H3 & H4 & H5).
  unfold wf_cpu, entry_saved; cbn. rewrite !length_insert. auto.
Qed.

Lemma entry_cpsr :
  cpsr (exception_entry mode disable vector c) =
  Z.land (Z.lor (cpsr (switch_mode mode (entry_saved mode c))) disable)
         (not32 FLAG_T).
Proof using Type. reflexivity. Qed.

Lemma entry_cpsr_bit (i : Z) :
  0 <= i ->
  Z.testbit (cpsr (exception_entry mode disable vector c)) i =
  (Z.testbit (cpsr (switch_mode mode (entry_saved mode c))) i
   || Z.testbit disable i)
  && (i <? 32) && negb (i =? 5).
Proof using Type.
  intros Hi. rewrite entry_cpsr. apply entry_status_bit, Hi.
Qed.

Lemma entry_mode :
  get_current_mode (exception_entry mode disable vector c) = mode.
Proof using Hmode Hslot Hdisable.
  pose proof (switch_mode_current (entry_saved mode c) mode Hmode) as Hcur.
  unfold get_current_mode in *.
  transitivity (Z.land (cpsr (switch_mode mode (entry_saved mode c))) 0x1F);
    [|exact Hcur].
  apply Z.bits_inj'. intros n Hn.
  rewrite !Z.land_spec, entry_cpsr_bit by lia.
  change 0x1F with (Z.ones 5).
  destruct (Z.ltb_spec n 5).
  - rewrite Hdisable by lia.
    destruct (Z.ltb_spec n 32); [|lia]. destruct (Z.eqb_spec n 5); [lia|].
    simpl. rewrite orb_false_r, !andb_true_r. reflexivity.
  - rewrite Z.ones_spec_high by lia. rewrite !andb_false_r. reflexivity.
Qed.

(** Bits 6..31: the disable mask is or-ed in, nothing else changes. *)
Lemma entry_high_bits (i : Z) :
  6 <= i < 32 ->
  Z.testbit (cpsr (exception_entry mode disable vector c)) i =
  Z.testbit (cpsr c) i || Z.testbit disable i.
Proof using Hmode Hslot.
  intros Hi. rewrite entry_cpsr_bit by lia.
  destruct (Z.ltb_spec i 32); [|lia]. destruct (Z.eqb_spec i 5); [lia|].
  simpl. rewrite !andb_true_r.
  rewrite switch_mode_cpsr.
  change (cpsr (entry_saved mode c)) with (cpsr c).
  destruct (get_current_mode (entry_saved mode c) =? mode); [reflexivity|].
  rewrite mode_field_high_bits; [reflexivity| apply mode_bits_small, Hmode | lia].
Qed.

Lemma entry_arm_state :
  thumb_mode (exception_entry mode disable vector c) = false
  /\ bit_T (cpsr (exception_entry mode disable vector c)) = false.
Proof using Hslot.
  split; [reflexivity|]. unfold bit_T. rewrite entry_cpsr_bit by lia.
  apply andb_false_r.
Qed.

Lemma entry_pc :
  registers (exception_entry mode disable vector c) !!! 15%nat = vector.
Proof using Hwf Hslot.
  rewrite entry_unfold. cbn.
  destruct (switch_mode_lengths (entry_saved mode c) mode) as (L & _).
  destruct entry_saved_wf as (H1 & _). cbv zeta in L.
  array_simpl. reflexivity.
Qed.

Lemma entry_spsr :
  spsr (exception_entry mode disable vector c) !!! get_mode_index mode = cpsr c.
Proof using Hwf Hslot.
  rewrite entry_unfold. cbn.
  destruct (switch_mode_frame (entry_saved mode c) mode) as (-> & _).
  unfold entry_saved; cbn. destruct Hwf as (_ & H2 & _).
  array_simpl. reflexivity.
Qed.

(** Only the destination mode itself uses the destination's bank slot. *)
Local Lemma slot_owner (m : CpuMode) :
  get_mode_index m = get_mode_index mode -> m = mode.
Proof using Hslot.
  clear Hmode Hwf Hdisable. intros E.
  assert (Hm : get_mode_index m <> 0%nat) by lia.
  assert (Hd : get_mode_index mode <> 0%nat) by lia.
  destruct (get_mode_index_own m Hm)
    as [[-> Em]|[[-> Em]|[[-> Em]|[[-> Em]|[-> Em]]]]];
    destruct (get_mode_index_own mode Hd)
      as [[-> Ed]|[[-> Ed]|[[-> Ed]|[[-> Ed]|[-> Ed]]]]];
    first [reflexivity | cbn in E; discriminate E].
Qed.

Lemma entry_banked_r14 :
  banked_r14 (exception_entry mode disable vector c) !!! get_mode_index mode
  = return_address c.
Proof using Hwf Hmode Hslot.
  rewrite entry_unfold. cbn.
  destruct Hwf as (_ & _ & _ & H4 & _).
  destruct (Z.eq_dec (get_current_mode (entry_saved mode c)) mode) as [E|E].
  - rewrite switch_mode_same by exact E. unfold entry_saved; cbn.
    array_simpl. reflexivity.
  - destruct (switch_mode_banks (entry_saved mode c) mode entry_saved_wf E)
      as (_ & -> & _).
    assert (get_mode_index (get_current_mode (entry_saved mode c))
            <> get_mode_index mode)
      by (intros Hs; apply E, slot_owner, Hs).
    unfold entry_saved at 3; cbn. array_simpl. reflexivity.
Qed.

(** Entered from another mode, the visible R14 is the return address too. *)
Lemma entry_r14 :
  get_current_mode c <> mode ->
  registers (exception_entry mode disable vector c) !!! 14%nat
  = return_address c.
Proof using Hwf Hmode Hslot.
  intros E. rewrite entry_unfold. cbn.
  change (get_current_mode c) with (get_current_mode (entry_saved mode c)) in E.
  destruct (switch_mode_banks (entry_saved mode c) mode entry_saved_wf E)
    as (_ & B & _ & R).
  array_simpl. rewrite R, B.
  assert (get_mode_index (get_current_mode (entry_saved mode c))
          <> get_mode_index mode)
    by (intros Hs; apply E, slot_owner, Hs).
  destruct Hwf as (_ & _ & _ & H4 & _).
  unfold entry_saved at 3; cbn. array_simpl. reflexivity.
Qed.

Lemma entry_wf : wf_cpu (exception_entry mode disable vector c).
Proof using Hwf.
  pose proof (switch_mode_wf (entry_saved mode c) mode entry_saved_wf)
    as (H1 & H2 & H3 & H4 & H5).
  rewrite entry_unfold. unfold wf_cpu; cbn. rewrite length_insert. auto.
Qed.

End Entry.

(** ** One step of the CPU *)

Lemma irq_gate (g : GBASystem) :
  negb (nz (Z.land (cpsr (cpu g)) FLAG_I)) && has_pending_interrupts g
  = irq_eligible g.
Proof.
  unfold irq_eligible, bit_I, FLAG_I. rewrite Bits.nz_land_pow2 by lia.
  reflexivity.
Qed.

Lemma step_when_eligible (g : GBASystem) :
  irq_eligible g = true -> step g = handle_irq g.
Proof. intros H. unfold step. rewrite irq_gate, H. reflexivity. Qed.

Lemma execute_arm_frame (instruction : Z) (g : GBASystem) :
  cpu (execute_arm instruction g) = cpu g
  /\ memory (execute_arm instruction g) = memory g
  /\ ppu (execute_arm instruction g) = ppu g
  /\ interrupt_enable (execute_arm instruction g) = interrupt_enable g
  /\ interrupt_flags (execute_arm instruction g) = interrupt_flags g
  /\ interrupt_master (execute_arm instruction g) = interrupt_master g.
Proof.
  unfold execute_arm.
  repeat match goal with |- context [if ?b then _ else _] => destruct b end;
    repeat split.
Qed.

Lemma execute_thumb_frame (instruction : Z) (g : GBASystem) :
  cpu (execute_thumb instruction g) = cpu g
  /\ memory (execute_thumb instruction g) = memory g
  /\ ppu (execute_thumb instruction g) = ppu g
  /\ interrupt_enable (execute_thumb instruction g) = interrupt_enable g
  /\ interrupt_flags (execute_thumb instruction g) = interrupt_flags g
  /\ interrupt_master (execute_thumb instruction g) = interrupt_master g.
Proof.
  unfold execute_thumb.
  destruct (Z.land instruction 65280 =? 57088); repeat split.
Qed.

(** Without an interrupt, a step fetches, advances the program counter by
    the instruction width and charges one cycle; nothing else moves. *)
Lemma step_fetches (g : GBASystem) :
  irq_eligible g = false ->
  cpu (step g) = set_cycles (fun n => n + 1) (advance_pc (cpu g))
  /\ memory (step g) = memory g /\ ppu (step g) = ppu g
  /\ interrupt_enable (step g) = interrupt_enable g
  /\ interrupt_flags (step g) = interrupt_flags g
  /\ interrupt_master (step g) = interrupt_master g.
Proof.
  intros H. unfold step. rewrite irq_gate, H. unfold advance_pc.
  destruct (thumb_mode (cpu g)) eqn:Ht; cbn [negb andb].
  - pose proof (execute_thumb_frame
      (read16 (memory g) (registers (cpu g) !!! 15%nat))
      (set_cpu (set_registers (alter (fun pc => u32 (pc + 2)) 15%nat)) g))
      as (Hc & Hm & Hp & He & Hf & Hi).
    cbn. rewrite Hc, Hm, Hp, He, Hf, Hi. repeat split.
  - pose proof (execute_arm_frame
      (read32 (memory g) (registers (cpu g) !!! 15%nat))
      (set_cpu (set_registers (alter (fun pc => u32 (pc + 4)) 15%nat)) g))
      as (Hc & Hm & Hp & He & Hf & Hi).
    cbn. rewrite Hc, Hm, Hp, He, Hf, Hi. repeat split.
Qed.

Lemma step_interrupt_flags (g : GBASystem) :
  interrupt_flags (step g) = interrupt_flags g.
Proof.
  destruct (irq_eligible g) eqn:E.
  - rewrite step_when_eligible by exact E. reflexivity.
  - apply step_fetches, E.
Qed.

Lemma pending_of_bits (g : GBASystem) :
  Z.testbit (interrupt_master g) 0 = true ->
  Z.testbit (interrupt_enable g) 0 = true ->
  Z.testbit (interrupt_flags g) 0 = true ->
  has_pending_interrupts g = true.
Proof.
  intros Hm He Hf. unfold has_pending_interrupts.
  change 1 with (Z.shiftl 1 0). rewrite Bits.nz_land_pow2, Hm by lia.
  cbn [negb]. apply negb_true_iff, Z.eqb_neq. intros H0.
  assert (Hb : Z.testbit (Z.land (interrupt_flags g) (interrupt_enable g)) 0 = true)
    by (rewrite Z.land_spec, Hf, He; reflexivity).
  rewrite H0 in Hb. discriminate.
Qed.

Lemma irq_slot : (0 < get_mode_index IRQ < 5)%nat.
Proof. cbn. lia. Qed.

Lemma fiq_slot : (0 < get_mode_index FIQ < 5)%nat.
Proof. cbn. lia. Qed.

Lemma irq_mask_high (i : Z) : 0 <= i < 6 -> Z.testbit FLAG_I i = false.
Proof.
  intros Hi. unfold FLAG_I. rewrite Z.shiftl_1_l. apply Z.pow2_bits_false. lia.
Qed.

Lemma fiq_mask_high (i : Z) :
  0 <= i < 6 -> Z.testbit (Z.lor FLAG_F FLAG_I) i = false.
Proof.
  intros Hi. unfold FLAG_I, FLAG_F.
  rewrite Z.lor_spec, !Z.shiftl_1_l, !Z.pow2_bits_false by lia. reflexivity.
Qed.

(** ** Interrupt entry through [step] *)

(** C1 (as the code has it).  From a state in System mode and ARM state with
    PC = 0x08000100, the IRQ-disable bit clear and interrupt 0 enabled,
    requested and master-enabled, one step gives: mode IRQ, ARM state, the
    IRQ-disable bit set, PC = 0x00000018, SPSR_irq equal to the status
    register before entry, and R14_irq (banked and visible) equal to
    0x080000FC, the program counter minus one instruction width. *)
Theorem irq_entry_from_system (g : GBASystem) :
  wf_cpu (cpu g) ->
  get_current_mode (cpu g) = SYSTEM ->
  thumb_mode (cpu g) = false ->
  bit_I (cpsr (cpu g)) = false ->
  registers (cpu g) !!! 15%nat = 0x08000100 ->
  Z.testbit (interrupt_master g) 0 = true ->
  Z.testbit (interrupt_enable g) 0 = true ->
  Z.testbit (interrupt_flags g) 0 = true ->
  get_current_mode (cpu (step g)) = IRQ
  /\ thumb_mode (cpu (step g)) = false
  /\ bit_T (cpsr (cpu (step g))) = false
  /\ bit_I (cpsr (cpu (step g))) = true
  /\ registers (cpu (step g)) !!! 15%nat = 0x00000018
  /\ banked_r14 (cpu (step g)) !!! get_mode_index IRQ = 0x080000FC
  /\ registers (cpu (step g)) !!! 14%nat = 0x080000FC
  /\ spsr (cpu (step g)) !!! get_mode_index IRQ = cpsr (cpu g).
Proof.
  intros Hwf Hmode Hthumb HI Hpc Hm He Hf.
  assert (Helig : irq_eligible g = true).
  { unfold irq_eligible. rewrite HI, (pending_of_bits g Hm He Hf). reflexivity. }
  rewrite (step_when_eligible g Helig), handle_irq_entry.
  assert (Hret : return_address (cpu g) = 0x080000FC).
  { unfold return_address. rewrite Hthumb, Hpc. reflexivity. }
  pose proof irq_slot as Hslot. pose proof irq_mask_high as Hmask.
  repeat split.
  - apply entry_mode; auto.
  - apply entry_arm_state; auto.
  - unfold bit_I. rewrite entry_high_bits by (auto; lia). apply orb_true_r.
  - apply entry_pc; auto.
  - rewrite <- Hret. apply entry_banked_r14; auto.
  - rewrite <- Hret. apply entry_r14; auto. rewrite Hmode. discriminate.
  - apply entry_spsr; auto.
Qed.

Lemma irq_entry_from_system_witness :
  get_current_mode (cpu (step sys_irq_pending)) = IRQ
  /\ banked_r14 (cpu (step sys_irq_pending)) !!! get_mode_index IRQ = 0x080000FC.
Proof.
  assert (Hwf : wf_cpu (cpu sys_irq_pending)) by (repeat split).
  destruct (irq_entry_from_system sys_irq_pending Hwf eq_refl eq_refl
              eq_refl eq_refl eq_refl eq_refl eq_refl)
    as (Hmode & _ & _ & _ & _ & Hlr & _).
  split; [exact Hmode | exact Hlr].
Defined.

(** C1 as stated fails: the state meets every premise of the claim, and the
    banked R14 of IRQ mode after the step is not 0x08000104. *)
Lemma irq_entry_return_address_counterexample :
  get_current_mode (cpu sys_irq_pending) = SYSTEM
  /\ thumb_mode (cpu sys_irq_pending) = false
  /\ registers (cpu sys_irq_pending) !!! 15%nat = 0x08000100
  /\ Z.shiftr (cpsr (cpu sys_irq_pending)) 5 = 0
  /\ has_pending_interrupts sys_irq_pending = true
  /\ banked_r14 (cpu (step sys_irq_pending)) !!! get_mode_index IRQ <> 0x08000104.
Proof. vm_compute. repeat split; discriminate. Qed.

(** A step never brings the CPU into FIQ mode. *)
Lemma step_never_enters_fiq (g : GBASystem) :
  get_current_mode (cpu g) <> FIQ -> get_current_mode (cpu (step g)) <> FIQ.
Proof.
  intros Hne. destruct (irq_eligible g) eqn:E.
  - rewrite (step_when_eligible g E), handle_irq_entry.
    unfold exception_entry. cbn.
    set (c1 := set_banked_r14 _ _).
    intros Hf.
    pose proof (switch_mode_current c1 IRQ eq_refl) as Hcur.
    unfold get_current_mode in *. cbn in Hf.
    assert (Hb : Z.testbit (Z.land (Z.land (Z.lor (cpsr (switch_mode IRQ c1)) FLAG_I)
                                  (not32 FLAG_T)) 31) 0 = true)
      by (rewrite Hf; reflexivity).
    assert (Hc : Z.testbit (Z.land (cpsr (switch_mode IRQ c1)) 31) 0 = false)
      by (rewrite Hcur; reflexivity).
    rewrite !Z.land_spec, Z.lor_spec in Hb. rewrite Z.land_spec in Hc.
    change (Z.testbit FLAG_I 0) with false in Hb.
    change (Z.testbit 31 0) with true in *.
    rewrite orb_false_r in Hb. rewrite andb_true_r in Hc.
    rewrite Hc in Hb. discriminate.
  - destruct (step_fetches g E) as (-> & _). exact Hne.
Qed.

(** The interrupt controller has one request register and [step] consults
    it for the IRQ path only; [handle_fiq] has no caller.  Whenever an IRQ
    is eligible, whatever the FIQ-disable bit, the step is the IRQ entry
    sequence: mode IRQ, IRQ-disable bit set, FIQ-disable bit unchanged,
    PC = 0x18; and no step brings a CPU that is not in FIQ mode into it.
    The FIQ entry sequence, when it is invoked, enters FIQ mode, sets both
    disable bits, forces ARM state and jumps to 0x1C.  The program has no
    state in which a FIQ is pending, so this says nothing about the
    priority of a pending FIQ over an IRQ. *)
Theorem step_takes_irq_not_fiq (g : GBASystem) :
  wf_cpu (cpu g) ->
  (irq_eligible g = true ->
   step g = handle_irq g
   /\ get_current_mode (cpu (step g)) = IRQ
   /\ bit_I (cpsr (cpu (step g))) = true
   /\ bit_F (cpsr (cpu (step g))) = bit_F (cpsr (cpu g))
   /\ registers (cpu (step g)) !!! 15%nat = VECTOR_IRQ)
  /\ (get_current_mode (cpu g) <> FIQ ->
      get_current_mode (cpu (step g)) <> FIQ)
  /\ (get_current_mode (cpu (handle_fiq g)) = FIQ
      /\ bit_I (cpsr (cpu (handle_fiq g))) = true
      /\ bit_F (cpsr (cpu (handle_fiq g))) = true
      /\ bit_T (cpsr (cpu (handle_fiq g))) = false
      /\ thumb_mode (cpu (handle_fiq g)) = false
      /\ registers (cpu (handle_fiq g)) !!! 15%nat = VECTOR_FIQ).
Proof.
  intros Hwf.
  pose proof irq_slot. pose proof irq_mask_high.
  pose proof fiq_slot. pose proof fiq_mask_high.
  split; [|split].
  - intros Helig.
    rewrite (step_when_eligible g Helig), handle_irq_entry. repeat split.
    + apply entry_mode; auto.
    + unfold bit_I. rewrite entry_high_bits by (auto; lia).
      apply orb_true_r.
    + unfold bit_F. rewrite entry_high_bits by (auto; lia).
      apply orb_false_r.
    + apply entry_pc; auto.
  - apply step_never_enters_fiq.
  - rewrite handle_fiq_entry. repeat split.
    + apply entry_mode; auto.
    + unfold bit_I. rewrite entry_high_bits by (auto; lia).
      apply orb_true_r.
    + unfold bit_F. rewrite entry_high_bits by (auto; lia).
      apply orb_true_r.
    + apply entry_arm_state; auto.
    + apply entry_pc; auto.
Qed.

Lemma step_takes_irq_not_fiq_witness :
  step sys_irq_pending = handle_irq sys_irq_pending
  /\ get_current_mode (cpu (handle_fiq sys_irq_pending)) = FIQ.
Proof.
  assert (Hwf : wf_cpu (cpu sys_irq_pending)) by (repeat split).
  destruct (step_takes_irq_not_fiq sys_irq_pending Hwf)
    as (Hirq & _ & (Hfiq & _)).
  destruct (Hirq eq_refl) as (Hstep & _).
  split; [exact Hstep | exact Hfiq].
Defined.

(** With an interrupt request pending and both disable bits clear, the step
    enters IRQ mode and leaves the FIQ-disable bit clear; it is not the FIQ
    entry sequence. *)
Lemma irq_taken_with_fiq_enabled :
  has_pending_interrupts sys_irq_pending = true
  /\ bit_I (cpsr (cpu sys_irq_pending)) = false
  /\ bit_F (cpsr (cpu sys_irq_pending)) = false
  /\ get_current_mode (cpu (step sys_irq_pending)) = IRQ
  /\ get_current_mode (cpu (step sys_irq_pending)) <> FIQ
  /\ bit_F (cpsr (cpu (step sys_irq_pending))) = false
  /\ cpu (step sys_irq_pending) <> cpu (handle_fiq sys_irq_pending).
Proof. vm_compute. repeat split; discriminate. Qed.

(** ** The instruction-set flag and the status register *)

Lemma reset_thumb_consistent (c : ARM7CPU) : thumb_consistent (ARM7CPU_reset c).
Proof. reflexivity. Qed.

Lemma entry_thumb_consistent (mode : CpuMode) (disable vector : Z)
    (c : ARM7CPU) :
  thumb_consistent (exception_entry mode disable vector c).
Proof.
  unfold thumb_consistent, bit_T.
  rewrite entry_cpsr_bit by lia. rewrite andb_false_r. reflexivity.
Qed.

Lemma step_thumb_consistent (g : GBASystem) :
  thumb_consistent (cpu g) -> thumb_consistent (cpu (step g)).
Proof.
  intros H. destruct (irq_eligible g) eqn:E.
  - rewrite (step_when_eligible g E), handle_irq_entry.
    apply entry_thumb_consistent.
  - destruct (step_fetches g E) as (-> & _). exact H.
Qed.

Lemma run_op_thumb_consistent (op : CpuOp) (g : GBASystem) :
  thumb_consistent (cpu g) -> thumb_consistent (cpu (run_op op g)).
Proof.
  intros H. destruct op; cbn [run_op].
  - apply reset_thumb_consistent.
  - apply step_thumb_consistent, H.
  - rewrite handle_irq_entry. apply entry_thumb_consistent.
  - rewrite handle_fiq_entry. apply entry_thumb_consistent.
Qed.

(** C10.  [thumb_mode] equals the T bit of the status register after reset,
    and every public CPU operation ([step], [handle_irq], [handle_fiq], and
    [reset] itself) preserves that: along any run of these operations from a
    consistent state the flag and the bit agree. *)
Theorem thumb_mode_matches_status_bit (g : GBASystem) (ops : list CpuOp) :
  thumb_consistent (ARM7CPU_reset (cpu g))
  /\ (thumb_consistent (cpu g) ->
      thumb_consistent (cpu (step g))
      /\ thumb_consistent (cpu (handle_irq g))
      /\ thumb_consistent (cpu (handle_fiq g))
      /\ thumb_consistent (cpu (run_ops ops g))).
Proof.
  split; [apply reset_thumb_consistent|]. intros H.
  split; [apply step_thumb_consistent, H|].
  split; [rewrite handle_irq_entry; apply entry_thumb_consistent|].
  split; [rewrite handle_fiq_entry; apply entry_thumb_consistent|].
  revert g H. unfold run_ops.
  induction ops as [|op ops IH]; intros g H; cbn [fold_left].
  - exact H.
  - apply IH, run_op_thumb_consistent, H.
Qed.

Lemma thumb_mode_matches_status_bit_witness :
  thumb_consistent (cpu sys_irq_pending)
  /\ thumb_consistent
       (cpu (run_ops [OpStep; OpHandleFiq; OpStep; OpReset; OpStep]
                     sys_irq_pending)).
Proof.
  assert (H : thumb_consistent (cpu sys_irq_pending)) by reflexivity.
  split; [exact H|].
  apply (thumb_mode_matches_status_bit sys_irq_pending
           [OpStep; OpHandleFiq; OpStep; OpReset; OpStep]), H.
Defined.

(** ** Instruction words *)

(** An interrupt entry through [step] leaves bit 0 of the mode field clear,
    so it enters neither FIQ nor Undefined mode. *)
Lemma step_entry_mode_even (g : GBASystem) :
  irq_eligible g = true ->
  Z.testbit (get_current_mode (cpu (step g))) 0 = false.
Proof.
  intros E. rewrite (step_when_eligible g E), handle_irq_entry.
  unfold exception_entry. cbn.
  set (c1 := set_banked_r14 _ _).
  pose proof (switch_mode_current c1 IRQ eq_refl) as Hcur.
  unfold get_current_mode in *. cbn.
  assert (Hc : Z.testbit (Z.land (cpsr (switch_mode IRQ c1)) 31) 0 = false)
    by (rewrite Hcur; reflexivity).
  rewrite Z.land_spec in Hc. rewrite <- Z.bit0_odd, !Z.land_spec, Z.lor_spec.
  change (Z.testbit FLAG_I 0) with false.
  change (Z.testbit 31 0) with true in *.
  rewrite andb_true_r in Hc. rewrite Hc. reflexivity.
Qed.

Lemma step_never_enters_undefined (g : GBASystem) :
  get_current_mode (cpu g) <> UNDEFINED ->
  get_current_mode (cpu (step g)) <> UNDEFINED.
Proof.
  intros Hne. destruct (irq_eligible g) eqn:E.
  - intros Hu. pose proof (step_entry_mode_even g E) as Hb.
    rewrite Hu in Hb. discriminate.
  - destruct (step_fetches g E) as (-> & _). exact Hne.
Qed.

(** C5 (as the code has it).  Executing a fetched word, whatever its bit
    pattern, changes neither the CPU nor the memory nor any of the three
    interrupt registers.  [execute_arm] prints nothing when the condition
    of the word fails and exactly one line when it passes; [execute_thumb]
    prints exactly one line.  A step that fetches only advances the program
    counter by the instruction width and charges one cycle (the cycle
    counter being an [int] below its maximum), so the mode and the status
    register stay as they were, as do the memory and the interrupt
    registers.  There is no Undefined-instruction entry: no step brings the
    CPU into Undefined mode. *)
Theorem execute_only_logs (g : GBASystem) (instruction : Z) :
  (cpu (execute_arm instruction g) = cpu g
   /\ memory (execute_arm instruction g) = memory g
   /\ interrupt_enable (execute_arm instruction g) = interrupt_enable g
   /\ interrupt_flags (execute_arm instruction g) = interrupt_flags g
   /\ interrupt_master (execute_arm instruction g) = interrupt_master g
   /\ (check_condition (cpu g) (Z.land (Z.shiftr instruction 28) 0xF) = false ->
       console (execute_arm instruction g) = console g)
   /\ (check_condition (cpu g) (Z.land (Z.shiftr instruction 28) 0xF) = true ->
       exists l, console (execute_arm instruction g) = console g ++ [l]))
  /\ (cpu (execute_thumb instruction g) = cpu g
      /\ memory (execute_thumb instruction g) = memory g
      /\ interrupt_enable (execute_thumb instruction g) = interrupt_enable g
      /\ interrupt_flags (execute_thumb instruction g) = interrupt_flags g
      /\ interrupt_master (execute_thumb instruction g) = interrupt_master g
      /\ exists l, console (execute_thumb instruction g) = console g ++ [l])
  /\ (irq_eligible g = false ->
      int_range (cycles (cpu g)) -> cycles (cpu g) < INT_MAX ->
      cpu (step g) = set_cycles (fun n => n + 1) (advance_pc (cpu g))
      /\ cycles (cpu (step g)) = cycles (cpu g) + 1
      /\ int_range (cycles (cpu (step g)))
      /\ get_current_mode (cpu (step g)) = get_current_mode (cpu g)
      /\ cpsr (cpu (step g)) = cpsr (cpu g)
      /\ memory (step g) = memory g
      /\ interrupt_enable (step g) = interrupt_enable g
      /\ interrupt_flags (step g) = interrupt_flags g
      /\ interrupt_master (step g) = interrupt_master g)
  /\ (get_current_mode (cpu g) <> UNDEFINED ->
      get_current_mode (cpu (step g)) <> UNDEFINED).
Proof.
  split; [|split; [|split]].
  - pose proof (execute_arm_frame instruction g)
      as (Hc & Hm & _ & He & Hf & Hi).
    split; [exact Hc|]. split; [exact Hm|]. split; [exact He|].
    split; [exact Hf|]. split; [exact Hi|].
    unfold execute_arm. cbv zeta.
    destruct (check_condition (cpu g) (Z.land (Z.shiftr instruction 28) 15));
      cbn [negb]; split; intros Hcond; try discriminate; [|reflexivity].
    repeat match goal with |- context [if ?b then _ else _] => destruct b end;
      cbn; eauto.
  - pose proof (execute_thumb_frame instruction g)
      as (Hc & Hm & _ & He & Hf & Hi).
    split; [exact Hc|]. split; [exact Hm|]. split; [exact He|].
    split; [exact Hf|]. split; [exact Hi|].
    unfold execute_thumb.
    destruct (Z.land instruction 65280 =? 57088); cbn; eauto.
  - intros E Hr Hmax.
    destruct (step_fetches g E) as (Hc & Hm & _ & He & Hf & Hi).
    rewrite Hc, Hm, He, Hf, Hi.
    unfold int_range, INT_MAX in *. cbn [cycles set_cycles].
    assert (Hcy : cycles (advance_pc (cpu g)) = cycles (cpu g))
      by (unfold advance_pc; destruct (thumb_mode (cpu g)); reflexivity).
    assert (Hmo : cpsr (advance_pc (cpu g)) = cpsr (cpu g))
      by (unfold advance_pc; destruct (thumb_mode (cpu g)); reflexivity).
    rewrite Hcy. unfold get_current_mode. cbn [cpsr set_cycles]. rewrite Hmo.
    repeat split; lia.
  - apply step_never_enters_undefined.
Qed.

Lemma execute_only_logs_witness :
  irq_eligible sys_undefined_word = false
  /\ get_current_mode (cpu (step sys_undefined_word)) = SYSTEM
  /\ cycles (cpu (step sys_undefined_word)) = 1.
Proof.
  assert (Hr : int_range (cycles (cpu sys_undefined_word))).
  { unfold int_range, INT_MAX.
    change (cycles (cpu sys_undefined_word)) with 0. lia. }
  assert (Hmax : cycles (cpu sys_undefined_word) < INT_MAX).
  { unfold INT_MAX. change (cycles (cpu sys_undefined_word)) with 0. lia. }
  split; [reflexivity|].
  pose proof (execute_only_logs sys_undefined_word 0) as (_ & _ & H & _).
  destruct (H eq_refl Hr Hmax) as (_ & Hcy & _ & Hmode & _).
  split; [rewrite Hmode; reflexivity | rewrite Hcy; reflexivity].
Defined.

(** C5 as stated fails: the fetched word 0xE7F000F0 is no instruction the
    core implements, and the step neither enters Undefined mode nor jumps to
    the Undefined vector; it prints one line and moves on. *)
Lemma undefined_instruction_counterexample :
  read32 (memory sys_undefined_word)
         (registers (cpu sys_undefined_word) !!! 15%nat) = 0xE7F000F0
  /\ get_current_mode (cpu (step sys_undefined_word)) = SYSTEM
  /\ get_current_mode (cpu (step sys_undefined_word)) <> UNDEFINED
  /\ registers (cpu (step sys_undefined_word)) !!! 15%nat = 0x08000004
  /\ registers (cpu (step sys_undefined_word)) !!! 15%nat <> VECTOR_UNDEFINED
  /\ console (step sys_undefined_word) = [LogARM 0xE7F000F0].
Proof. vm_compute. repeat split; discriminate. Qed.

(** ** The interrupt request flags *)

Lemma bits_subset_refl (a : Z) : bits_subset a a.
Proof. intros i H. exact H. Qed.

Lemma bits_subset_trans (a b c : Z) :
  bits_subset a b -> bits_subset b c -> bits_subset a c.
Proof. intros H1 H2 i H. apply H2, H1, H. Qed.

Lemma bits_subset_clear (a x : Z) : bits_subset (u16 (Z.land a x)) a.
Proof.
  intros i H. rewrite Bits.testbit_u16, Z.land_spec in H.
  destruct (Z.testbit a i); [reflexivity|].
  rewrite andb_false_l, andb_false_r in H. discriminate.
Qed.

(** The acknowledge write: a flag survives iff no 1 is written to it. *)
Lemma acknowledge_bit (flags value i : Z) :
  0 <= i < 16 ->
  Z.testbit (u16 (Z.land flags (Z.lnot value))) i
  = Z.testbit flags i && negb (Z.testbit value i).
Proof.
  intros Hi. rewrite Bits.testbit_u16, Z.land_spec, Z.lnot_spec by lia.
  destruct (Z.ltb_spec i 16); [reflexivity | lia].
Qed.

(** The flags after a byte write to the I/O space. *)
Lemma write_io_register_flags (address value : Z) (g : GBASystem) :
  interrupt_flags (write_io_register address value g) =
  if address =? REG_IF then
    u16 (Z.land (interrupt_flags g) (Z.lnot value))
  else if address =? REG_IF + 1 then
    u16 (Z.land (interrupt_flags g) (Z.lnot (Z.shiftl value 8)))
  else interrupt_flags g.
Proof.
  unfold write_io_register, REG_IE, REG_IF, REG_IME.
  case_address. cbn [orb]. reflexivity.
Qed.

(** The flags after a halfword write to the I/O space. *)
Lemma write_io_register16_flags (address value : Z) (g : GBASystem) :
  0 <= address < 2 ^ 32 ->
  interrupt_flags (write_io_register16 address value g) =
  if address =? REG_IF then
    u16 (Z.land (interrupt_flags g) (Z.lnot value))
  else if address =? REG_IF - 1 then
    u16 (Z.land (interrupt_flags g) (Z.lnot (Z.land (Z.shiftr value 8) 0xFF)))
  else if address =? REG_IF + 1 then
    u16 (Z.land (interrupt_flags g)
                (Z.lnot (Z.shiftl (Z.land value 0xFF) 8)))
  else interrupt_flags g.
Proof.
  intros Ha. unfold write_io_register16.
  destruct (Z.eqb_spec address REG_IE); [subst; reflexivity|].
  destruct (Z.eqb_spec address REG_IF); [subst; reflexivity|].
  assert (Hnext : u32 (address + 1) = address + 1 \/ u32 (address + 1) = 0).
  { unfold u32. destruct (Z.eq_dec address (2 ^ 32 - 1)) as [->|].
    - right. reflexivity.
    - left. apply Z.mod_small. lia. }
  unfold REG_IE, REG_IF, REG_IME in *.
  repeat match goal with
         | |- context [if address =? ?b then _ else _] =>
             destruct (Z.eqb_spec address b); [subst; reflexivity|]
         end.
  rewrite !write_io_register_flags. unfold REG_IF.
  destruct Hnext as [-> | ->]; case_address; reflexivity.
Qed.

(** No write to the I/O space raises a request flag. *)
Lemma write_io_register_never_sets (address value : Z) (g : GBASystem) :
  bits_subset (interrupt_flags (write_io_register address value g))
              (interrupt_flags g).
Proof.
  rewrite write_io_register_flags.
  repeat match goal with |- context [if ?b then _ else _] => destruct b end;
    auto using bits_subset_clear, bits_subset_refl.
Qed.

Lemma write_io_register16_never_sets (address value : Z) (g : GBASystem) :
  bits_subset (interrupt_flags (write_io_register16 address value g))
              (interrupt_flags g).
Proof.
  unfold write_io_register16.
  repeat match goal with
         | |- context [if ?a =? ?b then _ else _] => destruct (a =? b)
         end;
    try apply bits_subset_refl; try apply bits_subset_clear.
  eapply bits_subset_trans; apply write_io_register_never_sets.
Qed.

Lemma write_io_register32_never_sets (address value : Z) (g : GBASystem) :
  bits_subset (interrupt_flags (write_io_register32 address value g))
              (interrupt_flags g).
Proof.
  unfold write_io_register32.
  destruct (address =? REG_IME); [apply bits_subset_refl|].
  eapply bits_subset_trans; apply write_io_register16_never_sets.
Qed.

(** A request never clears a flag. *)
Lemma request_interrupt_keeps (interrupt_type i : Z) (g : GBASystem) :
  0 <= i < 16 ->
  Z.testbit (interrupt_flags g) i = true ->
  Z.testbit (interrupt_flags (request_interrupt interrupt_type g)) i = true.
Proof.
  intros Hi H. unfold request_interrupt.
  destruct ((interrupt_type <? 0) || (interrupt_type >? 13)); [exact H|].
  cbn. rewrite Bits.testbit_u16, Z.lor_spec, H.
  destruct (Z.ltb_spec i 16); [reflexivity | lia].
Qed.

(** The bus stores into the I/O byte array only: a bus write, even to the
    address of the request-flags register, does not reach the flags. *)
Lemma bus_write_leaves_flags (w : BusWrite) (g : GBASystem) :
  interrupt_flags (set_memory (bus_write w) g) = interrupt_flags g.
Proof. reflexivity. Qed.

(** C7 (as the code has it).  With the master enable, the enable bit of
    interrupt 0 and its request flag set, and the IRQ-disable bit of the
    status register clear, one step sets the program counter to the IRQ
    vector and leaves the request flags as they were, so flag 0 stays set.
    Afterwards the flag survives further steps and requests; a halfword
    write of [value] to the request-flags register leaves it set iff bit 0
    of [value] is 0; a byte or halfword write anywhere in the I/O space
    clears it only if it puts a 1 on bit 0 of the request-flags register;
    and no such write sets a flag that was clear. *)
Theorem vblank_flag_write_to_clear (g : GBASystem) :
  wf_cpu (cpu g) ->
  bit_I (cpsr (cpu g)) = false ->
  Z.testbit (interrupt_master g) 0 = true ->
  Z.testbit (interrupt_enable g) 0 = true ->
  Z.testbit (interrupt_flags g) 0 = true ->
  registers (cpu (step g)) !!! 15%nat = VECTOR_IRQ
  /\ interrupt_flags (step g) = interrupt_flags g
  /\ Z.testbit (interrupt_flags (step g)) 0 = true
  /\ Z.testbit (interrupt_flags (step (step g))) 0 = true
  /\ (forall interrupt_type,
        Z.testbit (interrupt_flags (request_interrupt interrupt_type (step g))) 0
        = true)
  /\ (forall value,
        Z.testbit (interrupt_flags (write_io_register16 REG_IF value (step g))) 0
        = negb (Z.testbit value 0))
  /\ (forall address value,
        0 <= address < 2 ^ 32 ->
        Z.testbit (interrupt_flags (write_io_register16 address value (step g))) 0
        = false ->
        (address = REG_IF /\ Z.testbit value 0 = true)
        \/ (address = REG_IF - 1 /\ Z.testbit value 8 = true))
  /\ (forall address value,
        Z.testbit (interrupt_flags (write_io_register address value (step g))) 0
        = false ->
        address = REG_IF /\ Z.testbit value 0 = true)
  /\ (forall address value,
        bits_subset (interrupt_flags (write_io_register16 address value (step g)))
                    (interrupt_flags g)
        /\ bits_subset (interrupt_flags (write_io_register address value (step g)))
                       (interrupt_flags g)).
Proof.
  intros Hwf HI Hm He Hf.
  assert (Helig : irq_eligible g = true).
  { unfold irq_eligible. rewrite HI, (pending_of_bits g Hm He Hf). reflexivity. }
  pose proof (step_interrupt_flags g) as Hkeep.
  assert (Hf' : Z.testbit (interrupt_flags (step g)) 0 = true)
    by (rewrite Hkeep; exact Hf).
  split; [|split; [|split; [|split; [|split; [|split; [|split; [|split]]]]]]].
  - rewrite (step_when_eligible g Helig), handle_irq_entry.
    apply entry_pc; [exact Hwf | apply irq_slot].
  - exact Hkeep.
  - exact Hf'.
  - rewrite step_interrupt_flags. exact Hf'.
  - intros t. apply request_interrupt_keeps; [lia | exact Hf'].
  - intros value. unfold write_io_register16. rewrite Z.eqb_refl.
    change (REG_IF =? REG_IE) with false. cbn [interrupt_flags set_interrupt_flags].
    rewrite acknowledge_bit, Hf' by lia. reflexivity.
  - intros address value Ha Hclr.
    rewrite write_io_register16_flags in Hclr by exact Ha.
    destruct (Z.eqb_spec address REG_IF) as [->|_].
    { left. split; [reflexivity|].
      rewrite acknowledge_bit, Hf' in Hclr by lia.
      destruct (Z.testbit value 0); [reflexivity | discriminate]. }
    destruct (Z.eqb_spec address (REG_IF - 1)) as [->|_].
    { right. split; [reflexivity|].
      rewrite acknowledge_bit, Hf', Z.land_spec, Z.shiftr_spec in Hclr by lia.
      change (Z.testbit 255 0) with true in Hclr. change (0 + 8) with 8 in Hclr.
      rewrite andb_true_r in Hclr.
      destruct (Z.testbit value 8); [reflexivity | discriminate]. }
    destruct (Z.eqb_spec address (REG_IF + 1)) as [->|_].
    { rewrite acknowledge_bit, Hf', Z.shiftl_spec_low in Hclr by lia.
      discriminate. }
    rewrite Hf' in Hclr. discriminate.
  - intros address value Hclr.
    rewrite write_io_register_flags in Hclr.
    destruct (Z.eqb_spec address REG_IF) as [->|_].
    { split; [reflexivity|].
      rewrite acknowledge_bit, Hf' in Hclr by lia.
      destruct (Z.testbit value 0); [reflexivity | discriminate]. }
    destruct (Z.eqb_spec address (REG_IF + 1)) as [->|_].
    { rewrite acknowledge_bit, Hf', Z.shiftl_spec_low in Hclr by lia.
      discriminate. }
    rewrite Hf' in Hclr. discriminate.
  - intros address value. rewrite <- Hkeep.
    split; [apply write_io_register16_never_sets
           | apply write_io_register_never_sets].
Qed.

Lemma vblank_flag_write_to_clear_witness :
  registers (cpu (step sys_irq_pending)) !!! 15%nat = VECTOR_IRQ
  /\ Z.testbit (interrupt_flags (step sys_irq_pending)) 0 = true.
Proof.
  assert (Hwf : wf_cpu (cpu sys_irq_pending)) by (repeat split).
  destruct (vblank_flag_write_to_clear sys_irq_pending Hwf eq_refl eq_refl
              eq_refl eq_refl) as (Hpc & _ & Hflag & _).
  split; [exact Hpc | exact Hflag].
Defined.

(** C7 as stated fails: the master enable, the enable bit and the request
    flag of interrupt 0 are all set, but the IRQ-disable bit of the status
    register is set as well, and the step fetches the next instruction
    instead of jumping to the IRQ vector. *)
Lemma vblank_step_counterexample :
  Z.testbit (interrupt_master sys_irq_masked) 0 = true
  /\ Z.testbit (interrupt_enable sys_irq_masked) 0 = true
  /\ Z.testbit (interrupt_flags sys_irq_masked) 0 = true
  /\ registers (cpu (step sys_irq_masked)) !!! 15%nat = 0x08000104
  /\ registers (cpu (step sys_irq_masked)) !!! 15%nat <> VECTOR_IRQ.
Proof. vm_compute. repeat split; discriminate. Qed.

(** ** The memory bus *)

Lemma align_idempotent (a : Z) :
  Z.land (Z.land a (not32 3)) (not32 3) = Z.land a (not32 3).
Proof. rewrite <- Z.land_assoc, Z.land_diag. reflexivity. Qed.

Lemma testbit_byte (v k j : Z) :
  0 <= k ->
  Z.testbit (Z.land (Z.shiftr v k) 0xFF) j
  = (0 <=? j) && (j <? 8) && Z.testbit v (j + k).
Proof.
  intros Hk. destruct (Z.leb_spec 0 j) as [Hj|Hj].
  - rewrite Z.land_spec, Z.shiftr_spec by lia.
    change 0xFF with (Z.ones 8).
    destruct (Z.ltb_spec j 8).
    + rewrite Z.ones_spec_low by lia. cbn. apply andb_true_r.
    + rewrite Z.ones_spec_high by lia. cbn. apply andb_false_r.
  - rewrite Z.testbit_neg_r by lia. reflexivity.
Qed.

(** A word stored little-endian reads back as itself, cut to 32 bits. *)
Lemma load32_store32 (a : byte_array) (off value : Z) :
  load32 (store32 off value a) off = u32 value.
Proof.
  unfold load32, store32.
  rewrite Z.eqb_refl.
  replace (off + 1 =? off) with false by (symmetry; apply Z.eqb_neq; lia).
  replace (off + 2 =? off) with false by (symmetry; apply Z.eqb_neq; lia).
  replace (off + 3 =? off) with false by (symmetry; apply Z.eqb_neq; lia).
  replace (off + 2 =? off + 1) with false by (symmetry; apply Z.eqb_neq; lia).
  replace (off + 3 =? off + 1) with false by (symmetry; apply Z.eqb_neq; lia).
  replace (off + 3 =? off + 2) with false by (symmetry; apply Z.eqb_neq; lia).
  rewrite !Z.eqb_refl.
  apply Z.bits_inj'. intros n Hn.
  rewrite Bits.testbit_u32, !Z.lor_spec, !Z.shiftl_spec by lia.
  change (Z.land value 255) with (Z.land value 0xFF).
  rewrite <- (Z.shiftr_0_r value) at 1.
  rewrite !testbit_byte by lia.
  replace (n + 0) with n by lia.
  replace (n - 8 + 8) with n by lia.
  replace (n - 16 + 16) with n by lia.
  replace (n - 24 + 24) with n by lia.
  case_bounds; cbn; rewrite ?orb_false_r; reflexivity.
Qed.

(** A writable word is in exactly one of the six writable regions. *)
Lemma read32_write32 (m : GBAMemory) (address address' value : Z) :
  is_writable m (Z.land address (not32 3)) = true ->
  Z.land address' (not32 3) = Z.land address (not32 3) ->
  read32 (write32 address value m) address' = u32 value.
Proof.
  unfold is_writable, read32, write32. intros Hw ->.
  set (a := Z.land address (not32 3)) in *.
  destruct (in_region a EWRAM_START EWRAM_SIZE) eqn:E1;
    [| destruct (in_region a IWRAM_START IWRAM_SIZE) eqn:E2;
      [| destruct (in_region a IO_START IO_SIZE) eqn:E3;
        [| destruct (in_region a PALETTE_START PALETTE_SIZE) eqn:E4;
          [| destruct (in_region a VRAM_START VRAM_SIZE) eqn:E5;
            [| destruct (in_region a OAM_START OAM_SIZE) eqn:E6;
              [| discriminate Hw]]]]]];
    (replace (in_region a BIOS_START BIOS_SIZE) with false
      by (symmetry; unfold_regions;
          rewrite ?andb_true_iff, ?andb_false_iff, ?Z.leb_le, ?Z.ltb_lt,
            ?Z.leb_gt, ?Z.ltb_ge in *; lia));
    cbn; apply load32_store32.
Qed.

(** The bus never stores into the BIOS or the cartridge image. *)
Lemma write32_read_only (address value : Z) (m : GBAMemory) :
  bios (write32 address value m) = bios m
  /\ rom (write32 address value m) = rom m.
Proof.
  unfold write32.
  repeat match goal with |- context [if ?b then _ else _] => destruct b end;
    split; reflexivity.
Qed.

Lemma write16_read_only (address value : Z) (m : GBAMemory) :
  bios (write16 address value m) = bios m
  /\ rom (write16 address value m) = rom m.
Proof.
  unfold write16.
  repeat match goal with |- context [if nz ?b then _ else _] => destruct (nz b) end;
    apply write32_read_only.
Qed.

Lemma write8_read_only (address value : Z) (m : GBAMemory) :
  bios (write8 address value m) = bios m
  /\ rom (write8 address value m) = rom m.
Proof. unfold write8. apply write32_read_only. Qed.

(** A write to a word outside the writable regions is discarded. *)
Lemma write32_discarded (address value : Z) (m : GBAMemory) :
  is_writable m (Z.land address (not32 3)) = false ->
  write32 address value m = m.
Proof.
  unfold is_writable, write32. intros Hw.
  repeat match goal with
         | |- context [if ?b then _ else _] =>
             destruct b eqn:?; [cbn in Hw; rewrite ?orb_true_r in Hw; discriminate|]
         end.
  reflexivity.
Qed.

Lemma bus_write_read_only (w : BusWrite) (m : GBAMemory) :
  bios (bus_write w m) = bios m /\ rom (bus_write w m) = rom m.
Proof.
  destruct w; cbn [bus_write];
    [apply write8_read_only | apply write16_read_only | apply write32_read_only].
Qed.

(** What a read of a non-writable word depends on. *)
Lemma read32_read_only (m m' : GBAMemory) (address : Z) :
  is_writable m (Z.land address (not32 3)) = false ->
  bios m' = bios m -> rom m' = rom m ->
  read32 m' address = read32 m address.
Proof.
  unfold is_writable, read32. intros Hw Hb Hr.
  rewrite !orb_false_iff in Hw.
  destruct Hw as (((((-> & ->) & ->) & ->) & ->) & ->).
  rewrite Hb, Hr. reflexivity.
Qed.

(** C9.  No sequence of bus writes (of any width, to any address, of any
    value) changes the BIOS array or the cartridge image, and every word
    outside the writable regions -- BIOS, cartridge and unmapped space --
    reads the same before and after. *)
Theorem bus_writes_keep_bios_and_rom (ws : list BusWrite) (m : GBAMemory) :
  bios (bus_writes ws m) = bios m
  /\ rom (bus_writes ws m) = rom m
  /\ (forall address,
        is_writable m (Z.land address (not32 3)) = false ->
        read32 (bus_writes ws m) address = read32 m address).
Proof.
  assert (H : bios (bus_writes ws m) = bios m /\ rom (bus_writes ws m) = rom m).
  { revert m. unfold bus_writes.
    induction ws as [|w ws IH]; intros m; cbn [fold_left]; [auto|].
    destruct (IH (bus_write w m)) as (-> & ->). apply bus_write_read_only. }
  destruct H as (Hb & Hr). repeat split; try assumption.
  intros address Hw. apply read32_read_only; assumption.
Qed.

Lemma bus_writes_keep_bios_and_rom_witness :
  is_writable (memory sys_undefined_word) (Z.land 0x08000000 (not32 3)) = false
  /\ read32 (bus_writes [Write32 0x08000000 0; Write8 0x08000001 0xFF;
                         Write16 0x00000000 0xFFFF; Write32 0x02000000 7]
                        (memory sys_undefined_word)) 0x08000000
     = read32 (memory sys_undefined_word) 0x08000000.
Proof.
  split; [reflexivity|].
  destruct (bus_writes_keep_bios_and_rom
              [Write32 0x08000000 0; Write8 0x08000001 0xFF;
               Write16 0x00000000 0xFFFF; Write32 0x02000000 7]
              (memory sys_undefined_word)) as (_ & _ & H).
  apply H. reflexivity.
Defined.

(** ** Sub-word writes *)

Lemma testbit_below (v w i : Z) :
  0 <= v < 2 ^ w -> 0 <= w -> w <= i -> Z.testbit v i = false.
Proof.
  intros Hv Hw Hi. rewrite <- (Z.mod_small v (2 ^ w)) by lia.
  apply Z.mod_pow2_bits_high. lia.
Qed.

(** The merge of the code: clear the lane with the mask, or the value in. *)
Lemma merge_word_bit (old value shift width i : Z) :
  0 <= shift -> 0 <= width -> 0 <= value < 2 ^ width -> 0 <= i < 32 ->
  Z.testbit (Z.lor (Z.land old (not32 (u32 (Z.shiftl (Z.ones width) shift))))
                   (u32 (Z.shiftl value shift))) i
  = lane_merge old value shift width i.
Proof.
  intros Hs Hw Hv Hi. unfold lane_merge.
  rewrite Z.lor_spec, Z.land_spec, Bits.testbit_not32, !Bits.testbit_u32,
    !Z.shiftl_spec by lia.
  destruct (Z.ltb_spec i 32); [|lia]. cbn [andb].
  destruct (Z.leb_spec shift i) as [Hlo|Hlo]; cbn [andb].
  - destruct (Z.ltb_spec i (shift + width)) as [Hhi|Hhi].
    + rewrite Z.ones_spec_low by lia. cbn. rewrite andb_false_r. reflexivity.
    + rewrite Z.ones_spec_high by lia.
      rewrite (testbit_below value width (i - shift)) by lia.
      cbn. rewrite andb_true_r, orb_false_r. reflexivity.
  - rewrite !(Z.testbit_neg_r _ (i - shift)) by lia.
    cbn. rewrite andb_true_r, orb_false_r. reflexivity.
Qed.

(** The two low address bits select the lane. *)
Lemma lane_of_address (a : Z) :
  (Z.land a 3 = 0 /\ Z.land a 1 = 0 /\ Z.land a 2 = 0)
  \/ (Z.land a 3 = 1 /\ Z.land a 1 = 1 /\ Z.land a 2 = 0)
  \/ (Z.land a 3 = 2 /\ Z.land a 1 = 0 /\ Z.land a 2 = 2)
  \/ (Z.land a 3 = 3 /\ Z.land a 1 = 1 /\ Z.land a 2 = 2).
Proof.
  assert (H1 : Z.land a 1 = Z.land (Z.land a 3) 1)
    by (rewrite <- Z.land_assoc; reflexivity).
  assert (H2 : Z.land a 2 = Z.land (Z.land a 3) 2)
    by (rewrite <- Z.land_assoc; reflexivity).
  rewrite H1, H2.
  assert (Hr : 0 <= Z.land a 3 < 4).
  { change 3 with (Z.ones 2). rewrite Z.land_ones by lia.
    apply Z.mod_pos_bound. lia. }
  assert (Hc : Z.land a 3 = 0 \/ Z.land a 3 = 1 \/ Z.land a 3 = 2
               \/ Z.land a 3 = 3) by lia.
  destruct Hc as [-> | [-> | [-> | ->]]]; cbn; tauto.
Qed.

Lemma read32_aligned (m : GBAMemory) (address : Z) :
  read32 m (Z.land address (not32 3)) = read32 m address.
Proof. unfold read32. rewrite align_idempotent. reflexivity. Qed.

Lemma is_writable_aligned (m : GBAMemory) (address : Z) :
  is_writable m (Z.land (Z.land address (not32 3)) (not32 3))
  = is_writable m (Z.land address (not32 3)).
Proof. rewrite align_idempotent. reflexivity. Qed.

Section SubWord.

Variables (m : GBAMemory) (address value : Z).

Lemma lane_shift_nonneg : 0 <= Z.land address 3 * 8.
Proof.
  destruct (lane_of_address address) as [(-> & _)|[(-> & _)|[(-> & _)|(-> & _)]]];
    lia.
Qed.

(** [write8] is a 32-bit write of the old word with the byte lane replaced. *)
Lemma write8_rmw :
  0 <= value < 2 ^ 8 ->
  exists merged,
    write8 address value m = write32 (Z.land address (not32 3)) merged m
    /\ forall i, 0 <= i < 32 ->
         Z.testbit merged i
         = lane_merge (read32 m address) value (Z.land address 3 * 8) 8 i.
Proof.
  intros Hv. eexists. split; [reflexivity|]. intros i Hi.
  rewrite read32_aligned. change 0xFF with (Z.ones 8).
  apply merge_word_bit; try lia. apply lane_shift_nonneg.
Qed.

(** [write16] is a 32-bit write of the old word with the halfword lane
    replaced, on each of its three paths. *)
Lemma write16_rmw :
  0 <= value < 2 ^ 16 ->
  exists merged,
    write16 address value m = write32 (Z.land address (not32 3)) merged m
    /\ forall i, 0 <= i < 32 ->
         Z.testbit merged i
         = lane_merge (read32 m address) value (Z.land address 3 * 8) 16 i.
Proof.
  intros Hv. unfold write16.
  destruct (lane_of_address address)
    as [(-> & -> & ->)|[(-> & -> & ->)|[(-> & -> & ->)|(-> & -> & ->)]]];
    cbn [nz Z.eqb negb Z.mul Pos.mul];
    eexists; (split; [reflexivity|]); intros i Hi; rewrite read32_aligned.
  - change 0xFFFF0000 with (not32 (u32 (Z.shiftl (Z.ones 16) 0))).
    replace value with (u32 (Z.shiftl value 0)) at 1
      by (rewrite Z.shiftl_0_r; apply Z.mod_small; lia).
    apply merge_word_bit; lia.
  - change 0xFFFF with (Z.ones 16). apply merge_word_bit; lia.
  - change (Z.land (read32 m address) 0xFFFF)
      with (Z.land (read32 m address) (not32 (u32 (Z.shiftl (Z.ones 16) 16)))).
    apply merge_word_bit; lia.
  - change 0xFFFF with (Z.ones 16). apply merge_word_bit; lia.
Qed.

Hypothesis Hwritable : is_writable m (Z.land address (not32 3)) = true.

Lemma read32_after_merge (merged i : Z) :
  0 <= i < 32 ->
  Z.testbit (read32 (write32 (Z.land address (not32 3)) merged m) address) i
  = Z.testbit merged i.
Proof using Hwritable.
  intros Hi.
  rewrite read32_write32
    by (rewrite ?is_writable_aligned, ?align_idempotent; auto).
  rewrite Bits.testbit_u32.
  destruct (Z.ltb_spec i 32); [reflexivity | lia].
Qed.

Lemma write8_merges (i : Z) :
  0 <= value < 2 ^ 8 -> 0 <= i < 32 ->
  Z.testbit (read32 (write8 address value m) address) i
  = lane_merge (read32 m address) value (Z.land address 3 * 8) 8 i.
Proof using Hwritable.
  intros Hv Hi. destruct (write8_rmw Hv) as (merged & -> & Hbits).
  rewrite read32_after_merge by exact Hi. apply Hbits, Hi.
Qed.

Lemma write16_merges (i : Z) :
  0 <= value < 2 ^ 16 -> 0 <= i < 32 ->
  Z.testbit (read32 (write16 address value m) address) i
  = lane_merge (read32 m address) value (Z.land address 3 * 8) 16 i.
Proof using Hwritable.
  intros Hv Hi. destruct (write16_rmw Hv) as (merged & -> & Hbits).
  rewrite read32_after_merge by exact Hi. apply Hbits, Hi.
Qed.

End SubWord.

(** C6.  For every address and value, [write8] and [write16] are a read of
    the containing aligned 32-bit word followed by a 32-bit write of that
    word with the addressed lane replaced: the lane is 8 or 16 bits wide and
    starts at bit 8 * (address mod 4) (a halfword at address mod 4 = 3 is
    cut at bit 31), its bits are those of the value, and every other bit is
    the old one.  On a writable word the merged word is what is read back.
    A 32-bit write of 0xDEADBEEF to the start of working RAM reads back as
    0xDEADBEEF, and a 16-bit write of 0x1234 to the odd address one byte
    further turns the word [old] into (old & 0xFF0000FF) | 0x00123400, that
    is 0x00123400 over cleared RAM. *)
Theorem sub_word_writes_merge (m : GBAMemory) (address value : Z) :
  (0 <= value < 2 ^ 8 ->
   (exists merged,
      write8 address value m = write32 (Z.land address (not32 3)) merged m
      /\ forall i, 0 <= i < 32 ->
           Z.testbit merged i
           = lane_merge (read32 m address) value (Z.land address 3 * 8) 8 i)
   /\ (is_writable m (Z.land address (not32 3)) = true ->
       forall i, 0 <= i < 32 ->
         Z.testbit (read32 (write8 address value m) address) i
         = lane_merge (read32 m address) value (Z.land address 3 * 8) 8 i))
  /\ (0 <= value < 2 ^ 16 ->
      (exists merged,
         write16 address value m = write32 (Z.land address (not32 3)) merged m
         /\ forall i, 0 <= i < 32 ->
              Z.testbit merged i
              = lane_merge (read32 m address) value (Z.land address 3 * 8) 16 i)
      /\ (is_writable m (Z.land address (not32 3)) = true ->
          forall i, 0 <= i < 32 ->
            Z.testbit (read32 (write16 address value m) address) i
            = lane_merge (read32 m address) value (Z.land address 3 * 8) 16 i))
  /\ read32 (write32 EWRAM_START 0xDEADBEEF m) EWRAM_START = 0xDEADBEEF
  /\ read32 (write16 (EWRAM_START + 1) 0x1234 m) EWRAM_START
     = Z.lor (Z.land (read32 m EWRAM_START) 0xFF0000FF) 0x00123400
  /\ read32 (write16 (EWRAM_START + 1) 0x1234 (GBAMemory_reset m)) EWRAM_START
     = 0x00123400.
Proof.
  split.
  { intros Hv. split; [apply write8_rmw, Hv|].
    intros Hw i Hi. apply write8_merges; assumption. }
  split.
  { intros Hv. split; [apply write16_rmw, Hv|].
    intros Hw i Hi. apply write16_merges; assumption. }
  split; [apply read32_write32; reflexivity|].
  split; [| vm_compute; reflexivity].
  unfold write16. change (nz (Z.land (EWRAM_START + 1) 1)) with true. cbn iota.
  rewrite read32_write32 by reflexivity.
  change (Z.land (EWRAM_START + 1) (not32 3)) with EWRAM_START.
  change (not32 (u32 (Z.shiftl 65535 (Z.land (EWRAM_START + 1) 3 * 8))))
    with 0xFF0000FF.
  change (u32 (Z.shiftl 4660 (Z.land (EWRAM_START + 1) 3 * 8))) with 0x00123400.
  apply Z.bits_inj'. intros n Hn.
  rewrite Bits.testbit_u32, Z.lor_spec, Z.land_spec.
  destruct (Z.ltb_spec n 32); [reflexivity|].
  rewrite (testbit_below 0xFF0000FF 32 n), (testbit_below 0x00123400 32 n) by lia.
  rewrite andb_false_r. reflexivity.
Qed.

Lemma sub_word_writes_merge_witness :
  0 <= 0x1234 < 2 ^ 16
  /\ is_writable (memory GBASystem_new) (Z.land 0x02000003 (not32 3)) = true
  /\ Z.testbit (read32 (write16 0x02000003 0x1234 (memory GBASystem_new))
                       0x02000003) 26
     = lane_merge (read32 (memory GBASystem_new) 0x02000003) 0x1234
                  (Z.land 0x02000003 3 * 8) 16 26.
Proof.
  assert (Hv : 0 <= 0x1234 < 2 ^ 16) by lia.
  split; [exact Hv|]. split; [reflexivity|].
  destruct (sub_word_writes_merge (memory GBASystem_new) 0x02000003 0x1234)
    as (_ & H & _).
  destruct (H Hv) as (_ & Hread).
  apply Hread; [reflexivity | lia].
Defined.

(** * Further properties of the code *)

(** ** The bus: unmapped space, discarded writes, other words *)

(** X1.  A read of a word that lies in no region returns zero, whatever
    the width of the read. *)
Theorem unmapped_reads_zero (m : GBAMemory) (address : Z) :
  is_readable m (Z.land address (not32 3)) = false ->
  read32 m address = 0 /\ read16 m address = 0 /\ read8 m address = 0.
Proof.
  intros Hr.
  assert (H32 : forall a, Z.land a (not32 3) = Z.land address (not32 3) ->
                          read32 m a = 0).
  { intros a Ha. unfold read32. rewrite Ha.
    unfold is_readable in Hr. rewrite !orb_false_iff in Hr.
    destruct Hr as (((((((-> & ->) & ->) & ->) & ->) & ->) & ->) & ->).
    reflexivity. }
  split; [apply H32; reflexivity|].
  unfold read16, read8.
  rewrite (H32 (Z.land address (not32 3))) by apply align_idempotent.
  split.
  - destruct (nz (Z.land address 2)); reflexivity.
  - rewrite Z.shiftr_0_l. reflexivity.
Qed.

Lemma unmapped_reads_zero_witness :
  is_readable (memory sys_undefined_word) (Z.land 0x08000004 (not32 3)) = false
  /\ read16 (memory sys_undefined_word) 0x08000004 = 0.
Proof.
  split; [reflexivity|].
  destruct (unmapped_reads_zero (memory sys_undefined_word) 0x08000004 eq_refl)
    as (_ & H & _).
  exact H.
Defined.

(** X2.  A write of any width to a word outside the six writable regions
    (BIOS, cartridge, unmapped space) leaves the whole memory as it was. *)
Theorem read_only_writes_discarded (m : GBAMemory) (address value : Z) :
  is_writable m (Z.land address (not32 3)) = false ->
  write32 address value m = m
  /\ write16 address value m = m
  /\ write8 address value m = m.
Proof.
  intros Hw.
  assert (H : forall v, write32 (Z.land address (not32 3)) v m = m).
  { intros v. apply write32_discarded. rewrite align_idempotent. exact Hw. }
  split; [apply write32_discarded, Hw|]. split.
  - unfold write16.
    destruct (nz (Z.land address 1)); [apply H|].
    destruct (nz (Z.land address 2)); apply H.
  - unfold write8. apply H.
Qed.

Lemma read_only_writes_discarded_witness :
  is_writable (memory sys_undefined_word) (Z.land 0x08000001 (not32 3)) = false
  /\ write8 0x08000001 0xAB (memory sys_undefined_word)
     = memory sys_undefined_word.
Proof.
  split; [reflexivity|].
  destruct (read_only_writes_discarded (memory sys_undefined_word)
              0x08000001 0xAB eq_refl) as (_ & _ & H).
  exact H.
Defined.

(** An aligned address is a multiple of four below 2^32. *)
Lemma aligned_multiple (a : Z) :
  exists k, Z.land a (not32 3) = 4 * k /\ 0 <= k < 2 ^ 30.
Proof.
  set (x := Z.land a (not32 3)).
  assert (Hlow : Z.land x 3 = 0).
  { unfold x. rewrite <- Z.land_assoc. change (Z.land (not32 3) 3) with 0.
    apply Z.land_0_r. }
  assert (Hmod : x mod 4 = 0).
  { change 4 with (2 ^ 2). rewrite <- Z.land_ones by lia. exact Hlow. }
  assert (Hrange : 0 <= x < 2 ^ 32).
  { unfold x. split.
    - apply Z.land_nonneg. right. vm_compute. discriminate.
    - assert (Hb : Z.land a (not32 3) = Z.land a (not32 3) mod 2 ^ 32).
      { apply Z.bits_inj'. intros n Hn.
        change (Z.land a (not32 3) mod 2 ^ 32) with (u32 (Z.land a (not32 3))).
        rewrite Bits.testbit_u32, Z.land_spec, Bits.testbit_not32 by lia.
        destruct (n <? 32); cbn; rewrite ?andb_false_r; reflexivity. }
      rewrite Hb. apply Z.mod_pos_bound. lia. }
  exists (x / 4). split.
  - pose proof (Z.div_mod x 4 ltac:(lia)). lia.
  - split; [apply Z.div_pos; lia|]. apply Z.div_lt_upper_bound; lia.
Qed.

Lemma load32_store32_other (a : byte_array) (off off' value : Z) :
  off' + 3 < off \/ off + 3 < off' ->
  load32 (store32 off value a) off' = load32 a off'.
Proof.
  intros H. unfold load32, store32.
  repeat match goal with
         | |- context [?x =? ?y] => destruct (Z.eqb_spec x y); [lia|]
         end.
  reflexivity.
Qed.

(** X3.  A 32-bit write changes one aligned word: every other word, in
    any region, reads as before. *)
Theorem write32_other_words (m : GBAMemory) (address address' value : Z) :
  Z.land address' (not32 3) <> Z.land address (not32 3) ->
  read32 (write32 address value m) address' = read32 m address'.
Proof.
  intros Hne. unfold read32, write32.
  destruct (aligned_multiple address) as (k & Hk & _).
  destruct (aligned_multiple address') as (k' & Hk' & _).
  set (x := Z.land address (not32 3)) in *.
  set (y := Z.land address' (not32 3)) in *.
  assert (Hfar : forall s, (y - s) + 3 < x - s \/ (x - s) + 3 < y - s) by lia.
  destruct (in_region x EWRAM_START EWRAM_SIZE);
    [| destruct (in_region x IWRAM_START IWRAM_SIZE);
      [| destruct (in_region x IO_START IO_SIZE);
        [| destruct (in_region x PALETTE_START PALETTE_SIZE);
          [| destruct (in_region x VRAM_START VRAM_SIZE);
            [| destruct (in_region x OAM_START OAM_SIZE)]]]]];
    cbn;
    repeat match goal with
           | |- context [if in_region y ?s ?z then _ else _] =>
               destruct (in_region y s z)
           end;
    try reflexivity; apply load32_store32_other, Hfar.
Qed.

Lemma write32_other_words_witness :
  Z.land 0x02000004 (not32 3) <> Z.land 0x02000001 (not32 3)
  /\ read32 (write32 0x02000001 7 (memory sys_undefined_word)) 0x02000004
     = read32 (memory sys_undefined_word) 0x02000004.
Proof.
  assert (H : Z.land 0x02000004 (not32 3) <> Z.land 0x02000001 (not32 3))
    by (vm_compute; discriminate).
  split; [exact H|].
  apply (write32_other_words (memory sys_undefined_word) 0x02000001
           0x02000004 7), H.
Defined.

(** ** The bus: bytes and halfwords *)

(** An address is its aligned word plus its lane. *)
Lemma address_split (a : Z) :
  0 <= a < 2 ^ 32 -> a = Z.land a (not32 3) + Z.land a 3.
Proof.
  intros Ha.
  assert (Hhi : Z.land a (not32 3) = Z.shiftl (Z.shiftr a 2) 2).
  { apply Z.bits_inj'. intros n Hn.
    rewrite Z.land_spec, Bits.testbit_not32, Z.shiftl_spec by lia.
    destruct (Z.ltb_spec n 2).
    - rewrite (Z.testbit_neg_r _ (n - 2)) by lia.
      change 3 with (Z.ones 2). rewrite Z.ones_spec_low by lia.
      rewrite andb_false_r. apply andb_false_r.
    - rewrite Z.shiftr_spec by lia. replace (n - 2 + 2) with n by lia.
      change 3 with (Z.ones 2). rewrite Z.ones_spec_high by lia.
      destruct (Z.ltb_spec n 32); cbn; [apply andb_true_r|].
      rewrite (testbit_below a 32 n) by lia. reflexivity. }
  rewrite Hhi, Z.shiftl_mul_pow2, Z.shiftr_div_pow2 by lia.
  change 3 with (Z.ones 2). rewrite Z.land_ones by lia.
  pose proof (Z.div_mod a (2 ^ 2) ltac:(lia)). lia.
Qed.

Lemma lane_range (a : Z) : 0 <= Z.land a 3 < 4.
Proof.
  change 3 with (Z.ones 2). rewrite Z.land_ones by lia.
  apply Z.mod_pos_bound. lia.
Qed.

Lemma testbit_u8 (x i : Z) : Z.testbit (u8 x) i = (i <? 8) && Z.testbit x i.
Proof.
  unfold u8. destruct (Z.ltb_spec i 8).
  - destruct (Z.le_gt_cases 0 i).
    + rewrite Z.mod_pow2_bits_low by lia. reflexivity.
    + rewrite !Z.testbit_neg_r by lia. reflexivity.
  - rewrite Z.mod_pow2_bits_high by lia. reflexivity.
Qed.

(** The bytes [read8] takes out of a word. *)
Lemma read8_bit (m : GBAMemory) (address j : Z) :
  0 <= j ->
  Z.testbit (read8 m address) j
  = (j <? 8) && Z.testbit (read32 m address) (j + Z.land address 3 * 8).
Proof.
  intros Hj. unfold read8.
  pose proof (lane_range address).
  rewrite testbit_u8, testbit_byte, read32_aligned by lia.
  destruct (Z.leb_spec 0 j); [|lia].
  destruct (j <? 8); reflexivity.
Qed.

(** [read32] sees the aligned word only. *)
Lemma read32_same_word (m : GBAMemory) (a a' : Z) :
  Z.land a' (not32 3) = Z.land a (not32 3) -> read32 m a' = read32 m a.
Proof. intros H. unfold read32. rewrite H. reflexivity. Qed.

(** X4.  Bytes are stored one at a time: after [write8] to a writable
    address, [read8] returns the written value at that address and the old
    byte at every other address. *)
Theorem read8_write8 (m : GBAMemory) (address address' value : Z) :
  is_writable m (Z.land address (not32 3)) = true ->
  0 <= address < 2 ^ 32 -> 0 <= address' < 2 ^ 32 -> 0 <= value < 2 ^ 8 ->
  read8 (write8 address value m) address'
  = if address' =? address then value else read8 m address'.
Proof.
  intros Hw Ha Ha' Hv.
  pose proof (lane_range address) as Hl. pose proof (lane_range address') as Hl'.
  destruct (Z.eq_dec (Z.land address' (not32 3)) (Z.land address (not32 3)))
    as [Hsame | Hother].
  - apply Z.bits_inj'. intros j Hj.
    rewrite read8_bit by lia.
    rewrite (read32_same_word _ address address') by exact Hsame.
    destruct (Z.ltb_spec j 8) as [Hj8|Hj8]; cbn [andb].
    + rewrite (write8_merges m address value Hw) by lia.
      unfold lane_merge.
      pose proof (address_split address Ha).
      pose proof (address_split address' Ha').
      destruct (Z.eqb_spec address' address) as [->|Hne].
      * destruct (Z.leb_spec (Z.land address 3 * 8) (j + Z.land address 3 * 8));
          [|lia].
        destruct (Z.ltb_spec (j + Z.land address 3 * 8)
                             (Z.land address 3 * 8 + 8)); [|lia].
        cbn [andb]. f_equal. lia.
      * assert (Z.land address' 3 <> Z.land address 3) by lia.
        rewrite read8_bit by lia.
        rewrite (read32_same_word _ address address') by exact Hsame.
        destruct (Z.ltb_spec j 8); [|lia]. cbn [andb].
        destruct (Z.leb_spec (Z.land address 3 * 8) (j + Z.land address' 3 * 8));
          destruct (Z.ltb_spec (j + Z.land address' 3 * 8)
                               (Z.land address 3 * 8 + 8));
          cbn [andb]; try reflexivity; lia.
    + destruct (Z.eqb_spec address' address).
      * symmetry. apply (testbit_below value 8); lia.
      * rewrite read8_bit by lia.
        destruct (Z.ltb_spec j 8); [lia | reflexivity].
  - destruct (Z.eqb_spec address' address) as [->|_]; [contradiction|].
    unfold read8 at 1. unfold write8.
    rewrite write32_other_words by (rewrite !align_idempotent; exact Hother).
    reflexivity.
Qed.

Lemma read8_write8_witness :
  read8 (write8 0x03000002 0x5A (memory GBASystem_new)) 0x03000002 = 0x5A
  /\ read8 (write8 0x03000002 0x5A (memory GBASystem_new)) 0x03000003
     = read8 (memory GBASystem_new) 0x03000003.
Proof.
  split.
  - apply (read8_write8 (memory GBASystem_new) 0x03000002 0x03000002 0x5A);
      [reflexivity | lia | lia | lia].
  - apply (read8_write8 (memory GBASystem_new) 0x03000002 0x03000003 0x5A);
      [reflexivity | lia | lia | lia].
Defined.

(** The word and the lane of an address written as [4 * k + r]. *)
Lemma split_unique (b k r : Z) :
  0 <= b < 2 ^ 32 -> b = 4 * k + r -> 0 <= r < 4 ->
  Z.land b (not32 3) = 4 * k /\ Z.land b 3 = r.
Proof.
  intros Hb Hsplit Hr.
  pose proof (address_split b Hb). pose proof (lane_range b).
  destruct (aligned_multiple b) as (k' & Hk' & _). lia.
Qed.

(** X5.  [write16] stores the two bytes of the value at [address] and
    [address + 1] when both lie in the addressed aligned word; at an address
    with [address mod 4 = 3] only the low byte is stored, and the byte at
    [address + 1], which belongs to the next word, keeps its old value.  All
    other bytes are unchanged. *)
Theorem write16_bytes (m : GBAMemory) (address address' value : Z) :
  is_writable m (Z.land address (not32 3)) = true ->
  0 <= address < 2 ^ 32 -> 0 <= address' < 2 ^ 32 -> 0 <= value < 2 ^ 16 ->
  read8 (write16 address value m) address'
  = if address' =? address then Z.land value 0xFF
    else if (address' =? address + 1) && negb (Z.land address 3 =? 3)
         then Z.shiftr value 8
         else read8 m address'.
Proof.
  intros Hw Ha Ha' Hv.
  pose proof (lane_range address) as Hl. pose proof (lane_range address') as Hl'.
  pose proof (address_split address Ha) as Hs.
  pose proof (address_split address' Ha') as Hs'.
  destruct (aligned_multiple address) as (k & Hk & _).
  destruct (aligned_multiple address') as (k' & Hk' & _).
  destruct (Z.eq_dec (Z.land address' (not32 3)) (Z.land address (not32 3)))
    as [Hsame | Hother].
  - apply Z.bits_inj'. intros j Hj.
    rewrite read8_bit by lia.
    rewrite (read32_same_word _ address address') by exact Hsame.
    destruct (Z.ltb_spec j 8) as [Hj8|Hj8]; cbn [andb].
    + rewrite (write16_merges m address value Hw) by lia.
      unfold lane_merge.
      destruct (Z.eqb_spec address' address) as [->|Hne].
      * destruct (Z.leb_spec (Z.land address 3 * 8) (j + Z.land address 3 * 8));
          [|lia].
        destruct (Z.ltb_spec (j + Z.land address 3 * 8)
                             (Z.land address 3 * 8 + 16)); [|lia].
        cbn [andb]. change 0xFF with (Z.ones 8).
        rewrite Z.land_spec, Z.ones_spec_low, andb_true_r by lia.
        f_equal. lia.
      * destruct (Z.eqb_spec address' (address + 1)) as [Hnext|Hnn].
        -- assert (Hlane : Z.land address' 3 = Z.land address 3 + 1) by lia.
           destruct (Z.eqb_spec (Z.land address 3) 3); [lia|]. cbn [andb negb].
           rewrite Hlane, Z.shiftr_spec by lia.
           destruct (Z.leb_spec (Z.land address 3 * 8)
                                (j + (Z.land address 3 + 1) * 8)); [|lia].
           destruct (Z.ltb_spec (j + (Z.land address 3 + 1) * 8)
                                (Z.land address 3 * 8 + 16)); [|lia].
           cbn [andb]. f_equal. lia.
        -- cbn [andb].
           assert (Z.land address' 3 <> Z.land address 3) by lia.
           assert (Z.land address' 3 <> Z.land address 3 + 1) by lia.
           rewrite read8_bit by lia.
           rewrite (read32_same_word _ address address') by exact Hsame.
           destruct (Z.ltb_spec j 8); [|lia]. cbn [andb].
           destruct (Z.leb_spec (Z.land address 3 * 8)
                                (j + Z.land address' 3 * 8));
             destruct (Z.ltb_spec (j + Z.land address' 3 * 8)
                                  (Z.land address 3 * 8 + 16));
             cbn [andb]; try reflexivity; lia.
    + destruct (Z.eqb_spec address' address).
      * change 0xFF with (Z.ones 8).
        rewrite Z.land_spec, Z.ones_spec_high by lia. symmetry. apply andb_false_r.
      * destruct ((address' =? address + 1) && negb (Z.land address 3 =? 3)).
        -- rewrite Z.shiftr_spec by lia. symmetry.
           apply (testbit_below value 16); lia.
        -- rewrite read8_bit by lia.
           destruct (Z.ltb_spec j 8); [lia | reflexivity].
  - destruct (Z.eqb_spec address' address) as [->|_]; [contradiction|].
    assert (Hcond : (address' =? address + 1) && negb (Z.land address 3 =? 3)
                    = false).
    { destruct (Z.eqb_spec address' (address + 1)); [|reflexivity].
      destruct (Z.eqb_spec (Z.land address 3) 3); [reflexivity | lia]. }
    rewrite Hcond.
    destruct (write16_rmw m address value Hv) as (merged & -> & _).
    unfold read8 at 1.
    rewrite write32_other_words by (rewrite !align_idempotent; exact Hother).
    reflexivity.
Qed.

Lemma write16_bytes_witness :
  read8 (write16 0x02000003 0x1234 (memory GBASystem_new)) 0x02000003 = 0x34
  /\ read8 (write16 0x02000003 0x1234 (memory GBASystem_new)) 0x02000004
     = read8 (memory GBASystem_new) 0x02000004
  /\ read8 (write16 0x02000001 0x1234 (memory GBASystem_new)) 0x02000002 = 0x12.
Proof.
  split; [|split].
  - apply (write16_bytes (memory GBASystem_new) 0x02000003 0x02000003 0x1234);
      [reflexivity | lia | lia | lia].
  - apply (write16_bytes (memory GBASystem_new) 0x02000003 0x02000004 0x1234);
      [reflexivity | lia | lia | lia].
  - apply (write16_bytes (memory GBASystem_new) 0x02000001 0x02000002 0x1234);
      [reflexivity | lia | lia | lia].
Defined.

Lemma testbit_ones_range (n i : Z) :
  0 <= n -> Z.testbit (Z.ones n) i = (0 <=? i) && (i <? n).
Proof.
  intros Hn. destruct (Z.leb_spec 0 i); cbn [andb].
  - destruct (Z.ltb_spec i n);
      [apply Z.ones_spec_low | apply Z.ones_spec_high]; lia.
  - apply Z.testbit_neg_r. lia.
Qed.

(** The halfword [read16] takes out of a word. *)
Lemma read16_bit (m : GBAMemory) (address j : Z) :
  0 <= j ->
  Z.testbit (read16 m address) j
  = (j <? 16) && Z.testbit (read32 m address) (j + Z.land address 2 * 8).
Proof.
  intros Hj. unfold read16. rewrite Bits.testbit_u16, read32_aligned.
  destruct (Z.ltb_spec j 16); [|reflexivity]. cbn [andb].
  destruct (lane_of_address address)
    as [(_ & _ & ->)|[(_ & _ & ->)|[(_ & _ & ->)|(_ & _ & ->)]]];
    cbn [nz negb Z.eqb Z.mul Pos.mul].
  - change 0xFFFF with (Z.ones 16).
    rewrite Z.land_spec, Z.ones_spec_low, Z.add_0_r by lia. apply andb_true_r.
  - change 0xFFFF with (Z.ones 16).
    rewrite Z.land_spec, Z.ones_spec_low, Z.add_0_r by lia. apply andb_true_r.
  - rewrite Z.shiftr_spec by lia. reflexivity.
  - rewrite Z.shiftr_spec by lia. reflexivity.
Qed.

(** X6.  A halfword written to an even writable address is read back by
    [read16] at that address; written to an odd address it is not: the
    read returns the aligned halfword, whose upper byte is the value's low
    byte when [address mod 4 = 1]. *)
Theorem read16_write16 (m : GBAMemory) (address value : Z) :
  is_writable m (Z.land address (not32 3)) = true ->
  0 <= value < 2 ^ 16 ->
  (Z.land address 1 = 0 -> read16 (write16 address value m) address = value)
  /\ (Z.land address 3 = 1 ->
      read16 (write16 address value m) address
      = Z.lor (Z.land (read32 m address) 0xFF)
              (Z.shiftl (Z.land value 0xFF) 8)).
Proof.
  intros Hw Hv. split.
  - intros Heven. apply Z.bits_inj'. intros j Hj.
    rewrite read16_bit by lia.
    destruct (Z.ltb_spec j 16) as [Hj16|Hj16]; cbn [andb].
    + assert (H2 : Z.land address 2 = 0 \/ Z.land address 2 = 2).
      { destruct (lane_of_address address)
          as [(_ & _ & H)|[(_ & _ & H)|[(_ & _ & H)|(_ & _ & H)]]]; lia. }
      rewrite (write16_merges m address value Hw) by lia.
      unfold lane_merge. clear H2.
      destruct (lane_of_address address)
        as [(-> & _ & ->)|[(_ & H1 & _)|[(-> & _ & ->)|(_ & H1 & _)]]];
        try lia; case_bounds; cbn [andb]; f_equal; lia.
    + symmetry. apply (testbit_below value 16); lia.
  - intros Hodd. apply Z.bits_inj'. intros j Hj.
    rewrite read16_bit by lia.
    assert (H2 : Z.land address 2 = 0).
    { destruct (lane_of_address address)
        as [(H3 & _)|[(_ & _ & H2)|[(H3 & _)|(H3 & _)]]]; lia. }
    rewrite H2, Z.lor_spec, Z.shiftl_spec, !Z.land_spec by lia.
    change 0xFF with (Z.ones 8). rewrite !testbit_ones_range by lia.
    destruct (Z.ltb_spec j 16) as [Hj16|Hj16]; cbn [andb].
    + rewrite (write16_merges m address value Hw) by lia.
      unfold lane_merge. rewrite Hodd.
      case_bounds; cbn [andb orb];
        rewrite ?andb_true_r, ?andb_false_r, ?orb_false_r, ?orb_false_l;
        first [reflexivity | f_equal; lia].
    + case_bounds; cbn [andb orb];
        rewrite ?andb_true_r, ?andb_false_r, ?orb_false_r; reflexivity.
Qed.

Lemma read16_write16_witness :
  read16 (write16 0x02000002 0xBEEF (memory GBASystem_new)) 0x02000002 = 0xBEEF
  /\ read16 (write16 0x02000001 0xBEEF (memory GBASystem_new)) 0x02000001
     = Z.lor (Z.land (read32 (memory GBASystem_new) 0x02000001) 0xFF)
             (Z.shiftl (Z.land 0xBEEF 0xFF) 8).
Proof.
  assert (Hv : 0 <= 0xBEEF < 2 ^ 16) by lia.
  split.
  - destruct (read16_write16 (memory GBASystem_new) 0x02000002 0xBEEF
                eq_refl Hv) as (H & _).
    apply H. reflexivity.
  - destruct (read16_write16 (memory GBASystem_new) 0x02000001 0xBEEF
                eq_refl Hv) as (_ & H).
    apply H. reflexivity.
Defined.

(** An unaligned halfword read does not fault and does not cross into
    the next halfword: at an odd address [read16] returns the halfword of the
    even address below it, which is made of the two bytes [read8] returns
    there. *)
Theorem read16_realigned (m : GBAMemory) (address : Z) :
  0 <= address < 2 ^ 32 -> Z.land address 1 = 0 ->
  read16 m (address + 1) = read16 m address
  /\ read16 m address
     = Z.lor (read8 m address) (Z.shiftl (read8 m (address + 1)) 8).
Proof.
  intros Ha Heven.
  pose proof (address_split address Ha) as Hs.
  destruct (aligned_multiple address) as (k & Hk & Hkr).
  assert (Hlane : (Z.land address 3 = 0 /\ Z.land address 2 = 0)
                  \/ (Z.land address 3 = 2 /\ Z.land address 2 = 2)).
  { destruct (lane_of_address address)
      as [(H3 & _ & H2)|[(_ & H1 & _)|[(H3 & _ & H2)|(_ & H1 & _)]]]; lia. }
  assert (Ha1 : 0 <= address + 1 < 2 ^ 32) by lia.
  destruct (split_unique (address + 1) k (Z.land address 3 + 1) Ha1)
    as (Hw1 & Hl1); [lia | lia |].
  assert (H21 : Z.land (address + 1) 2 = Z.land address 2).
  { destruct (lane_of_address (address + 1))
      as [(H3 & _ & H2)|[(H3 & _ & H2)|[(H3 & _ & H2)|(H3 & _ & H2)]]]; lia. }
  assert (Hword : read32 m (address + 1) = read32 m address)
    by (apply read32_same_word; lia).
  split.
  - apply Z.bits_inj'. intros j Hj.
    rewrite !read16_bit, Hword, H21 by lia. reflexivity.
  - apply Z.bits_inj'. intros j Hj.
    rewrite Z.lor_spec, Z.shiftl_spec, read16_bit, read8_bit by lia.
    destruct (Z.ltb_spec j 8).
    + rewrite (Z.testbit_neg_r _ (j - 8)) by lia.
      destruct (Z.ltb_spec j 16); [|lia]. cbn [andb]. rewrite orb_false_r.
      f_equal. lia.
    + rewrite read8_bit, Hword, Hl1 by lia. cbn [andb orb].
      destruct (Z.ltb_spec j 16); destruct (Z.ltb_spec (j - 8) 8); try lia;
        cbn [andb]; first [reflexivity | f_equal; lia].
Qed.

Lemma read16_realigned_witness :
  read16 (write32 0x02000000 0xDEADBEEF (memory GBASystem_new)) (0x02000002 + 1)
  = read16 (write32 0x02000000 0xDEADBEEF (memory GBASystem_new)) 0x02000002.
Proof.
  apply (read16_realigned (write32 0x02000000 0xDEADBEEF (memory GBASystem_new))
           0x02000002); [lia | reflexivity].
Defined.

(** X7.  [GBAMemory::reset] zeroes the six writable regions and nothing
    else: afterwards a writable word reads 0, and a word of the BIOS, of the
    cartridge or of unmapped space reads as before. *)
Theorem memory_reset_clears (m : GBAMemory) (address : Z) :
  read32 (GBAMemory_reset m) address
  = if is_writable m (Z.land address (not32 3)) then 0 else read32 m address.
Proof.
  unfold read32, is_writable, GBAMemory_reset.
  set (x := Z.land address (not32 3)).
  cbn [rom bios ewram iwram io_registers palette vram oam set_oam set_vram
       set_palette set_io_registers set_iwram set_ewram].
  destruct (in_region x BIOS_START BIOS_SIZE) eqn:EB.
  - assert (Hno : forall s z, 0x02000000 <= s -> in_region x s z = false).
    { intros s z Hs. revert EB. unfold in_region, BIOS_START, BIOS_SIZE.
      rewrite andb_true_iff, andb_false_iff, Z.leb_le, Z.ltb_lt, Z.leb_gt.
      lia. }
    rewrite !Hno by (vm_compute; discriminate). reflexivity.
  - repeat match goal with
           | |- context [if in_region x ?s ?z then _ else _] =>
               destruct (in_region x s z)
           end; reflexivity.
Qed.

(** ** The interrupt controller *)

(** X8.  A request with a valid type (0..13) sets exactly that bit of the
    request flags and touches nothing else; a request with any other type
    leaves the CPU, the memory and all three interrupt registers as they
    were and only reports the type. *)
Theorem request_interrupt_effect (interrupt_type : Z) (g : GBASystem) :
  (0 <= interrupt_type <= 13 ->
   (forall i, 0 <= i < 16 ->
      Z.testbit (interrupt_flags (request_interrupt interrupt_type g)) i
      = Z.testbit (interrupt_flags g) i || (i =? interrupt_type))
   /\ console (request_interrupt interrupt_type g) = console g)
  /\ (interrupt_type < 0 \/ 13 < interrupt_type ->
      interrupt_flags (request_interrupt interrupt_type g) = interrupt_flags g
      /\ console (request_interrupt interrupt_type g)
         = console g ++ [LogInvalidInterrupt interrupt_type])
  /\ cpu (request_interrupt interrupt_type g) = cpu g
  /\ memory (request_interrupt interrupt_type g) = memory g
  /\ interrupt_enable (request_interrupt interrupt_type g) = interrupt_enable g
  /\ interrupt_master (request_interrupt interrupt_type g) = interrupt_master g.
Proof.
  unfold request_interrupt.
  destruct (Z.ltb_spec interrupt_type 0) as [Hlo|Hlo];
    destruct (Z.gtb_spec interrupt_type 13) as [Hhi|Hhi]; cbn [orb];
    (split; [intros Hv; try lia | split; [intros Hv; try lia|]]);
    try (repeat split; fail).
  split; [|reflexivity]. intros i Hi. cbn.
  rewrite Bits.testbit_u16, Z.lor_spec, Z.shiftl_1_l, Z.pow2_bits_eqb by lia.
  destruct (Z.ltb_spec i 16); [|lia]. cbn [andb].
  rewrite (Z.eqb_sym interrupt_type i). reflexivity.
Qed.

Lemma request_interrupt_effect_witness :
  Z.testbit (interrupt_flags (request_interrupt 3 sys_irq_pending)) 3 = true
  /\ interrupt_flags (request_interrupt 14 sys_irq_pending)
     = interrupt_flags sys_irq_pending.
Proof.
  destruct (request_interrupt_effect 3 sys_irq_pending) as (Hvalid & _).
  destruct (request_interrupt_effect 14 sys_irq_pending) as (_ & Hinvalid & _).
  split.
  - destruct Hvalid as (Hbit & _); [lia|].
    rewrite Hbit by lia. apply orb_true_r.
  - destruct Hinvalid as (Hflags & _); [lia|]. exact Hflags.
Defined.

(** A number is zero iff none of its bits is set. *)
Lemma nonzero_has_bit (x : Z) :
  x <> 0 <-> exists i, 0 <= i /\ Z.testbit x i = true.
Proof.
  split.
  - intros Hx. destruct (Z.lt_trichotomy x 0) as [Hneg|[H0|Hpos]].
    + exists (Z.succ (Z.log2 (Z.abs x))). split.
      * pose proof (Z.log2_nonneg (Z.abs x)). lia.
      * apply Z.bits_iff_neg; lia.
    + contradiction.
    + exists (Z.log2 x). split; [apply Z.log2_nonneg|].
      apply Z.bit_log2, Hpos.
  - intros (i & Hi & Hb) ->. rewrite Z.bits_0 in Hb. discriminate.
Qed.

(** [has_pending_interrupts] answers true exactly when the master
    enable bit is set and some interrupt is both requested and enabled. *)
Theorem has_pending_interrupts_iff (g : GBASystem) :
  has_pending_interrupts g = true <->
  Z.testbit (interrupt_master g) 0 = true
  /\ exists i, 0 <= i /\ Z.testbit (interrupt_flags g) i = true
               /\ Z.testbit (interrupt_enable g) i = true.
Proof.
  unfold has_pending_interrupts.
  change 1 with (Z.shiftl 1 0). rewrite Bits.nz_land_pow2 by lia.
  destruct (Z.testbit (interrupt_master g) 0); cbn [negb].
  - rewrite negb_true_iff, Z.eqb_neq, nonzero_has_bit. split.
    + intros (i & Hi & Hb). rewrite Z.land_spec, andb_true_iff in Hb.
      split; [reflexivity|]. exists i. tauto.
    + intros (_ & i & Hi & Hf & He). exists i. split; [exact Hi|].
      rewrite Z.land_spec, Hf, He. reflexivity.
  - split; [discriminate | intros (H & _); discriminate].
Qed.

(** X9.  Request and acknowledge compose: after interrupt [t] is requested,
    a halfword write of [1 << t] to the request-flags register clears that
    flag and leaves every other pending flag set. *)
Theorem request_then_acknowledge (t i : Z) (g : GBASystem) :
  0 <= t <= 13 -> 0 <= i < 16 ->
  Z.testbit
    (interrupt_flags
       (write_io_register16 REG_IF (Z.shiftl 1 t) (request_interrupt t g))) i
  = Z.testbit (interrupt_flags g) i && negb (i =? t).
Proof.
  intros Ht Hi. unfold write_io_register16. rewrite Z.eqb_refl.
  change (REG_IF =? REG_IE) with false.
  cbn [interrupt_flags set_interrupt_flags].
  rewrite acknowledge_bit by lia.
  destruct (request_interrupt_effect t g) as (Hvalid & _).
  destruct (Hvalid Ht) as (Hbit & _). rewrite Hbit by lia.
  rewrite Z.shiftl_1_l, Z.pow2_bits_eqb, (Z.eqb_sym t i) by lia.
  destruct (Z.testbit (interrupt_flags g) i), (i =? t); reflexivity.
Qed.

Lemma request_then_acknowledge_witness :
  Z.testbit
    (interrupt_flags
       (write_io_register16 REG_IF (Z.shiftl 1 2)
          (request_interrupt 2 sys_irq_pending))) 0
  = Z.testbit (interrupt_flags sys_irq_pending) 0 && negb (0 =? 2).
Proof. apply (request_then_acknowledge 2 0 sys_irq_pending); lia. Defined.

Lemma has_pending_interrupts_iff_witness :
  has_pending_interrupts sys_irq_pending = true.
Proof.
  apply (has_pending_interrupts_iff sys_irq_pending).
  split; [reflexivity|]. exists 0. repeat split; lia.
Defined.

(** ** The I/O register file *)

(** X10.  The halfword registers that are stored as given read back what
    was written: interrupt enable, display control and the twelve background
    control and scroll registers. *)
Theorem stored_halfword_round_trip (address value : Z) (g : GBASystem) :
  In address stored_halfword_registers ->
  wf_ppu (ppu g) ->
  read_io_register16 address (write_io_register16 address value g) = value.
Proof.
  intros Hin (Hc & Hx & Hy). unfold stored_halfword_registers in Hin.
  cbn [In] in Hin.
  repeat (destruct Hin as [<- | Hin];
          [cbn; rewrite ?list_lookup_total_insert_eq by lia; reflexivity|]).
  contradiction.
Qed.

Lemma stored_halfword_round_trip_witness :
  read_io_register16 0x04000012
    (write_io_register16 0x04000012 0x01FF GBASystem_new) = 0x01FF.
Proof.
  apply (stored_halfword_round_trip 0x04000012 0x01FF GBASystem_new).
  - cbn. tauto.
  - repeat split.
Defined.

(** X11.  The request-flags and display-status registers are not stored as
    given.  A halfword written to the request flags reads back as the old
    flags with the written bits cleared; a halfword written to display
    status keeps the three status bits and takes the other thirteen from
    the value, whereas a byte written to its low half clears the three
    status bits. *)
Theorem special_register_writes (value i : Z) (g : GBASystem) :
  0 <= i < 16 ->
  Z.testbit (read_io_register16 REG_IF (write_io_register16 REG_IF value g)) i
  = Z.testbit (interrupt_flags g) i && negb (Z.testbit value i)
  /\ Z.testbit (read_io_register16 0x04000004
                  (write_io_register16 0x04000004 value g)) i
     = (if i <? 3 then Z.testbit (dispstat (ppu g)) i else Z.testbit value i)
  /\ Z.testbit (read_io_register16 0x04000004
                  (write_io_register 0x04000004 value g)) i
     = (if i <? 3 then false
        else if i <? 8 then Z.testbit value i
        else Z.testbit (dispstat (ppu g)) i).
Proof.
  intros Hi. split; [|split].
  - assert (E : read_io_register16 REG_IF (write_io_register16 REG_IF value g)
                = u16 (Z.land (interrupt_flags g) (Z.lnot value)))
      by reflexivity.
    rewrite E. apply acknowledge_bit, Hi.
  - assert (E : read_io_register16 0x04000004
                  (write_io_register16 0x04000004 value g)
                = u16 (Z.lor (Z.land (dispstat (ppu g)) 0x0007)
                             (Z.land value 0xFFF8))) by reflexivity.
    rewrite E, Bits.testbit_u16, Z.lor_spec, !Z.land_spec.
    change 7 with (Z.ones 3). change 65528 with (Z.shiftl (Z.ones 13) 3).
    rewrite Z.shiftl_spec, !testbit_ones_range by lia.
    case_bounds; cbn [andb orb];
      rewrite ?andb_true_r, ?andb_false_r, ?orb_false_r, ?orb_false_l;
      reflexivity.
  - assert (E : read_io_register16 0x04000004
                  (write_io_register 0x04000004 value g)
                = u16 (Z.lor (Z.land (dispstat (ppu g)) 0xFF00)
                             (Z.land value 0xF8))) by reflexivity.
    rewrite E, Bits.testbit_u16, Z.lor_spec, !Z.land_spec.
    change 65280 with (Z.shiftl (Z.ones 8) 8).
    change 248 with (Z.shiftl (Z.ones 5) 3).
    rewrite !Z.shiftl_spec, !testbit_ones_range by lia.
    case_bounds; cbn [andb orb];
      rewrite ?andb_true_r, ?andb_false_r, ?orb_false_r, ?orb_false_l;
      reflexivity.
Qed.

Lemma special_register_writes_witness :
  Z.testbit (read_io_register16 REG_IF
               (write_io_register16 REG_IF 0xFFFE sys_irq_pending)) 0
  = Z.testbit (interrupt_flags sys_irq_pending) 0 && negb (Z.testbit 0xFFFE 0).
Proof.
  destruct (special_register_writes 0xFFFE 0 sys_irq_pending) as (H & _);
    [lia | exact H].
Defined.

(** X12.  No write to the I/O register file, of any width, to any address,
    changes the vertical counter: it is read-only for software. *)
Theorem vcount_is_read_only (address value : Z) (g : GBASystem) :
  vcount (ppu (write_io_register address value g)) = vcount (ppu g)
  /\ vcount (ppu (write_io_register16 address value g)) = vcount (ppu g)
  /\ vcount (ppu (write_io_register32 address value g)) = vcount (ppu g).
Proof.
  assert (H8 : forall a v h, vcount (ppu (write_io_register a v h)) = vcount (ppu h)).
  { intros a v h. unfold write_io_register.
    repeat match goal with
           | |- context [if ?b then _ else _] => destruct b
           end; reflexivity. }
  assert (H16 : forall a v h,
             vcount (ppu (write_io_register16 a v h)) = vcount (ppu h)).
  { intros a v h. unfold write_io_register16.
    repeat match goal with
           | |- context [if ?x =? ?y then _ else _] => destruct (x =? y)
           end; try reflexivity.
    rewrite !H8. reflexivity. }
  split; [apply H8 | split; [apply H16|]].
  unfold write_io_register32.
  destruct (address =? REG_IME); [reflexivity|]. rewrite !H16. reflexivity.
Qed.

Lemma halfword_of_bytes (x : Z) :
  Z.lor (Z.land x 0xFF) (Z.shiftl (Z.land (Z.shiftr x 8) 0xFF) 8)
  = Z.land x 0xFFFF.
Proof.
  apply Z.bits_inj'. intros n Hn.
  rewrite Z.lor_spec, Z.shiftl_spec, <- (Z.shiftr_0_r x) at 1 by lia.
  rewrite !testbit_byte, Z.land_spec by lia.
  change 0xFFFF with (Z.ones 16). rewrite testbit_ones_range by lia.
  replace (n + 0) with n by lia. replace (n - 8 + 8) with n by lia.
  case_bounds; cbn [andb orb];
    rewrite ?andb_true_r, ?andb_false_r, ?orb_false_r, ?orb_false_l;
    reflexivity.
Qed.

Lemma land_ones_small (x n : Z) : 0 <= n -> 0 <= x < 2 ^ n -> Z.land x (Z.ones n) = x.
Proof. intros Hn Hx. rewrite Z.land_ones by lia. apply Z.mod_small, Hx. Qed.

(** X13.  For the interrupt enable, request flags, master enable, display
    control, display status and vertical counter registers the halfword
    read is the two byte reads put together.  For the background control
    and scroll registers it is not: a byte read anywhere from 0x04000008 up
    to the interrupt registers returns 0, whatever a halfword read returns
    there. *)
Theorem byte_and_halfword_reads (address : Z) (g : GBASystem) :
  (In address [REG_IE; REG_IF; REG_IME; 0x04000000; 0x04000004; 0x04000006] ->
   0 <= interrupt_enable g < 2 ^ 16 -> 0 <= interrupt_flags g < 2 ^ 16 ->
   0 <= dispcnt (ppu g) < 2 ^ 16 -> 0 <= dispstat (ppu g) < 2 ^ 16 ->
   0 <= vcount (ppu g) < 2 ^ 16 ->
   read_io_register16 address g
   = Z.lor (read_io_register address g)
           (Z.shiftl (read_io_register (address + 1) g) 8))
  /\ (0x04000008 <= address < REG_IE -> read_io_register address g = 0).
Proof.
  split.
  - intros Hin Hie Hif Hdc Hds Hvc. cbn [In] in Hin.
    assert (Hfull : forall x, 0 <= x < 2 ^ 16 ->
              x = Z.lor (Z.land x 0xFF) (Z.shiftl (Z.land (Z.shiftr x 8) 0xFF) 8)).
    { intros x Hx. rewrite halfword_of_bytes. symmetry.
      apply (land_ones_small x 16); lia. }
    destruct Hin as [<- | [<- | [<- | [<- | [<- | [<- | []]]]]]].
    + apply (Hfull _ Hie).
    + apply (Hfull _ Hif).
    + symmetry. apply halfword_of_bytes.
    + apply (Hfull _ Hdc).
    + apply (Hfull _ Hds).
    + apply (Hfull _ Hvc).
  - intros Ha. unfold read_io_register, REG_IE, REG_IF, REG_IME in *.
    repeat match goal with
           | |- context [?x =? ?y] => destruct (Z.eqb_spec x y); [lia|]
           end.
    reflexivity.
Qed.

Lemma byte_and_halfword_reads_witness :
  read_io_register16 REG_IF sys_irq_pending
  = Z.lor (read_io_register REG_IF sys_irq_pending)
          (Z.shiftl (read_io_register (REG_IF + 1) sys_irq_pending) 8)
  /\ read_io_register 0x04000008
       (write_io_register16 0x04000008 0x1F83 sys_irq_pending) = 0.
Proof.
  split.
  - destruct (byte_and_halfword_reads REG_IF sys_irq_pending) as (H & _).
    apply H; [cbn; tauto | | | | |]; vm_compute; split; congruence.
  - destruct (byte_and_halfword_reads 0x04000008
                (write_io_register16 0x04000008 0x1F83 sys_irq_pending))
      as (_ & H).
    apply H. vm_compute. split; congruence.
Defined.

(** X14.  A word write to the interrupt-enable register spills into the
    request flags, which sit two bytes above it: the low half of the value
    becomes the enable mask and every 1 bit of the high half acknowledges a
    pending request. *)
Theorem word_write_to_enable_acknowledges (value i : Z) (g : GBASystem) :
  0 <= i < 16 ->
  interrupt_enable (write_io_register32 REG_IE value g) = Z.land value 0xFFFF
  /\ Z.testbit (interrupt_flags (write_io_register32 REG_IE value g)) i
     = Z.testbit (interrupt_flags g) i && negb (Z.testbit value (i + 16)).
Proof.
  intros Hi. split; [reflexivity|].
  assert (E : interrupt_flags (write_io_register32 REG_IE value g)
              = u16 (Z.land (interrupt_flags g)
                            (Z.lnot (Z.land (Z.shiftr value 16) 0xFFFF))))
    by reflexivity.
  rewrite E, acknowledge_bit, Z.land_spec, Z.shiftr_spec by lia.
  change 0xFFFF with (Z.ones 16). rewrite Z.ones_spec_low, andb_true_r by lia.
  reflexivity.
Qed.

Lemma word_write_to_enable_acknowledges_witness :
  Z.testbit (interrupt_flags (write_io_register32 REG_IE 0x00010001
                                sys_irq_pending)) 0
  = Z.testbit (interrupt_flags sys_irq_pending) 0
    && negb (Z.testbit 0x00010001 (0 + 16)).
Proof.
  destruct (word_write_to_enable_acknowledges 0x00010001 0 sys_irq_pending)
    as (_ & H); [lia | exact H].
Defined.

(** One byte of a 32-bit register replaced, as the byte writes to the
    master-enable register do it. *)
Lemma byte_replace (old b s s' : Z) :
  0 <= s -> 0 <= s' -> s' + 8 <= 32 -> 0 <= b < 2 ^ 8 ->
  (s' = s \/ s' + 8 <= s \/ s + 8 <= s') ->
  Z.land (Z.shiftr (u32 (Z.lor (Z.land old (u32 (Z.lnot (Z.shiftl 0xFF s))))
                               (Z.shiftl b s))) s') 0xFF
  = if s' =? s then b else Z.land (Z.shiftr old s') 0xFF.
Proof.
  intros Hs Hs' H32 Hb Hlanes.
  apply Z.bits_inj'. intros j Hj.
  rewrite testbit_byte by lia.
  destruct (Z.leb_spec 0 j); [|lia]. cbn [andb].
  destruct (Z.ltb_spec j 8) as [Hj8|Hj8]; cbn [andb].
  - rewrite Bits.testbit_u32, Z.lor_spec, Z.land_spec, Bits.testbit_u32,
      Z.lnot_spec, !Z.shiftl_spec by lia.
    change 0xFF with (Z.ones 8). rewrite testbit_ones_range by lia.
    destruct (Z.ltb_spec (j + s') 32); [|lia]. cbn [andb].
    destruct (Z.eqb_spec s' s) as [->|Hne].
    + replace (j + s - s) with j by lia.
      destruct (Z.leb_spec 0 j); [|lia]. destruct (Z.ltb_spec j 8); [|lia].
      cbn. rewrite andb_false_r. reflexivity.
    + rewrite testbit_byte by lia.
      destruct (Z.leb_spec 0 j); [|lia]. destruct (Z.ltb_spec j 8); [|lia].
      cbn [andb].
      destruct (Z.leb_spec 0 (j + s' - s)).
      * destruct (Z.ltb_spec (j + s' - s) 8); [lia|]. cbn.
        rewrite (testbit_below b 8 (j + s' - s)) by lia.
        rewrite andb_true_r, orb_false_r. reflexivity.
      * rewrite (Z.testbit_neg_r b) by lia. cbn.
        rewrite andb_true_r, orb_false_r. reflexivity.
  - destruct (s' =? s).
    + symmetry. apply (testbit_below b 8); lia.
    + rewrite testbit_byte by lia.
      destruct (Z.ltb_spec j 8); [lia|]. rewrite andb_false_r. reflexivity.
Qed.

(** The master-enable register is byte addressable: a byte written
    at one of its four addresses is read back there, and the other three
    bytes keep their values. *)
Theorem master_enable_bytes (k k' b : Z) (g : GBASystem) :
  0 <= k < 4 -> 0 <= k' < 4 -> 0 <= b < 2 ^ 8 ->
  read_io_register (REG_IME + k') (write_io_register (REG_IME + k) b g)
  = if k' =? k then b else read_io_register (REG_IME + k') g.
Proof.
  intros Hk Hk' Hb.
  assert (Hread : forall h,
            read_io_register (REG_IME + k') h
            = Z.land (Z.shiftr (interrupt_master h) (k' * 8)) 0xFF).
  { intros h.
    assert (Hc : k' = 0 \/ k' = 1 \/ k' = 2 \/ k' = 3) by lia.
    destruct Hc as [-> | [-> | [-> | ->]]]; reflexivity. }
  assert (Hwrite : interrupt_master (write_io_register (REG_IME + k) b g)
            = u32 (Z.lor (Z.land (interrupt_master g)
                                 (u32 (Z.lnot (Z.shiftl 0xFF (k * 8)))))
                         (Z.shiftl b (k * 8)))).
  { assert (Hc : k = 0 \/ k = 1 \/ k = 2 \/ k = 3) by lia.
    destruct Hc as [-> | [-> | [-> | ->]]]; reflexivity. }
  rewrite !Hread, Hwrite, byte_replace by lia.
  destruct (Z.eqb_spec k' k), (Z.eqb_spec (k' * 8) (k * 8));
    first [reflexivity | lia].
Qed.

Lemma master_enable_bytes_witness :
  read_io_register (REG_IME + 2) (write_io_register (REG_IME + 2) 0xA5 sys_irq_pending)
  = 0xA5
  /\ read_io_register (REG_IME + 0)
       (write_io_register (REG_IME + 2) 0xA5 sys_irq_pending)
     = read_io_register (REG_IME + 0) sys_irq_pending.
Proof.
  split.
  - apply (master_enable_bytes 2 2 0xA5 sys_irq_pending); lia.
  - apply (master_enable_bytes 2 0 0xA5 sys_irq_pending); lia.
Defined.

(** ** The interrupt check and the reset of the machine *)

Lemma reset_cpu_wf (c : ARM7CPU) : wf_cpu (ARM7CPU_reset c).
Proof. repeat split. Qed.

(** X15.  [check_interrupts] does not look at the IRQ-disable bit of the
    status register: whenever an enabled interrupt is pending it runs the
    IRQ entry sequence, also in a state with the disable bit set, in which
    [step] leaves the status register alone; without a pending interrupt it
    does nothing. *)
Theorem check_interrupts_ignores_disable_bit (g : GBASystem) :
  wf_cpu (cpu g) ->
  0 <= interrupt_flags g < 2 ^ 16 ->
  (has_pending_interrupts g = false -> check_interrupts g = g)
  /\ (has_pending_interrupts g = true ->
      check_interrupts g = handle_irq g
      /\ get_current_mode (cpu (check_interrupts g)) = IRQ
      /\ registers (cpu (check_interrupts g)) !!! 15%nat = VECTOR_IRQ
      /\ (bit_I (cpsr (cpu g)) = true -> cpsr (cpu (step g)) = cpsr (cpu g))).
Proof.
  intros Hwf Hf.
  assert (Hu : u16 (Z.land (interrupt_flags g) (interrupt_enable g))
               = Z.land (interrupt_flags g) (interrupt_enable g)).
  { apply Z.bits_inj'. intros n Hn.
    rewrite Bits.testbit_u16, Z.land_spec.
    destruct (Z.ltb_spec n 16); [reflexivity|].
    rewrite (testbit_below (interrupt_flags g) 16 n) by lia. reflexivity. }
  assert (Hstep : bit_I (cpsr (cpu g)) = true ->
                  cpsr (cpu (step g)) = cpsr (cpu g)).
  { intros HI.
    assert (Hne : irq_eligible g = false)
      by (unfold irq_eligible; rewrite HI; reflexivity).
    destruct (step_fetches g Hne) as (-> & _). reflexivity. }
  unfold check_interrupts, handle_interrupt, has_pending_interrupts.
  rewrite Hu.
  destruct (negb (nz (Z.land (interrupt_master g) 1)));
    [split; [reflexivity | discriminate]|].
  destruct (Z.land (interrupt_flags g) (interrupt_enable g) =? 0);
    cbn [negb]; [split; [reflexivity | discriminate]|].
  split; [discriminate|]. intros _.
  split; [reflexivity|]. rewrite handle_irq_entry.
  split; [apply entry_mode; auto using irq_slot, irq_mask_high|].
  split; [apply entry_pc; auto using irq_slot | exact Hstep].
Qed.

Lemma check_interrupts_ignores_disable_bit_witness :
  bit_I (cpsr (cpu sys_irq_masked)) = true
  /\ get_current_mode (cpu (check_interrupts sys_irq_masked)) = IRQ
  /\ cpsr (cpu (step sys_irq_masked)) = cpsr (cpu sys_irq_masked).
Proof.
  assert (Hwf : wf_cpu (cpu sys_irq_masked)) by (repeat split).
  assert (Hf : 0 <= interrupt_flags sys_irq_masked < 2 ^ 16)
    by (vm_compute; split; congruence).
  destruct (check_interrupts_ignores_disable_bit sys_irq_masked Hwf Hf)
    as (_ & H).
  destruct (H eq_refl) as (_ & Hmode & _ & Hstep).
  split; [reflexivity|]. split; [exact Hmode | apply Hstep; reflexivity].
Defined.

(** X16.  A reset of the machine does not clear the interrupt registers:
    if an enabled interrupt was pending before [GBASystem::reset], the first
    step after the reset does not fetch from the cartridge but enters the
    IRQ handler, with PC = 0x18 and the return address 0x07FFFFFC. *)
Theorem reset_keeps_pending_interrupts (g : GBASystem) :
  has_pending_interrupts g = true ->
  has_pending_interrupts (GBASystem_reset g) = true
  /\ interrupt_flags (GBASystem_reset g) = interrupt_flags g
  /\ get_current_mode (cpu (step (GBASystem_reset g))) = IRQ
  /\ registers (cpu (step (GBASystem_reset g))) !!! 15%nat = VECTOR_IRQ
  /\ banked_r14 (cpu (step (GBASystem_reset g))) !!! get_mode_index IRQ
     = 0x07FFFFFC.
Proof.
  intros Hp.
  assert (Hp' : has_pending_interrupts (GBASystem_reset g) = true) by exact Hp.
  assert (Helig : irq_eligible (GBASystem_reset g) = true).
  { unfold irq_eligible. rewrite Hp'. reflexivity. }
  split; [exact Hp'|]. split; [reflexivity|].
  rewrite (step_when_eligible _ Helig), handle_irq_entry.
  change (cpu (GBASystem_reset g)) with (ARM7CPU_reset (cpu g)).
  pose proof (reset_cpu_wf (cpu g)) as Hwf.
  split; [apply entry_mode; auto using irq_slot, irq_mask_high|].
  split; [apply entry_pc; auto using irq_slot|].
  rewrite entry_banked_r14 by (auto using irq_slot). reflexivity.
Qed.

Lemma reset_keeps_pending_interrupts_witness :
  registers (cpu (step (GBASystem_reset sys_irq_masked))) !!! 15%nat
  = VECTOR_IRQ.
Proof.
  destruct (reset_keeps_pending_interrupts sys_irq_masked eq_refl)
    as (_ & _ & _ & H & _).
  exact H.
Defined.

(** ** The flag setter *)

Lemma flag_bit (k i : Z) : 0 <= k -> 0 <= i -> Z.testbit (Z.shiftl 1 k) i = (k =? i).
Proof. intros Hk Hi. rewrite Z.shiftl_1_l. apply Z.pow2_bits_eqb. lia. Qed.

Lemma set_flags_bit (result : Z) (carry overflow : bool) (c : ARM7CPU) (i : Z) :
  0 <= i < 32 ->
  Z.testbit (cpsr (set_flags result carry overflow c)) i
  = if i =? 31 then Z.testbit result 31
    else if i =? 30 then result =? 0
    else if i =? 29 then carry
    else if i =? 28 then overflow
    else Z.testbit (cpsr c) i.
Proof.
  intros Hi. unfold set_flags.
  change 0x80000000 with (Z.shiftl 1 31). rewrite Bits.nz_land_pow2 by lia.
  destruct (result =? 0), (Z.testbit result 31), carry, overflow;
    cbn [cpsr set_cpsr];
    rewrite ?Z.lor_spec, Z.land_spec, Bits.testbit_not32, !Z.lor_spec by lia;
    unfold FLAG_N, FLAG_Z, FLAG_C, FLAG_V; rewrite !flag_bit by lia;
    destruct (Z.ltb_spec i 32); try lia;
    destruct (Z.eqb_spec 31 i), (Z.eqb_spec 30 i), (Z.eqb_spec 29 i),
      (Z.eqb_spec 28 i); try lia;
    destruct (Z.eqb_spec i 31), (Z.eqb_spec i 30), (Z.eqb_spec i 29),
      (Z.eqb_spec i 28); try lia;
    cbn; rewrite ?andb_true_r, ?andb_false_r, ?orb_false_r, ?orb_true_r;
    reflexivity.
Qed.

(** [set_flags] makes Z say whether the result is zero, N its bit 31,
    C and V the carry and overflow it is given, and changes nothing else:
    the mode, the disable bits, the instruction-set bit and every
    register and bank stay as they were. *)
Theorem set_flags_effect (result : Z) (carry overflow : bool) (c : ARM7CPU) :
  flag_Z (cpsr (set_flags result carry overflow c)) = (result =? 0)
  /\ flag_N (cpsr (set_flags result carry overflow c)) = Z.testbit result 31
  /\ flag_C (cpsr (set_flags result carry overflow c)) = carry
  /\ flag_V (cpsr (set_flags result carry overflow c)) = overflow
  /\ (forall i, 0 <= i < 28 ->
        Z.testbit (cpsr (set_flags result carry overflow c)) i
        = Z.testbit (cpsr c) i)
  /\ set_cpsr (fun _ => cpsr c) (set_flags result carry overflow c) = c.
Proof.
  unfold flag_Z, flag_N, flag_C, flag_V.
  rewrite !set_flags_bit by lia. cbn [Z.eqb Pos.eqb].
  repeat split.
  - intros i Hi. rewrite set_flags_bit by lia.
    destruct (Z.eqb_spec i 31), (Z.eqb_spec i 30), (Z.eqb_spec i 29),
      (Z.eqb_spec i 28); try lia. reflexivity.
  - unfold set_flags.
    destruct (result =? 0), (nz (Z.land result 2147483648)), carry, overflow;
      destruct c; reflexivity.
Qed.

(** X17.  The flags [set_flags] writes are the flags [check_condition]
    tests: after [set_flags], EQ holds iff the result is zero, MI iff its
    bit 31 is set, CS iff the carry was given, VS iff the overflow was
    given, HI iff carry and nonzero, and GE iff bit 31 equals the
    overflow. *)
Theorem conditions_after_set_flags (result : Z) (carry overflow : bool)
    (c : ARM7CPU) :
  check_condition (set_flags result carry overflow c) 0x0 = (result =? 0)
  /\ check_condition (set_flags result carry overflow c) 0x4
     = Z.testbit result 31
  /\ check_condition (set_flags result carry overflow c) 0x2 = carry
  /\ check_condition (set_flags result carry overflow c) 0x6 = overflow
  /\ check_condition (set_flags result carry overflow c) 0x8
     = carry && negb (result =? 0)
  /\ check_condition (set_flags result carry overflow c) 0xA
     = Bool.eqb (Z.testbit result 31) overflow.
Proof.
  destruct (flag_tests (set_flags result carry overflow c)) as (HN & HZ & HC & HV).
  destruct (set_flags_effect result carry overflow c)
    as (EZ & EN & EC & EV & _).
  cbn [check_condition]. unfold nz.
  rewrite HN, HZ, HC, HV, EZ, EN, EC, EV, !negb_involutive.
  repeat split.
Qed.

(** ** More on modes, banks and interrupt entry *)

Lemma mode_round_trip_r13_r14_witness :
  registers (switch_mode (get_current_mode cpu_system_loaded)
               (switch_mode SUPERVISOR cpu_system_loaded)) !!! 13%nat
  = registers cpu_system_loaded !!! 13%nat.
Proof.
  assert (Hwf : wf_cpu cpu_system_loaded) by (repeat split).
  assert (Hidx : get_mode_index SUPERVISOR
                 <> get_mode_index (get_current_mode cpu_system_loaded))
    by (vm_compute; discriminate).
  destruct (mode_round_trip_r13_r14 cpu_system_loaded SUPERVISOR Hwf eq_refl Hidx)
    as (H & _).
  exact H.
Defined.

(** X18.  User and System mode share one bank slot: a switch from one to
    the other only rewrites the mode field and leaves R13 and R14 as they
    are. *)
Theorem user_system_share_bank (c : ARM7CPU) (target : CpuMode) :
  wf_cpu c ->
  (get_current_mode c = USER /\ target = SYSTEM)
  \/ (get_current_mode c = SYSTEM /\ target = USER) ->
  registers (switch_mode target c) !!! 13%nat = registers c !!! 13%nat
  /\ registers (switch_mode target c) !!! 14%nat = registers c !!! 14%nat
  /\ get_current_mode (switch_mode target c) = target.
Proof.
  intros Hwf Hmodes.
  assert (Hne : get_current_mode c <> target)
    by (destruct Hmodes as [(-> & ->)|(-> & ->)]; discriminate).
  assert (Hidx : get_mode_index (get_current_mode c) = 0%nat
                 /\ get_mode_index target = 0%nat)
    by (destruct Hmodes as [(-> & ->)|(-> & ->)]; split; reflexivity).
  destruct Hidx as (Hi & Ht).
  destruct (switch_mode_banks c target Hwf Hne) as (B13 & B14 & R13 & R14).
  rewrite R13, R14, B13, B14, Hi, Ht.
  destruct Hwf as (_ & _ & L13 & L14 & _).
  array_simpl. repeat split.
  apply switch_mode_current.
  destruct Hmodes as [(_ & ->)|(_ & ->)]; reflexivity.
Qed.

Lemma user_system_share_bank_witness :
  registers (switch_mode USER cpu_system_loaded) !!! 13%nat
  = registers cpu_system_loaded !!! 13%nat.
Proof.
  assert (Hwf : wf_cpu cpu_system_loaded) by (repeat split).
  destruct (user_system_share_bank cpu_system_loaded USER Hwf) as (H & _).
  - right. split; reflexivity.
  - exact H.
Defined.

Lemma entry_second_half (mode : CpuMode) (disable vector : Z) (c : ARM7CPU)
    (i : nat) :
  (i < 5)%nat ->
  banked_r8_r12 (exception_entry mode disable vector c) !!! (5 + i)%nat
  = banked_r8_r12 c !!! (5 + i)%nat.
Proof.
  intros Hi.
  change (banked_r8_r12 (exception_entry mode disable vector c))
    with (banked_r8_r12 (switch_mode mode (entry_saved mode c))).
  rewrite switch_mode_second_half by exact Hi. reflexivity.
Qed.

(** X19.  Interrupt entry destroys R8..R12: when an IRQ is entered from any
    other mode, R8..R12 are loaded from the second half of the R8-R12 bank,
    not kept, although IRQ mode does not bank them. *)
Theorem irq_entry_overwrites_r8_r12 (g : GBASystem) (i : nat) :
  wf_cpu (cpu g) -> get_current_mode (cpu g) <> IRQ -> (i < 5)%nat ->
  registers (cpu (handle_irq g)) !!! (8 + i)%nat
  = banked_r8_r12 (cpu g) !!! (5 + i)%nat.
Proof.
  intros Hwf Hne Hi.
  assert (Hwf1 : wf_cpu (entry_saved IRQ (cpu g))).
  { destruct Hwf as (H1 & H2 & H3 & H4 & H5).
    unfold wf_cpu, entry_saved; cbn. rewrite !length_insert. auto. }
  pose proof (switch_mode_loads_second_half (entry_saved IRQ (cpu g)) IRQ i
                Hwf1 Hne ltac:(discriminate) Hi) as H.
  rewrite handle_irq_entry. unfold exception_entry.
  cbn [registers set_cycles set_registers set_thumb_mode set_cpsr].
  rewrite list_lookup_total_insert_ne by lia.
  exact H.
Qed.

Lemma irq_entry_overwrites_r8_r12_witness :
  registers (cpu (handle_irq (set_cpu (fun _ => cpu_system_loaded)
                                       sys_irq_pending))) !!! (8 + 0)%nat
  = banked_r8_r12 cpu_system_loaded !!! (5 + 0)%nat.
Proof.
  apply (irq_entry_overwrites_r8_r12
           (set_cpu (fun _ => cpu_system_loaded) sys_irq_pending) 0).
  - repeat split.
  - vm_compute. discriminate.
  - lia.
Defined.

Lemma run_op_second_half (op : CpuOp) (g : GBASystem) (i : nat) :
  op <> OpReset -> (i < 5)%nat ->
  banked_r8_r12 (cpu (run_op op g)) !!! (5 + i)%nat
  = banked_r8_r12 (cpu g) !!! (5 + i)%nat.
Proof.
  intros Hop Hi. destruct op; cbn [run_op]; [contradiction| | |].
  - destruct (irq_eligible g) eqn:E.
    + rewrite (step_when_eligible g E), handle_irq_entry.
      apply entry_second_half, Hi.
    + destruct (step_fetches g E) as (-> & _). reflexivity.
  - rewrite handle_irq_entry. apply entry_second_half, Hi.
  - rewrite handle_fiq_entry. apply entry_second_half, Hi.
Qed.

(** X20.  No step and no interrupt entry ever writes the second half of
    the R8-R12 bank, the half the non-FIQ modes reload R8..R12 from: along
    any run of [step], [handle_irq] and [handle_fiq] it keeps its contents,
    and after a reset these are all zero. *)
Theorem second_bank_half_never_written (ops : list CpuOp) (g : GBASystem)
    (i : nat) :
  (i < 5)%nat ->
  (~ In OpReset ops ->
   banked_r8_r12 (cpu (run_ops ops g)) !!! (5 + i)%nat
   = banked_r8_r12 (cpu g) !!! (5 + i)%nat)
  /\ banked_r8_r12 (ARM7CPU_reset (cpu g)) !!! (5 + i)%nat = 0.
Proof.
  intros Hi. split.
  - revert g. unfold run_ops.
    induction ops as [|op ops IH]; intros g Hno; cbn [fold_left]; [reflexivity|].
    rewrite IH by (intros Hin; apply Hno; right; exact Hin).
    apply run_op_second_half; [|exact Hi].
    intros ->. apply Hno. left. reflexivity.
  - assert (Hc : (i = 0 \/ i = 1 \/ i = 2 \/ i = 3 \/ i = 4)%nat) by lia.
    destruct Hc as [-> | [-> | [-> | [-> | ->]]]]; reflexivity.
Qed.

Lemma second_bank_half_never_written_witness :
  banked_r8_r12 (cpu (run_ops [OpStep; OpHandleFiq; OpStep] sys_irq_pending))
    !!! (5 + 2)%nat
  = banked_r8_r12 (cpu sys_irq_pending) !!! (5 + 2)%nat.
Proof.
  destruct (second_bank_half_never_written [OpStep; OpHandleFiq; OpStep]
              sys_irq_pending 2) as (H & _); [lia|].
  apply H. cbn. intuition discriminate.
Defined.

(** The bank slot of IRQ mode belongs to IRQ mode alone. *)
Lemma irq_slot_owner (m : CpuMode) :
  m <> IRQ -> get_mode_index m <> get_mode_index IRQ.
Proof.
  intros Hne Heq.
  assert (Hm : get_mode_index m <> 0%nat) by (rewrite Heq; discriminate).
  destruct (get_mode_index_own m Hm)
    as [[-> _]|[[-> _]|[[-> _]|[[-> _]|[-> _]]]]];
    first [contradiction | discriminate Heq].
Qed.

(** X21.  Interrupt entry saves the interrupted mode's R13 and R14 in that
    mode's bank: switching back to the interrupted mode after [handle_irq]
    restores both registers. *)
Theorem irq_entry_then_return_restores (g : GBASystem) :
  wf_cpu (cpu g) -> get_current_mode (cpu g) <> IRQ ->
  registers (switch_mode (get_current_mode (cpu g)) (cpu (handle_irq g)))
    !!! 13%nat = registers (cpu g) !!! 13%nat
  /\ registers (switch_mode (get_current_mode (cpu g)) (cpu (handle_irq g)))
       !!! 14%nat = registers (cpu g) !!! 14%nat.
Proof.
  intros Hwf Hne.
  set (c := cpu g) in *. set (cur := get_current_mode c) in *.
  rewrite handle_irq_entry. fold c.
  set (c2 := exception_entry IRQ FLAG_I VECTOR_IRQ c).
  assert (Hwf1 : wf_cpu (entry_saved IRQ c)).
  { destruct Hwf as (H1 & H2 & H3 & H4 & H5).
    unfold wf_cpu, entry_saved; cbn. rewrite !length_insert. auto. }
  assert (Hwf2 : wf_cpu c2) by (apply entry_wf, Hwf).
  assert (Hmode2 : get_current_mode c2 = IRQ)
    by (apply entry_mode; auto using irq_slot, irq_mask_high).
  assert (Hne2 : get_current_mode c2 <> cur) by (rewrite Hmode2; auto).
  destruct (switch_mode_banks c2 cur Hwf2 Hne2) as (B13 & B14 & R13 & R14).
  destruct (switch_mode_banks (entry_saved IRQ c) IRQ Hwf1 Hne)
    as (S13 & S14 & _ & _).
  change (banked_r13 c2) with (banked_r13 (switch_mode IRQ (entry_saved IRQ c)))
    in B13.
  change (banked_r14 c2) with (banked_r14 (switch_mode IRQ (entry_saved IRQ c)))
    in B14.
  rewrite R13, R14, B13, B14, S13, S14, Hmode2.
  change (get_current_mode (entry_saved IRQ c)) with cur.
  pose proof (irq_slot_owner cur Hne) as Hslot.
  pose proof (get_mode_index_bound cur) as Hb.
  destruct Hwf as (_ & _ & L13 & L14 & _).
  unfold entry_saved; cbn [banked_r13 banked_r14 registers set_banked_r14 set_spsr].
  array_simpl. split; reflexivity.
Qed.

Lemma irq_entry_then_return_restores_witness :
  registers (switch_mode (get_current_mode (cpu sys_irq_pending))
               (cpu (handle_irq sys_irq_pending))) !!! 13%nat
  = registers (cpu sys_irq_pending) !!! 13%nat.
Proof.
  assert (Hwf : wf_cpu (cpu sys_irq_pending)) by (repeat split).
  assert (Hne : get_current_mode (cpu sys_irq_pending) <> IRQ)
    by (vm_compute; discriminate).
  destruct (irq_entry_then_return_restores sys_irq_pending Hwf Hne) as (H & _).
  exact H.
Defined.

(** X22.  An interrupt entered while the CPU is already in IRQ mode loses
    its return address: the entry writes it to the IRQ bank slot only, the
    visible R14 keeps its old value, and the next switch out of IRQ mode
    overwrites the slot with that old value. *)
Theorem nested_irq_loses_return_address (g : GBASystem) (next : CpuMode) :
  wf_cpu (cpu g) -> get_current_mode (cpu g) = IRQ -> next <> IRQ ->
  registers (cpu (handle_irq g)) !!! 14%nat = registers (cpu g) !!! 14%nat
  /\ banked_r14 (cpu (handle_irq g)) !!! get_mode_index IRQ
     = return_address (cpu g)
  /\ banked_r14 (switch_mode next (cpu (handle_irq g))) !!! get_mode_index IRQ
     = registers (cpu g) !!! 14%nat.
Proof.
  intros Hwf Hcur Hnext.
  set (c := cpu g) in *.
  rewrite handle_irq_entry. fold c.
  set (c2 := exception_entry IRQ FLAG_I VECTOR_IRQ c).
  assert (Hwf2 : wf_cpu c2) by (apply entry_wf, Hwf).
  assert (Hmode2 : get_current_mode c2 = IRQ)
    by (apply entry_mode; auto using irq_slot, irq_mask_high).
  assert (Hr14 : registers c2 !!! 14%nat = registers c !!! 14%nat).
  { unfold c2. rewrite entry_unfold.
    rewrite (switch_mode_same (entry_saved IRQ c) IRQ) by exact Hcur.
    cbn. rewrite list_lookup_total_insert_ne by lia. reflexivity. }
  split; [exact Hr14|].
  split; [apply entry_banked_r14; auto using irq_slot|].
  assert (Hne2 : get_current_mode c2 <> next) by (rewrite Hmode2; auto).
  destruct (switch_mode_banks c2 next Hwf2 Hne2) as (_ & -> & _).
  rewrite Hmode2, Hr14.
  destruct Hwf2 as (_ & _ & _ & L14 & _).
  change (get_mode_index IRQ) with 2%nat.
  array_simpl. reflexivity.
Qed.

Lemma nested_irq_loses_return_address_witness :
  banked_r14 (switch_mode SYSTEM (cpu (handle_irq (step sys_irq_pending))))
    !!! get_mode_index IRQ
  = registers (cpu (step sys_irq_pending)) !!! 14%nat.
Proof.
  assert (Hwf : wf_cpu (cpu (step sys_irq_pending))) by (repeat split).
  assert (Hnext : SYSTEM <> IRQ) by discriminate.
  destruct (nested_irq_loses_return_address (step sys_irq_pending) SYSTEM
              Hwf eq_refl Hnext) as (_ & _ & H).
  exact H.
Defined.

(** ** Steps and cycles *)

Lemma step_cycles (g : GBASystem) :
  cycles (cpu (step g)) = cycles (cpu g) + (if irq_eligible g then 3 else 1).
Proof.
  destruct (irq_eligible g) eqn:E.
  - rewrite (step_when_eligible g E), handle_irq_entry, entry_unfold.
    cbn [cycles set_cycles set_registers set_thumb_mode set_cpsr].
    destruct (switch_mode_frame (entry_saved IRQ (cpu g)) IRQ) as (_ & _ & ->).
    reflexivity.
  - destruct (step_fetches g E) as (-> & _). reflexivity.
Qed.

(** On the count of the model, which is the [int] of the code as long as
    it stays inside [int_range]: every step charges one cycle for a fetched
    instruction and three for an interrupt entry, so [n] steps charge
    between [n] and [3 * n] cycles. *)
Theorem steps_cycle_bounds (n : nat) (g : GBASystem) :
  cycles (cpu (step g)) = cycles (cpu g) + (if irq_eligible g then 3 else 1)
  /\ cycles (cpu g) + Z.of_nat n <= cycles (cpu (steps n g))
     <= cycles (cpu g) + 3 * Z.of_nat n.
Proof.
  split; [apply step_cycles|].
  unfold steps. induction n as [|n IH]; [cbn; lia|].
  rewrite Nat2Z.inj_succ, Nat.iter_succ, step_cycles.
  destruct (irq_eligible (Nat.iter n step g)); lia.
Qed.

Lemma step_keeps_disable_bit (g : GBASystem) :
  bit_I (cpsr (cpu g)) = true ->
  cpsr (cpu (step g)) = cpsr (cpu g)
  /\ thumb_mode (cpu (step g)) = thumb_mode (cpu g)
  /\ spsr (cpu (step g)) = spsr (cpu g)
  /\ banked_r13 (cpu (step g)) = banked_r13 (cpu g)
  /\ banked_r14 (cpu (step g)) = banked_r14 (cpu g).
Proof.
  intros HI.
  assert (Hne : irq_eligible g = false)
    by (unfold irq_eligible; rewrite HI; reflexivity).
  destruct (step_fetches g Hne) as (-> & _). repeat split.
Qed.

(** X23.  Once the IRQ-disable bit is set it stays set: no number of steps
    changes the status register, the mode, the saved status registers or
    the R14 bank, and no interrupt is taken, whatever is pending.  The
    same holds for the steps that follow a taken interrupt. *)
Theorem masked_steps_take_no_interrupt (n : nat) (g : GBASystem) :
  (bit_I (cpsr (cpu g)) = true ->
   cpsr (cpu (steps n g)) = cpsr (cpu g)
   /\ spsr (cpu (steps n g)) = spsr (cpu g)
   /\ banked_r14 (cpu (steps n g)) = banked_r14 (cpu g)
   /\ irq_eligible (steps n g) = false)
  /\ (irq_eligible g = true -> irq_eligible (steps n (step g)) = false).
Proof.
  assert (Hmasked : forall h, bit_I (cpsr (cpu h)) = true ->
            cpsr (cpu (steps n h)) = cpsr (cpu h)
            /\ spsr (cpu (steps n h)) = spsr (cpu h)
            /\ banked_r14 (cpu (steps n h)) = banked_r14 (cpu h)
            /\ irq_eligible (steps n h) = false).
  { intros h HI. unfold steps.
    assert (Hinv : cpsr (cpu (Nat.iter n step h)) = cpsr (cpu h)
                   /\ spsr (cpu (Nat.iter n step h)) = spsr (cpu h)
                   /\ banked_r14 (cpu (Nat.iter n step h)) = banked_r14 (cpu h)).
    { induction n as [|n IH]; [repeat split|].
      destruct IH as (Hc & Hs & Hb). rewrite Nat.iter_succ.
      destruct (step_keeps_disable_bit (Nat.iter n step h))
        as (Hc' & _ & Hs' & _ & Hb'); [rewrite Hc; exact HI|].
      rewrite Hc', Hs', Hb'. auto. }
    destruct Hinv as (Hc & Hs & Hb). repeat split; try assumption.
    unfold irq_eligible. rewrite Hc, HI. reflexivity. }
  split; [apply Hmasked|].
  intros Helig. apply Hmasked.
  rewrite (step_when_eligible g Helig), handle_irq_entry.
  unfold bit_I. rewrite entry_cpsr_bit by lia.
  change (Z.testbit FLAG_I 7) with true. rewrite orb_true_r. reflexivity.
Qed.

Lemma masked_steps_take_no_interrupt_witness :
  irq_eligible sys_irq_pending = true
  /\ irq_eligible (steps 3 (step sys_irq_pending)) = false.
Proof.
  split; [reflexivity|].
  destruct (masked_steps_take_no_interrupt 3 sys_irq_pending) as (_ & H).
  apply H. reflexivity.
Defined.

(** ** Colour conversion *)

Lemma channel_expand (x : Z) :
  0 <= x < 32 ->
  u8 (Z.lor (u8 (Z.shiftl x 3)) (Z.shiftr (u8 (Z.shiftl x 3)) 5)) = expand5 x.
Proof.
  intros Hx.
  assert (Hc : x = 0 \/ x = 1 \/ x = 2 \/ x = 3 \/ x = 4 \/ x = 5 \/ x = 6
    \/ x = 7 \/ x = 8 \/ x = 9 \/ x = 10 \/ x = 11 \/ x = 12 \/ x = 13
    \/ x = 14 \/ x = 15 \/ x = 16 \/ x = 17 \/ x = 18 \/ x = 19 \/ x = 20
    \/ x = 21 \/ x = 22 \/ x = 23 \/ x = 24 \/ x = 25 \/ x = 26 \/ x = 27
    \/ x = 28 \/ x = 29 \/ x = 30 \/ x = 31) by lia.
  repeat (destruct Hc as [-> | Hc]; [reflexivity|]). subst x. reflexivity.
Qed.

Lemma expand5_range (x : Z) : 0 <= x < 32 -> 0 <= expand5 x < 256.
Proof. unfold expand5. intros Hx. pose proof (Z.div_mod x 4 ltac:(lia)).
  pose proof (Z.mod_pos_bound x 4 ltac:(lia)). lia. Qed.

Lemma expand5_injective (x y : Z) :
  0 <= x -> 0 <= y -> expand5 x = expand5 y -> x = y.
Proof.
  unfold expand5. intros Hx Hy H.
  pose proof (Z.div_mod x 4 ltac:(lia)). pose proof (Z.div_mod y 4 ltac:(lia)).
  pose proof (Z.mod_pos_bound x 4 ltac:(lia)).
  pose proof (Z.mod_pos_bound y 4 ltac:(lia)). lia.
Qed.

(** A 5-bit field of a colour. *)
Lemma field_shift (color k : Z) :
  0 <= k ->
  Z.shiftr (Z.land color (Z.shiftl 0x1F k)) k = Z.land (Z.shiftr color k) 0x1F.
Proof.
  intros Hk. apply Z.bits_inj'. intros n Hn.
  rewrite Z.shiftr_spec, !Z.land_spec, Z.shiftr_spec, Z.shiftl_spec by lia.
  replace (n + k - k) with n by lia. reflexivity.
Qed.

Lemma field_range (x : Z) : 0 <= Z.land x 0x1F < 32.
Proof.
  change 0x1F with (Z.ones 5). rewrite Z.land_ones by lia.
  apply Z.mod_pos_bound. lia.
Qed.

(** The word [convert_color] assembles, channel by channel. *)
Lemma convert_color_unfold (gba_color : Z) :
  convert_color gba_color
  = u32 (Z.lor (Z.lor (Z.lor (Z.shiftl 0xFF 24)
                   (Z.shiftl (expand5 (Z.land (Z.shiftr gba_color 10) 0x1F)) 16))
                   (Z.shiftl (expand5 (Z.land (Z.shiftr gba_color 5) 0x1F)) 8))
               (expand5 (Z.land gba_color 0x1F))).
Proof.
  unfold convert_color.
  change 0x03E0 with (Z.shiftl 0x1F 5). change 0x7C00 with (Z.shiftl 0x1F 10).
  rewrite !field_shift by lia.
  rewrite !channel_expand by apply field_range. reflexivity.
Qed.

Lemma convert_color_bit (gba_color n : Z) :
  0 <= n ->
  Z.testbit (convert_color gba_color) n
  = if n <? 8 then Z.testbit (expand5 (Z.land gba_color 0x1F)) n
    else if n <? 16
         then Z.testbit (expand5 (Z.land (Z.shiftr gba_color 5) 0x1F)) (n - 8)
    else if n <? 24
         then Z.testbit (expand5 (Z.land (Z.shiftr gba_color 10) 0x1F)) (n - 16)
    else n <? 32.
Proof.
  intros Hn. rewrite convert_color_unfold.
  pose proof (expand5_range _ (field_range gba_color)) as Hr.
  pose proof (expand5_range _ (field_range (Z.shiftr gba_color 5))) as Hg.
  pose proof (expand5_range _ (field_range (Z.shiftr gba_color 10))) as Hb.
  rewrite Bits.testbit_u32, !Z.lor_spec, !Z.shiftl_spec by lia.
  change 0xFF with (Z.ones 8). rewrite testbit_ones_range by lia.
  destruct (Z.ltb_spec n 8); [|destruct (Z.ltb_spec n 16);
    [|destruct (Z.ltb_spec n 24); [|destruct (Z.ltb_spec n 32)]]];
    destruct (Z.ltb_spec n 32); try lia; cbn [andb];
    rewrite ?(Z.testbit_neg_r _ (n - 8)), ?(Z.testbit_neg_r _ (n - 16)) by lia;
    rewrite ?(testbit_below _ 8 n), ?(testbit_below _ 8 (n - 8)),
      ?(testbit_below _ 8 (n - 16)) by lia;
    case_bounds; cbn [andb orb]; rewrite ?orb_false_r; reflexivity.
Qed.

(** X24.  [convert_color] yields an opaque pixel whose red, green and blue
    bytes are the three 5-bit fields of the colour stretched to 8 bits
    (0 to 0, 31 to 255); bit 15 of the colour is ignored, and two colours
    give the same pixel only if their 15 colour bits agree. *)
Theorem convert_color_channels (gba_color other : Z) :
  Z.shiftr (convert_color gba_color) 24 = 0xFF
  /\ Z.land (convert_color gba_color) 0xFF
     = expand5 (Z.land gba_color 0x1F)
  /\ Z.land (Z.shiftr (convert_color gba_color) 8) 0xFF
     = expand5 (Z.land (Z.shiftr gba_color 5) 0x1F)
  /\ Z.land (Z.shiftr (convert_color gba_color) 16) 0xFF
     = expand5 (Z.land (Z.shiftr gba_color 10) 0x1F)
  /\ expand5 0 = 0 /\ expand5 31 = 255
  /\ (convert_color gba_color = convert_color other ->
      Z.land gba_color 0x7FFF = Z.land other 0x7FFF).
Proof.
  pose proof (expand5_range _ (field_range gba_color)) as Hr.
  pose proof (expand5_range _ (field_range (Z.shiftr gba_color 5))) as Hg.
  pose proof (expand5_range _ (field_range (Z.shiftr gba_color 10))) as Hb.
  assert (Hred : forall c, Z.land (convert_color c) 0xFF
                           = expand5 (Z.land c 0x1F)).
  { intros c. pose proof (expand5_range _ (field_range c)).
    apply Z.bits_inj'. intros n Hn.
    rewrite <- (Z.shiftr_0_r (convert_color c)), testbit_byte by lia.
    rewrite convert_color_bit, Z.add_0_r by lia.
    destruct (Z.leb_spec 0 n); [|lia]. destruct (Z.ltb_spec n 8); cbn [andb].
    - reflexivity.
    - symmetry. apply (testbit_below _ 8); lia. }
  assert (Hgreen : forall c, Z.land (Z.shiftr (convert_color c) 8) 0xFF
                             = expand5 (Z.land (Z.shiftr c 5) 0x1F)).
  { intros c. pose proof (expand5_range _ (field_range (Z.shiftr c 5))).
    apply Z.bits_inj'. intros n Hn.
    rewrite testbit_byte, convert_color_bit by lia.
    destruct (Z.leb_spec 0 n); [|lia]. destruct (Z.ltb_spec n 8); cbn [andb].
    - destruct (Z.ltb_spec (n + 8) 8); [lia|].
      destruct (Z.ltb_spec (n + 8) 16); [|lia]. f_equal. lia.
    - symmetry. apply (testbit_below _ 8); lia. }
  assert (Hblue : forall c, Z.land (Z.shiftr (convert_color c) 16) 0xFF
                            = expand5 (Z.land (Z.shiftr c 10) 0x1F)).
  { intros c. pose proof (expand5_range _ (field_range (Z.shiftr c 10))).
    apply Z.bits_inj'. intros n Hn.
    rewrite testbit_byte, convert_color_bit by lia.
    destruct (Z.leb_spec 0 n); [|lia]. destruct (Z.ltb_spec n 8); cbn [andb].
    - destruct (Z.ltb_spec (n + 16) 8); [lia|].
      destruct (Z.ltb_spec (n + 16) 16); [lia|].
      destruct (Z.ltb_spec (n + 16) 24); [|lia]. f_equal. lia.
    - symmetry. apply (testbit_below _ 8); lia. }
  split; [|split; [apply Hred | split; [apply Hgreen | split; [apply Hblue|]]]].
  - apply Z.bits_inj'. intros n Hn.
    rewrite Z.shiftr_spec, convert_color_bit by lia.
    change 0xFF with (Z.ones 8). rewrite testbit_ones_range by lia.
    case_bounds; reflexivity.
  - split; [reflexivity | split; [reflexivity|]].
    intros Heq.
    assert (Er : Z.land gba_color 0x1F = Z.land other 0x1F).
    { apply expand5_injective; try apply field_range.
      rewrite <- !Hred, Heq. reflexivity. }
    assert (Eg : Z.land (Z.shiftr gba_color 5) 0x1F
                 = Z.land (Z.shiftr other 5) 0x1F).
    { apply expand5_injective; try apply field_range.
      rewrite <- !Hgreen, Heq. reflexivity. }
    assert (Eb : Z.land (Z.shiftr gba_color 10) 0x1F
                 = Z.land (Z.shiftr other 10) 0x1F).
    { apply expand5_injective; try apply field_range.
      rewrite <- !Hblue, Heq. reflexivity. }
    apply Z.bits_inj'. intros n Hn.
    rewrite !Z.land_spec. change 0x7FFF with (Z.ones 15).
    rewrite testbit_ones_range by lia.
    destruct (Z.leb_spec 0 n); [|lia].
    destruct (Z.ltb_spec n 15); cbn [andb]; rewrite ?andb_false_r;
      [|reflexivity].
    rewrite !andb_true_r.
    assert (Hfield : forall c k j, 0 <= k -> 0 <= j < 5 ->
              Z.testbit c (j + k) = Z.testbit (Z.land (Z.shiftr c k) 0x1F) j).
    { intros c k j Hk Hj. rewrite Z.land_spec, Z.shiftr_spec by lia.
      change 0x1F with (Z.ones 5). rewrite Z.ones_spec_low by lia.
      symmetry. apply andb_true_r. }
    destruct (Z.ltb_spec n 5); [|destruct (Z.ltb_spec n 10)].
    + replace n with (n + 0) by lia.
      rewrite !(Hfield _ 0 n), !Z.shiftr_0_r, Er by lia. reflexivity.
    + replace n with (n - 5 + 5) by lia.
      rewrite !(Hfield _ 5 (n - 5)), Eg by lia. reflexivity.
    + replace n with (n - 10 + 10) by lia.
      rewrite !(Hfield _ 10 (n - 10)), Eb by lia. reflexivity.
Qed.

Lemma convert_color_channels_witness :
  convert_color 0x7FFF = convert_color 0xFFFF
  /\ Z.land 0x7FFF 0x7FFF = Z.land 0xFFFF 0x7FFF.
Proof.
  assert (W : convert_color 0x7FFF = convert_color 0xFFFF) by reflexivity.
  split; [exact W|].
  destruct (convert_color_channels 0x7FFF 0xFFFF)
    as (_ & _ & _ & _ & _ & _ & H).
  exact (H W).
Defined.

(** ** The scanline renderer *)

Lemma for_loop_succ {S : Type} (n : nat) (body : nat -> S -> S) (s : S) :
  for_loop (Datatypes.S n) body s = body n (for_loop n body s).
Proof. unfold for_loop. rewrite seq_S, fold_left_app. reflexivity. Qed.

Lemma paints_id (line : Z) (P : Z -> Prop) : paints line P (fun fb => fb).
Proof. intros fb index. left. reflexivity. Qed.

Lemma paints_comp (line : Z) (P : Z -> Prop) (f h : (Z -> Z) -> Z -> Z) :
  paints line P f -> paints line P h -> paints line P (fun fb => h (f fb)).
Proof.
  intros Hf Hh fb index.
  destruct (Hh (f fb) index) as [E | H]; [|right; exact H].
  rewrite E. apply Hf.
Qed.

Lemma paints_if (line : Z) (P : Z -> Prop) (b : bool)
    (f h : (Z -> Z) -> Z -> Z) :
  paints line P f -> paints line P h ->
  paints line P (fun fb => if b then f fb else h fb).
Proof. destruct b; auto. Qed.

Lemma paints_for_loop (line : Z) (P : Z -> Prop) (n : nat)
    (body : nat -> (Z -> Z) -> Z -> Z) :
  (forall i, (i < n)%nat -> paints line P (body i)) ->
  paints line P (for_loop n body).
Proof.
  induction n as [|n IH]; intros Hbody.
  - apply paints_id.
  - intros fb index. rewrite for_loop_succ.
    apply (paints_comp line P (for_loop n body) (body n)).
    + apply IH. intros i Hi. apply Hbody. lia.
    + apply Hbody. lia.
Qed.

Lemma paints_put (line x pixel : Z) (P : Z -> Prop) :
  0 <= x < GBA_SCREEN_WIDTH -> P pixel ->
  paints line P (put_pixel (line * GBA_SCREEN_WIDTH + x) pixel).
Proof.
  intros Hx HP fb index. unfold put_pixel, in_row.
  destruct (Z.eqb_spec index (line * GBA_SCREEN_WIDTH + x)); [right|left; auto].
  split; [lia | exact HP].
Qed.

Lemma convert_color_opaque (gba_color : Z) : opaque (convert_color gba_color).
Proof.
  unfold opaque. apply Z.bits_inj'. intros n Hn.
  rewrite Z.shiftr_spec, convert_color_bit by lia.
  change 0xFF with (Z.ones 8). rewrite testbit_ones_range by lia.
  case_bounds; reflexivity.
Qed.

(** Conditionals and pixel stores inside a pass. *)
Ltac paint :=
  repeat match goal with
  | |- paints _ _ (fun fb => fb) => apply paints_id
  | |- paints _ _ (fun fb => if ?c then _ else _) => destruct c
  | |- paints _ _ (put_pixel _ _) =>
      apply paints_put;
      [unfold GBA_SCREEN_WIDTH; lia | apply convert_color_opaque]
  | |- paints _ _ (fun fb => put_pixel _ _ fb) =>
      apply paints_put;
      [unfold GBA_SCREEN_WIDTH; lia | apply convert_color_opaque]
  end.

Lemma render_text_background_paints (g : GBASystem) (bg_num : nat) (line : Z) :
  paints line opaque (render_text_background g bg_num line).
Proof.
  unfold render_text_background. cbv zeta.
  apply paints_for_loop. intros i Hi. paint.
Qed.

Lemma render_background_mode0_paints (g : GBASystem) (line : Z) :
  paints line opaque (render_background_mode0 g line).
Proof.
  unfold render_background_mode0. apply paints_for_loop. intros i Hi.
  cbv zeta.
  apply paints_if; [apply render_text_background_paints | apply paints_id].
Qed.

Lemma paints_after (line : Z) (P : Z -> Prop) (f : (Z -> Z) -> Z -> Z)
    (fb0 fb : Z -> Z) (index : Z) :
  paints line P f ->
  fb index = fb0 index \/ (in_row line index /\ P (fb index)) ->
  f fb index = fb0 index \/ (in_row line index /\ P (f fb index)).
Proof.
  intros Hf H. destruct (Hf fb index) as [E | H']; [|right; exact H'].
  rewrite E. exact H.
Qed.

Lemma render_background_mode1_paints (g : GBASystem) (line : Z) :
  paints line opaque (render_background_mode1 g line).
Proof.
  intros fb index. unfold render_background_mode1, render_affine_background.
  cbv zeta.
  destruct (nz (Z.land _ DISPCNT_SCREEN_DISPLAY_BG2));
    destruct (nz (Z.land _ DISPCNT_SCREEN_DISPLAY_BG1));
    destruct (nz (Z.land _ DISPCNT_SCREEN_DISPLAY_BG0));
    repeat (apply paints_after; [apply render_text_background_paints|]);
    left; reflexivity.
Qed.

Lemma render_background_mode2_paints (g : GBASystem) (line : Z) :
  paints line opaque (render_background_mode2 g line).
Proof.
  intros fb index. unfold render_background_mode2, render_affine_background.
  cbv zeta.
  destruct (nz (Z.land _ DISPCNT_SCREEN_DISPLAY_BG3));
    destruct (nz (Z.land _ DISPCNT_SCREEN_DISPLAY_BG2));
    repeat (apply paints_after; [apply render_text_background_paints|]);
    left; reflexivity.
Qed.

Lemma render_background_mode3_paints (g : GBASystem) (line : Z) :
  paints line opaque (render_background_mode3 g line).
Proof.
  unfold render_background_mode3. cbv zeta.
  apply paints_for_loop. intros i Hi. paint.
Qed.

Lemma render_background_mode4_paints (g : GBASystem) (line : Z) :
  paints line opaque (render_background_mode4 g line).
Proof.
  unfold render_background_mode4. cbv zeta.
  apply paints_for_loop. intros i Hi. paint.
Qed.

Lemma render_background_mode5_paints (g : GBASystem) (line : Z) :
  paints line opaque (render_background_mode5 g line).
Proof.
  unfold render_background_mode5. cbv zeta.
  destruct (line >=? 128); [apply paints_id|].
  apply paints_for_loop. intros i Hi. paint.
Qed.

Lemma render_sprites_paints (g : GBASystem) (line : Z) :
  paints line opaque (render_sprites g line).
Proof.
  unfold render_sprites. apply paints_for_loop. intros sprite _. cbv zeta.
  destruct (Z.land _ 0x0300 =? 0x0200); [apply paints_id|].
  destruct (_ || _); [apply paints_id|].
  apply paints_for_loop. intros px _.
  match goal with
  | |- paints _ _ (fun fb => if (?x <? 0) || (?x >=? _) then _ else _) =>
      destruct (Z.ltb_spec x 0); [apply paints_id|];
      rewrite Z.geb_leb; destruct (Z.leb_spec GBA_SCREEN_WIDTH x);
      [apply paints_id|]; cbn [orb];
      apply paints_put; [lia | apply convert_color_opaque]
  end.
Qed.

Lemma for_loop_fill (n : nat) (base pixel : Z) (fb : Z -> Z) (index : Z) :
  for_loop n (fun i fb => put_pixel (base + Z.of_nat i) pixel fb) fb index
  = if (base <=? index) && (index <? base + Z.of_nat n) then pixel
    else fb index.
Proof.
  induction n as [|n IH].
  - cbn. case_bounds; reflexivity.
  - rewrite for_loop_succ. unfold put_pixel at 1. rewrite IH.
    destruct (Z.eqb_spec index (base + Z.of_nat n)); case_bounds;
      cbn [andb]; reflexivity || lia.
Qed.

(** The frame buffer after [render_scanline], pixel by pixel. *)
Lemma render_scanline_pixel (g : GBASystem) (d : Display) (index : Z) :
  (~ in_row (scanline d) index ->
   framebuffer (render_scanline g d) index = framebuffer d index)
  /\ (in_row (scanline d) index ->
      opaque (framebuffer (render_scanline g d) index)
      /\ (nz (Z.land (dispcnt (ppu g)) DISPCNT_FORCED_BLANK) = true ->
          framebuffer (render_scanline g d) index = 0xFFFFFFFF)).
Proof.
  unfold render_scanline. cbn [framebuffer]. cbv zeta.
  set (fill := fun v fb =>
    for_loop 240 (fun i fb =>
      put_pixel (scanline d * GBA_SCREEN_WIDTH + Z.of_nat i) v fb) fb).
  assert (Hin : forall v fb, in_row (scanline d) index -> fill v fb index = v).
  { intros v fb H. unfold fill. rewrite for_loop_fill.
    change (Z.of_nat 240) with 240. unfold in_row, GBA_SCREEN_WIDTH in *.
    case_bounds. reflexivity. }
  assert (Hout : forall v fb, ~ in_row (scanline d) index ->
                              fill v fb index = fb index).
  { intros v fb H. unfold fill. rewrite for_loop_fill.
    change (Z.of_nat 240) with 240. unfold in_row, GBA_SCREEN_WIDTH in *.
    case_bounds; cbn [andb]; reflexivity || lia. }
  destruct (nz (Z.land (dispcnt (ppu g)) DISPCNT_FORCED_BLANK)).
  - split; [apply Hout|]. intros H. fold (fill 0xFFFFFFFF (framebuffer d)).
    rewrite Hin by exact H. split; [reflexivity | auto].
  - set (backdrop := convert_color (read16 (memory g) PALETTE_RAM_BASE)).
    fold (fill backdrop (framebuffer d)).
    pose (Q := fun fb : Z -> Z =>
      (~ in_row (scanline d) index -> fb index = framebuffer d index)
      /\ (in_row (scanline d) index -> opaque (fb index))).
    assert (Hstep : forall f fb, paints (scanline d) opaque f ->
                                 Q fb -> Q (f fb)).
    { intros f fb Hf (H1 & H2).
      destruct (Hf fb index) as [E | (Hr & Ho)]; unfold Q.
      - rewrite E. auto.
      - split; [contradiction | auto]. }
    assert (H0 : Q (fill backdrop (framebuffer d))).
    { split; [apply Hout|]. intros H. rewrite Hin by exact H.
      apply convert_color_opaque. }
    match goal with
    | |- (_ -> ?x index = _) /\ _ => cut (Q x)
    end.
    { unfold Q. intros (H1 & H2). split; [exact H1|].
      intros H. split; [auto | discriminate]. }
    destruct (nz (Z.land _ DISPCNT_SCREEN_DISPLAY_OBJ));
      [apply Hstep; [apply render_sprites_paints|]|];
      (destruct (_ =? 0); [apply Hstep;
         [apply render_background_mode0_paints | exact H0]|]);
      (destruct (_ =? 1); [apply Hstep;
         [apply render_background_mode1_paints | exact H0]|]);
      (destruct (_ =? 2); [apply Hstep;
         [apply render_background_mode2_paints | exact H0]|]);
      (destruct (_ =? 3); [apply Hstep;
         [apply render_background_mode3_paints | exact H0]|]);
      (destruct (_ =? 4); [apply Hstep;
         [apply render_background_mode4_paints | exact H0]|]);
      (destruct (_ =? 5); [apply Hstep;
         [apply render_background_mode5_paints | exact H0]|]);
      exact H0.
Qed.



(** ** Display timing *)

Lemma request_interrupt_valid (interrupt_type : Z) (g : GBASystem) :
  0 <= interrupt_type <= 13 ->
  request_interrupt interrupt_type g
  = set_interrupt_flags
      (fun v => u16 (Z.lor v (Z.shiftl 1 interrupt_type))) g.
Proof.
  intros H. unfold request_interrupt.
  destruct (Z.ltb_spec interrupt_type 0); [lia|].
  destruct (Z.gtb_spec interrupt_type 13); [lia|]. reflexivity.
Qed.

Lemma testbit_set16 (v k i : Z) :
  0 <= k -> 0 <= i < 16 ->
  Z.testbit (u16 (Z.lor v (Z.shiftl 1 k))) i = Z.testbit v i || (i =? k).
Proof.
  intros Hk Hi.
  rewrite Bits.testbit_u16, Z.lor_spec, Z.shiftl_1_l, Z.pow2_bits_eqb by lia.
  destruct (Z.ltb_spec i 16); [|lia]. rewrite (Z.eqb_sym k i). reflexivity.
Qed.

Lemma testbit_clear16 (v k i : Z) :
  0 <= k -> 0 <= i < 16 ->
  Z.testbit (u16 (Z.land v (Z.lnot (Z.shiftl 1 k)))) i
  = Z.testbit v i && negb (i =? k).
Proof.
  intros Hk Hi.
  rewrite Bits.testbit_u16, Z.land_spec, Z.lnot_spec, Z.shiftl_1_l,
    Z.pow2_bits_eqb by lia.
  destruct (Z.ltb_spec i 16); [|lia]. rewrite (Z.eqb_sym k i). reflexivity.
Qed.

Lemma testbit_setting_mask (i : Z) :
  0 <= i -> Z.testbit DISPSTAT_VCOUNT_SETTING_MASK i = (8 <=? i) && (i <? 16).
Proof.
  intros Hi. change DISPSTAT_VCOUNT_SETTING_MASK with (Z.shiftl (Z.ones 8) 8).
  destruct (Z.leb_spec 8 i).
  - rewrite Z.shiftl_spec, testbit_ones_range by lia. case_bounds; reflexivity.
  - rewrite Z.shiftl_spec_low by lia. reflexivity.
Qed.

(** The V-count setting is the high byte of the status register. *)
Lemma setting_of_bits (a b : Z) :
  (forall i, 8 <= i < 16 -> Z.testbit a i = Z.testbit b i) ->
  u8 (Z.shiftr (Z.land a DISPSTAT_VCOUNT_SETTING_MASK) 8)
  = u8 (Z.shiftr (Z.land b DISPSTAT_VCOUNT_SETTING_MASK) 8).
Proof.
  intros H. apply Z.bits_inj'. intros n Hn.
  rewrite !testbit_u8, !Z.shiftr_spec, !Z.land_spec, testbit_setting_mask
    by lia.
  destruct (Z.ltb_spec n 8); [|reflexivity].
  rewrite H by lia. reflexivity.
Qed.

Lemma setting_set16 (v k : Z) :
  0 <= k < 8 ->
  u8 (Z.shiftr (Z.land (u16 (Z.lor v (Z.shiftl 1 k)))
                       DISPSTAT_VCOUNT_SETTING_MASK) 8)
  = u8 (Z.shiftr (Z.land v DISPSTAT_VCOUNT_SETTING_MASK) 8).
Proof.
  intros Hk. apply setting_of_bits. intros i Hi.
  rewrite testbit_set16 by lia.
  destruct (Z.eqb_spec i k); [lia | apply orb_false_r].
Qed.

Lemma setting_clear16 (v k : Z) :
  0 <= k < 8 ->
  u8 (Z.shiftr (Z.land (u16 (Z.land v (Z.lnot (Z.shiftl 1 k))))
                       DISPSTAT_VCOUNT_SETTING_MASK) 8)
  = u8 (Z.shiftr (Z.land v DISPSTAT_VCOUNT_SETTING_MASK) 8).
Proof.
  intros Hk. apply setting_of_bits. intros i Hi.
  rewrite testbit_clear16 by lia.
  destruct (Z.eqb_spec i k); [lia | apply andb_true_r].
Qed.

(** Projections of the registers after the updates of a step. *)
Ltac ppu_norm :=
  cbn [system display dot scanline framebuffer ppu dispstat vcount dispcnt
       bg_control bg_scroll_x bg_scroll_y cpu memory running interrupt_enable
       interrupt_flags interrupt_master console set_ppu set_dispstat
       set_vcount set_interrupt_flags];
  repeat first [ rewrite setting_set16 by lia
               | rewrite setting_clear16 by lia
               | rewrite testbit_set16 by lia
               | rewrite testbit_clear16 by lia ];
  cbn [Z.eqb Pos.eqb negb andb orb];
  rewrite ?orb_false_r, ?andb_true_r, ?andb_false_r, ?orb_true_r.

(** Case analysis on the tests of a step, innermost first. *)
Ltac ppu_cases :=
  repeat (ppu_norm;
          match goal with
          | |- context [if ?c then _ else _] =>
              lazymatch c with
              | context [if _ then _ else _] => fail
              | _ => destruct c eqn:?
              end
          end); ppu_norm.

Ltac ppu_unfold :=
  unfold GBAPPU_step;
  rewrite !request_interrupt_valid by lia;
  change DISPSTAT_HBLANK_IRQ_ENABLE with (Z.shiftl 1 4);
  change DISPSTAT_VCOUNT_IRQ_ENABLE with (Z.shiftl 1 5);
  change DISPSTAT_VBLANK_IRQ_ENABLE with (Z.shiftl 1 3);
  change DISPSTAT_VBLANK with (Z.shiftl 1 0);
  change DISPSTAT_HBLANK with (Z.shiftl 1 1);
  change DISPSTAT_VCOUNT_MATCH with (Z.shiftl 1 2);
  rewrite !Bits.nz_land_pow2 by lia.

(** What a step of the picture unit leaves alone. *)
Lemma ppu_step_frame (m : Machine) :
  cpu (system (GBAPPU_step m)) = cpu (system m)
  /\ memory (system (GBAPPU_step m)) = memory (system m)
  /\ running (system (GBAPPU_step m)) = running (system m)
  /\ interrupt_enable (system (GBAPPU_step m)) = interrupt_enable (system m)
  /\ interrupt_master (system (GBAPPU_step m)) = interrupt_master (system m)
  /\ console (system (GBAPPU_step m)) = console (system m)
  /\ dispcnt (ppu (system (GBAPPU_step m))) = dispcnt (ppu (system m))
  /\ bg_control (ppu (system (GBAPPU_step m))) = bg_control (ppu (system m))
  /\ bg_scroll_x (ppu (system (GBAPPU_step m))) = bg_scroll_x (ppu (system m))
  /\ bg_scroll_y (ppu (system (GBAPPU_step m))) = bg_scroll_y (ppu (system m)).
Proof.
  generalize (eq_refl (system (GBAPPU_step m))).
  generalize (system (GBAPPU_step m)) at 1 3 4 5 6 7 8 9 10 11 12.
  intros g'. ppu_unfold. ppu_cases; intros ->; repeat split.
Qed.

Lemma ppu_step_vcount (m : Machine) :
  vcount (ppu (system (GBAPPU_step m)))
  = if dot (display m) + 1 >=? DOTS_PER_SCANLINE then
      if scanline (display m) + 1 >=? TOTAL_SCANLINES then 0
      else u16 (scanline (display m) + 1)
    else vcount (ppu (system m)).
Proof.
  ppu_unfold. ppu_cases; reflexivity.
Qed.

(** The tests of a step as facts about numbers. *)
Ltac ppu_facts :=
  repeat match goal with
         | H : (_ =? _) = true |- _ => apply Z.eqb_eq in H
         | H : (_ =? _) = false |- _ => apply Z.eqb_neq in H
         | H : (_ >=? _) = true |- _ =>
             rewrite Z.geb_leb in H; apply Z.leb_le in H
         | H : (_ >=? _) = false |- _ =>
             rewrite Z.geb_leb in H; apply Z.leb_gt in H
         | H : (_ <? _) = true |- _ => apply Z.ltb_lt in H
         | H : (_ <? _) = false |- _ => apply Z.ltb_ge in H
         end;
  unfold DOTS_PER_SCANLINE, TOTAL_SCANLINES, GBA_SCREEN_HEIGHT in *.

Lemma ppu_step_vblank_flag (m : Machine) :
  Z.testbit (dispstat (ppu (system (GBAPPU_step m)))) 0
  = if dot (display m) + 1 >=? DOTS_PER_SCANLINE then
      if scanline (display m) + 1 >=? TOTAL_SCANLINES then false
      else if scanline (display m) + 1 =? GBA_SCREEN_HEIGHT then true
      else Z.testbit (dispstat (ppu (system m))) 0
    else Z.testbit (dispstat (ppu (system m))) 0.
Proof.
  ppu_unfold. ppu_cases; try reflexivity; ppu_facts; lia.
Qed.

Lemma ppu_step_hblank_flag (m : Machine) :
  Z.testbit (dispstat (ppu (system (GBAPPU_step m)))) 1
  = if dot (display m) + 1 >=? DOTS_PER_SCANLINE then false
    else if dot (display m) + 1 =? 240 then true
    else Z.testbit (dispstat (ppu (system m))) 1.
Proof.
  ppu_unfold. ppu_cases; try reflexivity; ppu_facts; lia.
Qed.

Lemma ppu_step_match_flag (m : Machine) :
  Z.testbit (dispstat (ppu (system (GBAPPU_step m)))) 2
  = if dot (display m) + 1 >=? DOTS_PER_SCANLINE then
      u16 (scanline (display m) + 1)
      =? u8 (Z.shiftr (Z.land (dispstat (ppu (system m)))
                              DISPSTAT_VCOUNT_SETTING_MASK) 8)
    else Z.testbit (dispstat (ppu (system m))) 2.
Proof.
  ppu_unfold. ppu_cases; try reflexivity; ppu_facts; lia.
Qed.



(** The display after a step of the picture unit. *)
Lemma ppu_step_display (m : Machine) :
  display (GBAPPU_step m)
  = if dot (display m) + 1 >=? DOTS_PER_SCANLINE then
      let line := if scanline (display m) + 1 >=? TOTAL_SCANLINES then 0
                  else scanline (display m) + 1 in
      if line <? GBA_SCREEN_HEIGHT then
        render_scanline (system (GBAPPU_step m))
                        (mkDisplay line 0 (framebuffer (display m)))
      else mkDisplay line 0 (framebuffer (display m))
    else mkDisplay (scanline (display m)) (dot (display m) + 1)
                   (framebuffer (display m)).
Proof.
  unfold GBAPPU_step. cbn [dot scanline framebuffer].
  destruct (dot (display m) + 1 >=? DOTS_PER_SCANLINE); [|reflexivity].
  destruct (scanline (display m) + 1 >=? TOTAL_SCANLINES); cbn [scanline];
    match goal with |- context [?a <? ?b] => destruct (a <? b) end;
    reflexivity.
Qed.

Lemma ppu_step_counters (m : Machine) :
  dot (display (GBAPPU_step m))
  = (if dot (display m) + 1 >=? DOTS_PER_SCANLINE then 0
     else dot (display m) + 1)
  /\ scanline (display (GBAPPU_step m))
     = (if dot (display m) + 1 >=? DOTS_PER_SCANLINE then
          if scanline (display m) + 1 >=? TOTAL_SCANLINES then 0
          else scanline (display m) + 1
        else scanline (display m)).
Proof.
  rewrite ppu_step_display. cbv zeta.
  destruct (dot (display m) + 1 >=? DOTS_PER_SCANLINE); [|split; reflexivity].
  match goal with |- context [?a <? ?b] => destruct (a <? b) end;
    split; reflexivity.
Qed.

Lemma ppu_step_wf (m : Machine) :
  wf_display (display m) ->
  wf_display (display (GBAPPU_step m))
  /\ position (display (GBAPPU_step m))
     = (position (display m) + 1) mod frame_dots.
Proof.
  unfold wf_display, position, frame_dots. intros (Hd & Hs).
  destruct (ppu_step_counters m) as (-> & ->).
  unfold DOTS_PER_SCANLINE, TOTAL_SCANLINES in *.
  destruct (Z.geb_spec (dot (display m) + 1) 308);
    [destruct (Z.geb_spec (scanline (display m) + 1) 228)|].
  - split; [lia|].
    replace (scanline (display m) * 308 + dot (display m) + 1)
      with (308 * 228) by lia.
    rewrite Z.mod_same by lia. reflexivity.
  - split; [lia|]. rewrite Z.mod_small by lia. lia.
  - split; [lia|]. rewrite Z.mod_small by lia. lia.
Qed.

Lemma ppu_step_status (m : Machine) :
  wf_display (display m) -> status_tracks m -> status_tracks (GBAPPU_step m).
Proof.
  unfold wf_display, status_tracks. intros (Hd & Hs) (Hh & Hv & Hc).
  destruct (ppu_step_counters m) as (-> & ->).
  rewrite ppu_step_hblank_flag, ppu_step_vblank_flag, ppu_step_vcount.
  rewrite Hh, Hv, Hc.
  unfold DOTS_PER_SCANLINE, TOTAL_SCANLINES, GBA_SCREEN_HEIGHT in *.
  destruct (Z.geb_spec (dot (display m) + 1) 308);
    [destruct (Z.geb_spec (scanline (display m) + 1) 228)|].
  - repeat split.
  - destruct (Z.eqb_spec (scanline (display m) + 1) 160).
    + repeat split; try (symmetry; apply Z.leb_le; lia).
      unfold u16. apply Z.mod_small. lia.
    + repeat split.
      * destruct (Z.leb_spec 160 (scanline (display m)));
          symmetry; [apply Z.leb_le | apply Z.leb_gt]; lia.
      * unfold u16. apply Z.mod_small. lia.
  - destruct (Z.eqb_spec (dot (display m) + 1) 240).
    + repeat split. symmetry. apply Z.leb_le. lia.
    + repeat split.
      destruct (Z.leb_spec 240 (dot (display m)));
        symmetry; [apply Z.leb_le | apply Z.leb_gt]; lia.
Qed.

(** The frame buffer after a step of the picture unit, pixel by pixel. *)
Lemma ppu_step_framebuffer (m : Machine) (index : Z) :
  let d' := display (GBAPPU_step m) in
  let rendered :=
    (dot (display m) + 1 >=? DOTS_PER_SCANLINE)
    && (scanline d' <? GBA_SCREEN_HEIGHT) in
  (rendered = false \/ ~ in_row (scanline d') index ->
   framebuffer d' index = framebuffer (display m) index)
  /\ (rendered = true -> in_row (scanline d') index ->
      opaque (framebuffer d' index)
      /\ (nz (Z.land (dispcnt (ppu (system m))) DISPCNT_FORCED_BLANK) = true ->
          framebuffer d' index = 0xFFFFFFFF)).
Proof.
  cbv zeta. destruct (ppu_step_counters m) as (_ & ->).
  rewrite ppu_step_display. cbv zeta.
  destruct (ppu_step_frame m) as (_ & _ & _ & _ & _ & _ & Hdc & _).
  rewrite <- Hdc.
  destruct (dot (display m) + 1 >=? DOTS_PER_SCANLINE); cbn [andb].
  - set (line := if scanline (display m) + 1 >=? TOTAL_SCANLINES then 0
                 else scanline (display m) + 1).
    destruct (line <? GBA_SCREEN_HEIGHT).
    + pose proof (render_scanline_pixel (system (GBAPPU_step m))
        (mkDisplay line 0 (framebuffer (display m))) index) as (H1 & H2).
      cbn [scanline framebuffer] in H1, H2.
      split; [intros [H | H]; [discriminate | auto] | auto].
    + split; [reflexivity | discriminate].
  - split; [reflexivity | discriminate].
Qed.

(** X26.  The display counters stay inside the frame.  After
    [GBAPPU::init] they are at dot 0 of line 0 with both blanking flags
    clear; every step moves them one dot forward, modulo the 308 x 228 dots
    of a frame; and as long as nothing else writes the status register, its
    H-blank flag says that the dot counter is at 240 or beyond, its V-blank
    flag that the line counter is at 160 or beyond, and the vertical counter
    register equals the line counter. *)
Theorem ppu_step_timing (m : Machine) :
  (wf_display (display (Machine_init m)) /\ status_tracks (Machine_init m)
   /\ position (display (Machine_init m)) = 0)
  /\ (wf_display (display m) ->
      wf_display (display (GBAPPU_step m))
      /\ position (display (GBAPPU_step m))
         = (position (display m) + 1) mod frame_dots
      /\ (status_tracks m -> status_tracks (GBAPPU_step m))).
Proof.
  split.
  - split; [|split; [|reflexivity]].
    + unfold wf_display, DOTS_PER_SCANLINE, TOTAL_SCANLINES. cbn. lia.
    + repeat split.
  - intros Hwf. destruct (ppu_step_wf m Hwf) as (Hw & Hp).
    split; [exact Hw|]. split; [exact Hp|]. apply ppu_step_status, Hwf.
Qed.

Lemma ppu_step_timing_witness :
  wf_display (display machine_new)
  /\ position (display (GBAPPU_step machine_new))
     = (position (display machine_new) + 1) mod frame_dots.
Proof.
  assert (W : wf_display (display machine_new)).
  { unfold wf_display, DOTS_PER_SCANLINE, TOTAL_SCANLINES. cbn. lia. }
  split; [exact W|].
  destruct (ppu_step_timing machine_new) as (_ & H).
  destruct (H W) as (_ & Hp & _). exact Hp.
Defined.



(** X28.  The V-count comparison is made before the line counter wraps.
    After a step that ends a line the vertical counter register equals the
    line counter, and the match flag of the status register says whether it
    equals the V-count setting, except at the end of the frame: there the
    comparison sees 228, so line 0 begins with the match flag clear when the
    setting is 0, and set when the setting is 228, a line that does not
    exist. *)
Theorem vcount_match_before_wrap (m : Machine) :
  wf_display (display m) ->
  dot (display m) = DOTS_PER_SCANLINE - 1 ->
  let setting :=
    u8 (Z.shiftr (Z.land (dispstat (ppu (system m)))
                         DISPSTAT_VCOUNT_SETTING_MASK) 8) in
  let m' := GBAPPU_step m in
  vcount (ppu (system m')) = scanline (display m')
  /\ dot (display m') = 0
  /\ (scanline (display m) < TOTAL_SCANLINES - 1 ->
      scanline (display m') = scanline (display m) + 1
      /\ Z.testbit (dispstat (ppu (system m'))) 2
         = (vcount (ppu (system m')) =? setting))
  /\ (scanline (display m) = TOTAL_SCANLINES - 1 ->
      scanline (display m') = 0
      /\ Z.testbit (dispstat (ppu (system m'))) 2
         = (setting =? TOTAL_SCANLINES)).
Proof.
  intros (Hd & Hs) Hdot. cbv zeta.
  destruct (ppu_step_counters m) as (-> & ->).
  rewrite ppu_step_vcount, ppu_step_match_flag.
  unfold DOTS_PER_SCANLINE, TOTAL_SCANLINES in *.
  destruct (Z.geb_spec (dot (display m) + 1) 308); [|lia].
  assert (Hu : u16 (scanline (display m) + 1) = scanline (display m) + 1)
    by (unfold u16; apply Z.mod_small; lia).
  rewrite Hu.
  destruct (Z.geb_spec (scanline (display m) + 1) 228).
  - split; [reflexivity|]. split; [reflexivity|]. split; [lia|].
    intros _. split; [reflexivity|].
    replace (scanline (display m) + 1) with 228 by lia.
    apply Z.eqb_sym.
  - split; [reflexivity|]. split; [reflexivity|]. split; [|lia].
    intros _. split; reflexivity.
Qed.

Lemma vcount_match_before_wrap_witness :
  vcount (ppu (system (GBAPPU_step machine_before_wrap))) = 0
  /\ Z.testbit (dispstat (ppu (system (GBAPPU_step machine_before_wrap)))) 2
     = false.
Proof.
  assert (W : wf_display (display machine_before_wrap)).
  { unfold wf_display, DOTS_PER_SCANLINE, TOTAL_SCANLINES. cbn. lia. }
  assert (D : dot (display machine_before_wrap) = DOTS_PER_SCANLINE - 1)
    by reflexivity.
  destruct (vcount_match_before_wrap machine_before_wrap W D)
    as (Hv & _ & _ & Hw).
  destruct (Hw eq_refl) as (Hs & Hm).
  split; [rewrite Hv; exact Hs | rewrite Hm; reflexivity].
Defined.

(** ** The frame loop *)

Ltac frame_numbers :=
  unfold frame_dots, DOTS_PER_SCANLINE, TOTAL_SCANLINES, GBA_SCREEN_WIDTH,
    GBA_SCREEN_HEIGHT in *.

Lemma step_running (g : GBASystem) : running (step g) = running g.
Proof.
  unfold step, execute_arm, execute_thumb, handle_irq.
  repeat match goal with |- context [if ?b then _ else _] => destruct b end;
    reflexivity.
Qed.

Lemma step_ppu (g : GBASystem) : ppu (step g) = ppu g.
Proof.
  destruct (irq_eligible g) eqn:E.
  - rewrite (step_when_eligible g E). reflexivity.
  - apply (step_fetches g E).
Qed.

Lemma machine_step_wf (m : Machine) :
  wf_display (display m) ->
  wf_display (display (machine_step m))
  /\ position (display (machine_step m))
     = (position (display m) + 1) mod frame_dots.
Proof.
  intros H. apply (ppu_step_wf (mkMachine (step (system m)) (display m))), H.
Qed.

Lemma machine_step_status (m : Machine) :
  wf_display (display m) -> status_tracks m -> status_tracks (machine_step m).
Proof.
  intros Hwf H.
  apply (ppu_step_status (mkMachine (step (system m)) (display m)));
    [exact Hwf|].
  unfold status_tracks in *. cbn [system display]. rewrite step_ppu. exact H.
Qed.

Lemma machine_step_running (m : Machine) :
  running (system (machine_step m)) = running (system m).
Proof.
  unfold machine_step.
  destruct (ppu_step_frame (mkMachine (step (system m)) (display m)))
    as (_ & _ & -> & _).
  apply step_running.
Qed.

Lemma machine_step_cycles (m : Machine) :
  cycles (cpu (system m)) + 1 <= cycles (cpu (system (machine_step m)))
  <= cycles (cpu (system m)) + 3.
Proof.
  unfold machine_step.
  destruct (ppu_step_frame (mkMachine (step (system m)) (display m)))
    as (-> & _).
  cbn [system]. rewrite step_cycles. destruct (irq_eligible (system m)); lia.
Qed.

Lemma wf_position (d : Display) :
  wf_display d -> 0 <= position d < frame_dots.
Proof.
  unfold wf_display, position, frame_dots, DOTS_PER_SCANLINE, TOTAL_SCANLINES.
  lia.
Qed.

Lemma position_counters (d : Display) (line k : Z) :
  wf_display d -> 0 <= k < DOTS_PER_SCANLINE ->
  position d = line * DOTS_PER_SCANLINE + k ->
  scanline d = line /\ dot d = k.
Proof.
  unfold wf_display, position, DOTS_PER_SCANLINE, TOTAL_SCANLINES. lia.
Qed.

Lemma machine_steps_succ (n : nat) (m : Machine) :
  machine_steps (S n) m = machine_step (machine_steps n m).
Proof. reflexivity. Qed.

Lemma machine_steps_add (a b : nat) (m : Machine) :
  machine_steps (a + b) m = machine_steps a (machine_steps b m).
Proof. unfold machine_steps. apply Nat.iter_add. Qed.

Lemma machine_steps_wf (n : nat) (m : Machine) :
  wf_display (display m) ->
  wf_display (display (machine_steps n m))
  /\ position (display (machine_steps n m))
     = (position (display m) + Z.of_nat n) mod frame_dots.
Proof.
  intros Hwf. induction n as [|n (IHw & IHp)].
  - split; [exact Hwf|]. cbn [machine_steps Nat.iter Z.of_nat].
    rewrite Z.add_0_r, Z.mod_small; [reflexivity | apply wf_position, Hwf].
  - rewrite machine_steps_succ.
    destruct (machine_step_wf _ IHw) as (Hw & Hp). split; [exact Hw|].
    rewrite Hp, IHp, Zplus_mod_idemp_l. f_equal. lia.
Qed.

Lemma machine_steps_status (n : nat) (m : Machine) :
  wf_display (display m) -> status_tracks m ->
  status_tracks (machine_steps n m).
Proof.
  intros Hwf H. induction n as [|n IH]; [exact H|].
  rewrite machine_steps_succ. apply machine_step_status; [|exact IH].
  apply machine_steps_wf, Hwf.
Qed.

Lemma machine_steps_running (n : nat) (m : Machine) :
  running (system (machine_steps n m)) = running (system m).
Proof.
  induction n as [|n IH]; [reflexivity|].
  rewrite machine_steps_succ, machine_step_running. exact IH.
Qed.

Lemma machine_steps_cycles (n : nat) (m : Machine) :
  cycles (cpu (system m)) + Z.of_nat n
  <= cycles (cpu (system (machine_steps n m)))
  <= cycles (cpu (system m)) + 3 * Z.of_nat n.
Proof.
  induction n as [|n IH]; [cbn; lia|].
  rewrite machine_steps_succ.
  pose proof (machine_step_cycles (machine_steps n m)). lia.
Qed.

Lemma loop_while_stops {S : Type} (n : nat) (cond : S -> bool)
    (body : S -> S) (s : S) :
  cond s = false -> loop_while n cond body s = s.
Proof. intros H. destruct n; cbn; [|rewrite H]; reflexivity. Qed.

Lemma loop_while_iter {S : Type} (n : nat) (cond : S -> bool)
    (body : S -> S) (s : S) :
  (forall x, cond (body x) = cond x) -> cond s = true ->
  loop_while n cond body s = Nat.iter n body s.
Proof.
  intros Hc. revert s. induction n as [|n IH]; intros s Hs; [reflexivity|].
  cbn [loop_while]. rewrite Hs, IH by (rewrite Hc; exact Hs).
  symmetry. apply Nat.iter_succ_r.
Qed.

Lemma run_frame_steps (m : Machine) :
  running (system m) = true ->
  run_frame m = machine_steps (Z.to_nat 280896) m.
Proof.
  intros H. unfold run_frame, machine_steps.
  apply (loop_while_iter _ (fun m => running (system m))); [|exact H].
  intros x. apply (machine_step_running x).
Qed.

(** ** What the frame loop draws *)

Lemma in_row_cases (line index : Z) :
  in_row line index \/ ~ in_row line index.
Proof. unfold in_row. lia. Qed.

Lemma machine_step_pixel (m : Machine) (index : Z) :
  wf_display (display m) ->
  let line := scanline (display (machine_step m)) in
  let rendered :=
    (dot (display m) + 1 >=? DOTS_PER_SCANLINE) && (line <? GBA_SCREEN_HEIGHT)
    in
  (rendered = true /\ in_row line index
   /\ opaque (framebuffer (display (machine_step m)) index))
  \/ ((rendered = false \/ ~ in_row line index)
      /\ framebuffer (display (machine_step m)) index
         = framebuffer (display m) index).
Proof.
  intros Hwf. cbv zeta.
  pose proof (ppu_step_framebuffer
    (mkMachine (step (system m)) (display m)) index) as H.
  cbv zeta in H. cbn [display] in H. fold (machine_step m) in H.
  destruct H as (H1 & H2).
  destruct ((dot (display m) + 1 >=? DOTS_PER_SCANLINE)
            && (scanline (display (machine_step m)) <? GBA_SCREEN_HEIGHT)).
  - destruct (in_row_cases (scanline (display (machine_step m))) index)
      as [Hr|Hr].
    + left. split; [reflexivity|]. split; [exact Hr|]. apply H2; auto.
    + right. split; auto.
  - right. split; auto.
Qed.

Lemma machine_steps_opaque (n : nat) (m : Machine) (index : Z) :
  wf_display (display m) ->
  opaque (framebuffer (display m) index) ->
  opaque (framebuffer (display (machine_steps n m)) index).
Proof.
  intros Hwf H. induction n as [|n IH]; [exact H|].
  rewrite machine_steps_succ.
  destruct (machine_step_pixel (machine_steps n m) index
              (proj1 (machine_steps_wf n m Hwf))) as [(_ & _ & Ho) | (_ & E)].
  - exact Ho.
  - rewrite E. exact IH.
Qed.

Lemma machine_steps_outside (n : nat) (m : Machine) (index : Z) :
  wf_display (display m) ->
  ~ 0 <= index < GBA_SCREEN_WIDTH * GBA_SCREEN_HEIGHT ->
  framebuffer (display (machine_steps n m)) index
  = framebuffer (display m) index.
Proof.
  intros Hwf Hout. induction n as [|n IH]; [reflexivity|].
  rewrite machine_steps_succ.
  pose proof (machine_steps_wf n m Hwf) as (Hw & _).
  destruct (machine_step_pixel (machine_steps n m) index Hw)
    as [(Hr & Hin & _) | (_ & E)].
  - exfalso. apply andb_true_iff in Hr. destruct Hr as (_ & Hl).
    apply Z.ltb_lt in Hl.
    destruct (machine_step_wf _ Hw) as ((_ & Hs) & _).
    unfold in_row, GBA_SCREEN_WIDTH, GBA_SCREEN_HEIGHT in *. lia.
  - rewrite E. exact IH.
Qed.

(** A step from the last dot of a line draws the next line, if visible. *)
Lemma machine_step_draws (m : Machine) (line index : Z) :
  wf_display (display m) ->
  0 <= line < GBA_SCREEN_HEIGHT ->
  position (display m)
  = (line * DOTS_PER_SCANLINE + frame_dots - 1) mod frame_dots ->
  in_row line index ->
  opaque (framebuffer (display (machine_step m)) index).
Proof.
  intros Hwf Hl Hp Hin.
  destruct (machine_step_wf m Hwf) as (Hw' & Hp').
  assert (Hd : (dot (display m) + 1 >=? DOTS_PER_SCANLINE) = true
               /\ scanline (display (machine_step m)) = line).
  { rewrite Hp, Zplus_mod_idemp_l in Hp'.
    replace (line * DOTS_PER_SCANLINE + frame_dots - 1 + 1)
      with (line * DOTS_PER_SCANLINE + 1 * frame_dots) in Hp' by lia.
    rewrite Z.mod_add in Hp' by (frame_numbers; lia).
    unfold frame_dots, GBA_SCREEN_HEIGHT, DOTS_PER_SCANLINE, TOTAL_SCANLINES
      in *.
    rewrite Z.mod_small in Hp' by lia.
    assert (H0 : 0 <= 0 < DOTS_PER_SCANLINE)
      by (unfold DOTS_PER_SCANLINE; lia).
    destruct (position_counters _ line 0 Hw' H0) as (Hs' & Hd');
      [unfold DOTS_PER_SCANLINE; lia|].
    split; [|exact Hs'].
    pose proof (proj1 (ppu_step_counters
      (mkMachine (step (system m)) (display m)))) as Hc.
    cbn [display] in Hc. fold (machine_step m) in Hc.
    unfold DOTS_PER_SCANLINE in Hc.
    destruct (Z.geb_spec (dot (display m) + 1) 308); [reflexivity|].
    exfalso. destruct Hwf as (Hdot & _). rewrite Hd' in Hc. lia. }
  destruct Hd as (He & Hs).
  destruct (machine_step_pixel m index Hwf)
    as [(_ & _ & Ho) | ([Hr | Hr] & _)].
  - exact Ho.
  - rewrite He, Hs in Hr. cbn [andb] in Hr. apply Z.ltb_ge in Hr. lia.
  - rewrite Hs in Hr. contradiction.
Qed.

Lemma machine_steps_draw_all (n : nat) (m : Machine) (index : Z) :
  wf_display (display m) ->
  frame_dots <= Z.of_nat n ->
  0 <= index < GBA_SCREEN_WIDTH * GBA_SCREEN_HEIGHT ->
  opaque (framebuffer (display (machine_steps n m)) index).
Proof.
  intros Hwf Hn Hi.
  set (line := index / GBA_SCREEN_WIDTH).
  assert (Hline : 0 <= line < GBA_SCREEN_HEIGHT /\ in_row line index).
  { unfold line, in_row, GBA_SCREEN_WIDTH, GBA_SCREEN_HEIGHT in *.
    pose proof (Z.div_mod index 240 ltac:(lia)).
    pose proof (Z.mod_pos_bound index 240 ltac:(lia)). lia. }
  destruct Hline as (Hl & Hin).
  set (q := (line * DOTS_PER_SCANLINE + frame_dots - 1) mod frame_dots).
  set (j := (q - position (display m)) mod frame_dots).
  assert (Hj : 0 <= j < frame_dots)
    by (apply Z.mod_pos_bound; frame_numbers; lia).
  assert (En : n = (Z.to_nat (Z.of_nat n - j - 1) + S (Z.to_nat j))%nat) by lia.
  rewrite En, machine_steps_add, machine_steps_succ.
  destruct (machine_steps_wf (Z.to_nat j) m Hwf) as (Hw & Hp).
  apply machine_steps_opaque.
  - apply machine_step_wf, Hw.
  - apply (machine_step_draws _ line); auto.
    rewrite Hp, Z2Nat.id by lia. unfold j.
    rewrite Zplus_mod_idemp_r.
    replace (position (display m) + (q - position (display m))) with q by lia.
    unfold q. apply Z.mod_mod. frame_numbers; lia.
Qed.

(** X29.  [run_frame] does nothing when the machine is not running.  When
    it is, the loop never stops early, because no step clears [running]: it
    makes 280896 CPU steps and 280896 dots, which is four frames of the
    display, not one, so the dot and line counters end where they started,
    and the blanking flags keep following the counters.  When the cycle
    counter, an [int], starts at least 3 x 280896 below its maximum, it
    stays inside the range of an [int] at every iteration and grows by
    between 280896 and 3 x 280896 over the call. *)
Theorem run_frame_four_frames (m : Machine) :
  280896 = 4 * frame_dots
  /\ (running (system m) = false -> run_frame m = m)
  /\ (running (system m) = true -> wf_display (display m) ->
      run_frame m = machine_steps (Z.to_nat 280896) m
      /\ running (system (run_frame m)) = true
      /\ dot (display (run_frame m)) = dot (display m)
      /\ scanline (display (run_frame m)) = scanline (display m)
      /\ (status_tracks m -> status_tracks (run_frame m))
      /\ (int_range (cycles (cpu (system m))) ->
          cycles (cpu (system m)) + 3 * 280896 <= INT_MAX ->
          (forall k, (k <= Z.to_nat 280896)%nat ->
             int_range (cycles (cpu (system (machine_steps k m)))))
          /\ cycles (cpu (system m)) + 280896
             <= cycles (cpu (system (run_frame m)))
             <= cycles (cpu (system m)) + 3 * 280896)).
Proof.
  split; [reflexivity|]. split.
  - intros H. unfold run_frame.
    apply (loop_while_stops _ (fun m => running (system m))), H.
  - intros Hr Hwf. rewrite (run_frame_steps m Hr).
    split; [reflexivity|].
    split; [rewrite machine_steps_running; exact Hr|].
    destruct (machine_steps_wf (Z.to_nat 280896) m Hwf) as (Hw & Hp).
    rewrite Z2Nat.id in Hp by lia.
    replace (position (display m) + 280896)
      with (position (display m) + 4 * frame_dots) in Hp by reflexivity.
    rewrite Z.mod_add, Z.mod_small in Hp
      by (try apply wf_position; try exact Hwf; frame_numbers; lia).
    pose proof Hwf as (Hd & Hs).
    destruct (position_counters _ (scanline (display m)) (dot (display m))
                Hw Hd Hp) as (Hs' & Hd').
    split; [exact Hd'|]. split; [exact Hs'|]. split.
    + apply machine_steps_status, Hwf.
    + intros Hrange Hmax. split.
      * intros k Hk. pose proof (machine_steps_cycles k m) as Hc.
        unfold int_range, INT_MAX in *. lia.
      * pose proof (machine_steps_cycles (Z.to_nat 280896) m) as Hc.
        rewrite Z2Nat.id in Hc by lia. exact Hc.
Qed.

Lemma run_frame_four_frames_witness :
  run_frame machine_new = machine_new
  /\ dot (display (run_frame machine_running)) = 0
  /\ cycles (cpu (system (run_frame machine_running))) <= 3 * 280896.
Proof.
  assert (W : wf_display (display machine_running)).
  { unfold wf_display, DOTS_PER_SCANLINE, TOTAL_SCANLINES. cbn. lia. }
  assert (Hr : int_range (cycles (cpu (system machine_running)))).
  { unfold int_range, INT_MAX.
    change (cycles (cpu (system machine_running))) with 0. lia. }
  assert (Hmax : cycles (cpu (system machine_running)) + 3 * 280896
                 <= INT_MAX).
  { unfold INT_MAX.
    change (cycles (cpu (system machine_running))) with 0. lia. }
  destruct (run_frame_four_frames machine_new) as (_ & Hoff & _).
  destruct (run_frame_four_frames machine_running) as (_ & _ & Hon).
  split; [apply Hoff; reflexivity|].
  destruct (Hon eq_refl W) as (_ & _ & Hd & _ & _ & Hcy).
  split; [rewrite Hd; reflexivity|].
  destruct (Hcy Hr Hmax) as (_ & _ & Hup).
  change (cycles (cpu (system machine_running))) with 0 in Hup. exact Hup.
Defined.

(** X30.  A call of [run_frame] on a running machine redraws the whole
    screen: whatever the frame buffer held before and whatever the display
    registers and video memory hold, afterwards each of the 240 x 160
    pixels has full alpha; and no pixel outside the screen is ever
    written. *)
Theorem run_frame_draws_screen (m : Machine) (index : Z) :
  running (system m) = true ->
  wf_display (display m) ->
  (0 <= index < GBA_SCREEN_WIDTH * GBA_SCREEN_HEIGHT ->
   opaque (framebuffer (display (run_frame m)) index))
  /\ (~ 0 <= index < GBA_SCREEN_WIDTH * GBA_SCREEN_HEIGHT ->
      framebuffer (display (run_frame m)) index
      = framebuffer (display m) index).
Proof.
  intros Hr Hwf. rewrite (run_frame_steps m Hr). split.
  - intros Hi. apply machine_steps_draw_all; [exact Hwf | | exact Hi].
    rewrite Z2Nat.id by lia. frame_numbers. lia.
  - intros Hi. apply machine_steps_outside; assumption.
Qed.

Lemma run_frame_draws_screen_witness :
  opaque (framebuffer (display (run_frame machine_running)) 0).
Proof.
  assert (W : wf_display (display machine_running)).
  { unfold wf_display, DOTS_PER_SCANLINE, TOTAL_SCANLINES. cbn. lia. }
  destruct (run_frame_draws_screen machine_running 0 eq_refl W) as (H & _).
  apply H. unfold GBA_SCREEN_WIDTH, GBA_SCREEN_HEIGHT. lia.
Defined.
